(** * A calculation service with bearer-token authentication

    Shallow embedding of [app/auth.py], [app/users.py] and
    [app/calculations.py].

    - Operands and results are IEEE-754 doubles: Rocq's primitive [float].
    - Timestamps and durations ([datetime], [timedelta]) are whole seconds
      in [Z], without the range limits of [datetime]; the clock is an
      explicit argument [now].
    - A SQLAlchemy session is a pair of database states: what is committed
      and what the session currently sees; [db_commit] and [db_rollback]
      copy one onto the other. The database can fail a request at two
      points: at the commit, and at the [db.refresh] that follows it.
    - What SQL leaves to the database engine is a parameter: the row
      [.first()] returns among several matching ones, and the order of
      rows with equal sort keys.
    - A Python exception is the [Raise] branch of [Result].
    - Logging has no effect on any result and is left out. *)

From Stdlib Require Import ZArith Floats Lia Bool Ascii String.
From Stdlib Require Import Sorted Permutation.
From stdpp Require Import base option strings pretty list gmap.

Open Scope string_scope.
Open Scope Z_scope.

(** ** Exceptions and results *)

Inductive Exn : Type :=
| HTTPException (status_code : Z) (detail : string)
| DivisionByZeroError
| InvalidOperationError (message : string)
| JWTError
| SQLAlchemyError.

Inductive Result (A : Type) : Type :=
| Ok (value : A)
| Raise (e : Exn).
Arguments Ok {A} value.
Arguments Raise {A} e.

Definition HTTP_400_BAD_REQUEST : Z := 400.
Definition HTTP_401_UNAUTHORIZED : Z := 401.
Definition HTTP_403_FORBIDDEN : Z := 403.
Definition HTTP_404_NOT_FOUND : Z := 404.
Definition HTTP_422_UNPROCESSABLE_ENTITY : Z := 422.
Definition HTTP_500_INTERNAL_SERVER_ERROR : Z := 500.

(** The status a response carries when the request fails: an
    [HTTPException] gives its own status, any other exception that leaves
    a handler is answered with 500 by the framework. *)
Definition status_of {A} (r : Result A) : option Z :=
  match r with
  | Ok _ => None
  | Raise (HTTPException c _) => Some c
  | Raise _ => Some HTTP_500_INTERNAL_SERVER_ERROR
  end.

Definition is_client_error (c : Z) : bool := (400 <=? c) && (c <? 500).

Definition failed {A} (r : Result A) : bool :=
  match r with Ok _ => false | Raise _ => true end.

(** ** Rows of the two tables *)

(** Modelled from the spec: [app.models] is not among the sources. "User:
    unique numeric id; unique username; unique email; password hash
    (opaque, never the plaintext); active flag; creation timestamp." The
    setters are the attribute assignments of [update_user]. *)
Module User.
Record t : Type := mk {
  id : Z;
  username : string;
  email : string;
  password_hash : string;
  is_active : bool;
  created_at : Z
}.
Definition set_username (v : string) (u : t) : t :=
  mk (id u) v (email u) (password_hash u) (is_active u) (created_at u).
Definition set_email (v : string) (u : t) : t :=
  mk (id u) (username u) v (password_hash u) (is_active u) (created_at u).
Definition set_password_hash (v : string) (u : t) : t :=
  mk (id u) (username u) (email u) v (is_active u) (created_at u).
End User.

(** Modelled from the spec: [app.models] is not among the sources.
    "Calculation: numeric id; owning user id (foreign reference); two
    numeric operands (floating point); an operation tag ...; a computed
    result (floating point); creation timestamp." The setters are the
    attribute assignments of [edit_calculation]. *)
Module Calculation.
Record t : Type := mk {
  id : Z;
  user_id : Z;
  a : float;
  b : float;
  type : string;
  result : float;
  created_at : Z
}.
Definition set_a (v : float) (c : t) : t :=
  mk (id c) (user_id c) v (b c) (type c) (result c) (created_at c).
Definition set_b (v : float) (c : t) : t :=
  mk (id c) (user_id c) (a c) v (type c) (result c) (created_at c).
Definition set_type (v : string) (c : t) : t :=
  mk (id c) (user_id c) (a c) (b c) v (result c) (created_at c).
Definition set_result (v : float) (c : t) : t :=
  mk (id c) (user_id c) (a c) (b c) (type c) v (created_at c).
End Calculation.

(** ** Request bodies ([app.schemas]) *)

(** Modelled from the spec: [app.schemas] is not among the sources. The
    bodies are "{a, b, type}", "{username, email, password}" and the
    login pair; each record has the attributes the handlers read, and the
    update bodies hold optional ones, [None] when the field is not
    supplied. *)

Module CalculationCreate.
Record t : Type := mk { a : float; b : float; type : string }.
End CalculationCreate.

Module CalculationUpdate.
Record t : Type := mk {
  a : option float;
  b : option float;
  type : option string
}.
End CalculationUpdate.

Module UserCreate.
Record t : Type := mk { username : string; email : string; password : string }.
End UserCreate.

Module UserLogin.
Record t : Type := mk { username : string; password : string }.
End UserLogin.

Module UserUpdate.
Record t : Type := mk {
  username : option string;
  email : option string;
  password : option string
}.
End UserUpdate.

(** ** The record store *)

(** The database: both tables in insertion order, and the two primary-key
    sequences. *)
Record Db : Type := mkDb {
  users : list User.t;
  calculations : list Calculation.t;
  users_id_seq : Z;
  calculations_id_seq : Z
}.

(** A session: the committed database, the session's own view of it with
    the changes not yet committed, and the two "unexpected errors" the
    handlers can meet: the database refuses the next commit, or it fails
    the [db.refresh] that reloads a row after the commit. *)
Record Session : Type := mkSession {
  committed : Db;
  pending : Db;
  commit_fails : bool;
  refresh_fails : bool
}.

(** The faults of the database during one request. *)
Record Faults : Type := mkFaults {
  commit_raises : bool;
  refresh_raises : bool
}.

Definition no_faults : Faults := mkFaults false false.

(** Modelled from the spec: [app.database.get_db] is not among the
    sources. "Implicit database session lifetime (acquire/use/release per
    request)": a session is opened on the database for one request ... *)
Definition open_session (d : Db) (fault : Faults) : Session :=
  mkSession d d (commit_raises fault) (refresh_raises fault).

(** ... and closed after it: what was not committed is dropped. *)
Definition close_session (db : Session) : Db := committed db.

Definition db_commit (db : Session) : Result Session :=
  if commit_fails db then Raise SQLAlchemyError
  else Ok (mkSession (pending db) (pending db)
             (commit_fails db) (refresh_fails db)).

Definition db_rollback (db : Session) : Session :=
  mkSession (committed db) (committed db) (commit_fails db) (refresh_fails db).

(** [db.refresh(row)]: the row is read again from the database; the
    values it gets are the ones just committed. *)
Definition db_refresh {A} (row : A) (db : Session) : Result A :=
  if refresh_fails db then Raise SQLAlchemyError else Ok row.

Definition with_pending (d : Db) (db : Session) : Session :=
  mkSession (committed db) d (commit_fails db) (refresh_fails db).

(** What SQL leaves to the database engine. A query without [ORDER BY]
    that takes [.first()] gets one of the matching rows, whichever the
    engine meets first: [first_row] of the matching rows. The login
    query, which matches two columns, is written with it; the other
    [.first()] queries filter on a primary key or on one unique column,
    or only ask whether a row exists, and are written with [List.find].
    [ORDER BY created_at DESC] does not order rows of equal timestamp:
    the engine decides, query by query ([OFFSET] and [LIMIT] tell the
    queries of the listing apart), which of two such rows comes first. *)
Class Engine : Type := {
  first_row : list User.t -> option User.t;
  first_row_matches :
    forall rows row, first_row rows = Some row -> List.In row rows;
  first_row_found : forall rows, first_row rows = None -> rows = [];
  tie_before : Z -> Z -> Calculation.t -> Calculation.t -> bool
}.

(** [db.add(Calculation(...))]: the row gets the next primary key and the
    server's timestamp. *)
Definition db_add_calculation (now user_id : Z) (a b : float) (type : string)
    (result : float) (db : Session) : Calculation.t * Session :=
  let d := pending db in
  let row := Calculation.mk (calculations_id_seq d) user_id a b type result now in
  (row,
   with_pending (mkDb (users d) (calculations d ++ [row])
                      (users_id_seq d) (calculations_id_seq d + 1)) db).

(** An attribute assignment on a loaded row marks it dirty: the session's
    view holds the new values under the row's primary key. *)
Definition db_merge_calculation (row : Calculation.t) (db : Session) : Session :=
  let d := pending db in
  with_pending
    (mkDb (users d)
          (map (fun c => if Calculation.id c =? Calculation.id row then row else c)
               (calculations d))
          (users_id_seq d) (calculations_id_seq d)) db.

Definition db_delete_calculation (row : Calculation.t) (db : Session) : Session :=
  let d := pending db in
  with_pending
    (mkDb (users d)
          (List.filter (fun c => negb (Calculation.id c =? Calculation.id row))
                       (calculations d))
          (users_id_seq d) (calculations_id_seq d)) db.

(** [db.query(Calculation).filter(Calculation.id == calculation_id,
    Calculation.user_id == user_id).first()] *)
Definition query_calculation (calculation_id user_id : Z) (db : Session)
    : option Calculation.t :=
  List.find (fun c => (Calculation.id c =? calculation_id)
                      && (Calculation.user_id c =? user_id))
            (calculations (pending db)).

(** [order_by(Calculation.created_at.desc())]: newest first; of two rows
    with the same timestamp the one that [before] prefers comes first. *)
Fixpoint insert_desc (before : Calculation.t -> Calculation.t -> bool)
    (c : Calculation.t) (l : list Calculation.t) : list Calculation.t :=
  match l with
  | [] => [c]
  | x :: l' =>
      if (Calculation.created_at x <? Calculation.created_at c)
         || ((Calculation.created_at x =? Calculation.created_at c)
             && before c x)
      then c :: x :: l'
      else x :: insert_desc before c l'
  end.

Definition order_by_created_at_desc
    (before : Calculation.t -> Calculation.t -> bool)
    (l : list Calculation.t) : list Calculation.t :=
  fold_left (fun acc c => insert_desc before c acc) l [].

(** [offset(skip).limit(limit)], with SQLite's reading of negative values:
    a negative offset skips nothing, a negative limit is no limit. *)
Definition offset {A} (skip : Z) (l : list A) : list A :=
  skipn (Z.to_nat skip) l.

Definition limit {A} (n : Z) (l : list A) : list A :=
  if n <? 0 then l else firstn (Z.to_nat n) l.

(** ** The calculation engine ([app.operations]) *)

(** Modelled from the spec: [app.operations.calculate] is not among the
    sources. "add -> a+b; subtract -> a-b; multiply -> a*b; divide -> a/b,
    but fails with DivisionByZero when b == 0 (exact equality on the
    floating-point value); any op outside the fixed enumeration fails with
    InvalidOperation." The exception's message is not given by the spec; it
    carries the rejected tag. *)
Definition calculate (a b : float) (op : string) : Result float :=
  if String.eqb op "add" then Ok (PrimFloat.add a b)
  else if String.eqb op "subtract" then Ok (PrimFloat.sub a b)
  else if String.eqb op "multiply" then Ok (PrimFloat.mul a b)
  else if String.eqb op "divide" then
    if PrimFloat.eqb b 0%float then Raise DivisionByZeroError
    else Ok (PrimFloat.div a b)
  else Raise (InvalidOperationError op).

(** ** Calculation handlers ([app/calculations.py]) *)

Definition calculation_not_found {A} : Result A :=
  Raise (HTTPException HTTP_404_NOT_FOUND "Calculation not found").

Definition add_calculation (now : Z) (calculation_data : CalculationCreate.t)
    (current_user : User.t) (db : Session) : Result Calculation.t * Session :=
  match calculate (CalculationCreate.a calculation_data)
                  (CalculationCreate.b calculation_data)
                  (CalculationCreate.type calculation_data) with
  | Ok result =>
      let '(new_calculation, db) :=
        db_add_calculation now (User.id current_user)
          (CalculationCreate.a calculation_data)
          (CalculationCreate.b calculation_data)
          (CalculationCreate.type calculation_data) result db in
      match db_commit db with
      | Ok db =>
          match db_refresh new_calculation db with
          | Ok new_calculation => (Ok new_calculation, db)
          | Raise _ =>
              (Raise (HTTPException HTTP_500_INTERNAL_SERVER_ERROR
                        "Internal server error while creating calculation"),
               db_rollback db)
          end
      | Raise _ =>
          (Raise (HTTPException HTTP_500_INTERNAL_SERVER_ERROR
                    "Internal server error while creating calculation"),
           db_rollback db)
      end
  | Raise DivisionByZeroError =>
      (Raise (HTTPException HTTP_400_BAD_REQUEST "Division by zero is not allowed"),
       db)
  | Raise (InvalidOperationError message) =>
      (Raise (HTTPException HTTP_400_BAD_REQUEST message), db)
  | Raise _ =>
      (Raise (HTTPException HTTP_500_INTERNAL_SERVER_ERROR
                "Internal server error while creating calculation"),
       db_rollback db)
  end.

Definition browse_calculations `{Engine} (skip lim : Z) (current_user : User.t)
    (db : Session) : list Calculation.t :=
  let lim := Z.min lim 1000 in
  limit lim
    (offset skip
       (order_by_created_at_desc (tie_before skip lim)
          (List.filter (fun c => Calculation.user_id c =? User.id current_user)
                       (calculations (pending db))))).

Definition read_calculation (calculation_id : Z) (current_user : User.t)
    (db : Session) : Result Calculation.t :=
  match query_calculation calculation_id (User.id current_user) db with
  | None => calculation_not_found
  | Some calculation => Ok calculation
  end.

(** The three conditional assignments of [edit_calculation]: the row after
    them, and the [updated] flag. *)
Definition apply_update (calculation_data : CalculationUpdate.t)
    (calculation : Calculation.t) : Calculation.t * bool :=
  let '(calculation, updated) :=
    match CalculationUpdate.a calculation_data with
    | Some v => (Calculation.set_a v calculation, true)
    | None => (calculation, false)
    end in
  let '(calculation, updated) :=
    match CalculationUpdate.b calculation_data with
    | Some v => (Calculation.set_b v calculation, true)
    | None => (calculation, updated)
    end in
  match CalculationUpdate.type calculation_data with
  | Some v => (Calculation.set_type v calculation, true)
  | None => (calculation, updated)
  end.

Definition edit_calculation (calculation_id : Z)
    (calculation_data : CalculationUpdate.t) (current_user : User.t)
    (db : Session) : Result Calculation.t * Session :=
  match query_calculation calculation_id (User.id current_user) db with
  | None => (calculation_not_found, db)
  | Some calculation =>
      let '(calculation, updated) := apply_update calculation_data calculation in
      if negb updated then (Ok calculation, db)
      else
        let db := db_merge_calculation calculation db in
        match calculate (Calculation.a calculation) (Calculation.b calculation)
                        (Calculation.type calculation) with
        | Ok result =>
            let calculation := Calculation.set_result result calculation in
            let db := db_merge_calculation calculation db in
            match db_commit db with
            | Ok db =>
                match db_refresh calculation db with
                | Ok calculation => (Ok calculation, db)
                | Raise _ =>
                    (Raise (HTTPException HTTP_500_INTERNAL_SERVER_ERROR
                              "Internal server error while updating calculation"),
                     db_rollback db)
                end
            | Raise _ =>
                (Raise (HTTPException HTTP_500_INTERNAL_SERVER_ERROR
                          "Internal server error while updating calculation"),
                 db_rollback db)
            end
        | Raise DivisionByZeroError =>
            (Raise (HTTPException HTTP_400_BAD_REQUEST
                      "Division by zero is not allowed"),
             db_rollback db)
        | Raise (InvalidOperationError message) =>
            (Raise (HTTPException HTTP_400_BAD_REQUEST message), db_rollback db)
        | Raise _ =>
            (Raise (HTTPException HTTP_500_INTERNAL_SERVER_ERROR
                      "Internal server error while updating calculation"),
             db_rollback db)
        end
  end.

(** [edit_calculation_patch]: "Reuse the PUT logic". *)
Definition edit_calculation_patch (calculation_id : Z)
    (calculation_data : CalculationUpdate.t) (current_user : User.t)
    (db : Session) : Result Calculation.t * Session :=
  edit_calculation calculation_id calculation_data current_user db.

(** The [Message] schema and the two confirmations the handlers build. *)
Record Message : Type := mkMessage { message : string }.

Definition CalculationDeleted (calculation_id : Z) : Message :=
  mkMessage ("Calculation " ++ pretty calculation_id ++ " deleted successfully").

Definition UserDeleted (username : string) : Message :=
  mkMessage ("User '" ++ username ++ "' deleted successfully").

Definition delete_calculation (calculation_id : Z) (current_user : User.t)
    (db : Session) : Result Message * Session :=
  match query_calculation calculation_id (User.id current_user) db with
  | None => (calculation_not_found, db)
  | Some calculation =>
      let db := db_delete_calculation calculation db in
      match db_commit db with
      | Ok db => (Ok (CalculationDeleted calculation_id), db)
      | Raise e => (Raise e, db)
      end
  end.

(** ** Tokens ([python-jose]) *)

(** A JSON value of a claims dictionary. *)
Inductive JVal : Type :=
| JStr (s : string)
| JInt (n : Z).

Abbreviation Claims := (gmap string JVal).

(** A bearer credential as the JWT library sees it: either a string that is
    not a JWS compact serialization, or a header algorithm, a payload and a
    signature. *)
Inductive Token : Type :=
| Malformed (raw : string)
| Jws (alg : string) (payload : Claims) (signature : string).

(** What the sources take from libraries and do not define: the MAC of
    [python-jose], its checks of registered claims other than [exp] and
    [sub] (the application sets none of those), and [passlib]'s bcrypt,
    whose random salt is an explicit first argument. *)
Class Libraries : Type := {
  hmac_sha256 : string -> Claims -> string;
  registered_claims_ok : Z -> Claims -> bool;
  bcrypt_hash : string -> string -> string;
  bcrypt_verify : string -> string -> bool
}.

(** The process configuration, read from the environment at start-up. *)
Class Settings : Type := {
  SECRET_KEY : string;
  ACCESS_TOKEN_EXPIRE_MINUTES : Z
}.

(** The value constraints of the request schemas in [app.schemas], which is
    not among the sources: a body that fails them is answered with 422
    before the handler runs. *)
Class Schemas : Type := {
  CalculationCreate_valid : CalculationCreate.t -> bool;
  CalculationUpdate_valid : CalculationUpdate.t -> bool;
  UserUpdate_valid : UserUpdate.t -> bool
}.

Definition ALGORITHM : string := "HS256".

Section Auth.
Context `{Libraries} `{Settings}.

Definition jwt_encode (claims : Claims) (key algorithm : string) : Token :=
  Jws algorithm claims (hmac_sha256 key claims).

(** [exp], when it is a number, must not lie before the clock. *)
Definition exp_ok (now : Z) (claims : Claims) : bool :=
  match claims !! "exp" with
  | Some (JInt exp) => negb (exp <? now)
  | _ => true
  end.

(** [sub], when present, must be a string. *)
Definition sub_ok (claims : Claims) : bool :=
  match claims !! "sub" with
  | Some (JInt _) => false
  | _ => true
  end.

(** [jwt.decode(token, key, algorithms=...)]: every failure is a
    [JWTError] (or a subclass of it). *)
Definition jwt_decode (now : Z) (token : Token) (key : string)
    (algorithms : list string) : Result Claims :=
  match token with
  | Malformed _ => Raise JWTError
  | Jws alg payload signature =>
      if negb (existsb (String.eqb alg) algorithms) then Raise JWTError
      else if negb (String.eqb signature (hmac_sha256 key payload))
      then Raise JWTError
      else if negb (exp_ok now payload) then Raise JWTError
      else if negb (sub_ok payload) then Raise JWTError
      else if negb (registered_claims_ok now payload) then Raise JWTError
      else Ok payload
  end.

(** ** [app/auth.py] *)

Definition hash_password (salt password : string) : string :=
  bcrypt_hash salt password.

Definition verify_password (plain_password hashed_password : string) : bool :=
  bcrypt_verify plain_password hashed_password.

(** [timedelta(minutes=m)] in seconds. *)
Definition timedelta_minutes (m : Z) : Z := 60 * m.

(** A [timedelta] is false in a condition exactly when it is zero. *)
Definition timedelta_truthy (d : Z) : bool := negb (d =? 0).

Definition create_access_token (now : Z) (data : Claims)
    (expires_delta : option Z) : Token :=
  let to_encode := data in
  let expire :=
    match expires_delta with
    | Some d =>
        if timedelta_truthy d then now + d
        else now + timedelta_minutes ACCESS_TOKEN_EXPIRE_MINUTES
    | None => now + timedelta_minutes ACCESS_TOKEN_EXPIRE_MINUTES
    end in
  let to_encode := <["exp" := JInt expire]> to_encode in
  jwt_encode to_encode SECRET_KEY ALGORITHM.

(** [except JWTError: return None]; any other exception would leave the
    function. *)
Definition decode_access_token (now : Z) (token : Token)
    : Result (option Claims) :=
  match jwt_decode now token SECRET_KEY [ALGORITHM] with
  | Ok payload => Ok (Some payload)
  | Raise JWTError => Ok None
  | Raise e => Raise e
  end.

(** ** The bearer scheme ([security = HTTPBearer()]) *)

Definition lower_ascii (c : ascii) : ascii :=
  let n := nat_of_ascii c in
  if ((65 <=? n) && (n <=? 90))%nat then ascii_of_nat (n + 32) else c.

Fixpoint lower (s : string) : string :=
  match s with
  | EmptyString => EmptyString
  | String c s' => String (lower_ascii c) (lower s')
  end.

Definition empty_credentials (t : Token) : bool :=
  match t with Malformed "" => true | _ => false end.

(** The [Authorization] header, absent or split into its scheme and its
    credentials. The scheme answers 403 by itself when there is nothing
    to hand to the resolver, as the tests of the calculation routes
    record ("without_auth": 403). *)
Definition security (authorization : option (string * Token)) : Result Token :=
  match authorization with
  | None => Raise (HTTPException HTTP_403_FORBIDDEN "Not authenticated")
  | Some (scheme, credentials) =>
      if String.eqb scheme "" || empty_credentials credentials
      then Raise (HTTPException HTTP_403_FORBIDDEN "Not authenticated")
      else if negb (String.eqb (lower scheme) "bearer")
      then Raise (HTTPException HTTP_403_FORBIDDEN
                    "Invalid authentication credentials")
      else Ok credentials
  end.

(** ** [app/users.py] *)

Definition credentials_exception {A} : Result A :=
  Raise (HTTPException HTTP_401_UNAUTHORIZED "Could not validate credentials").

(** [User.username == v] for a claim value [v]: only a string can equal
    a user name. *)
Definition username_is (v : JVal) (u : User.t) : bool :=
  match v with
  | JStr s => String.eqb (User.username u) s
  | JInt _ => false
  end.

Definition get_current_user_dependency (now : Z) (credentials : Token)
    (db : Session) : Result User.t :=
  let token := credentials in
  match decode_access_token now token with
  | Raise e => Raise e
  | Ok None => credentials_exception
  | Ok (Some payload) =>
      match payload !! "sub" with
      | None => credentials_exception
      | Some username =>
          match List.find (username_is username) (users (pending db)) with
          | None => credentials_exception
          | Some user => Ok user
          end
      end
  end.
End Auth.

(** ** User handlers ([app/users.py]) *)

(** Modelled from the spec: [app.schemas] is not among the sources. The
    "user projection" of a response has the fields the demonstration
    script prints: id, username, email, active flag, creation time. *)
Module UserResponse.
Record t : Type := mk {
  id : Z;
  username : string;
  email : string;
  is_active : bool;
  created_at : Z
}.
(** The public projection of a row: everything but the password hash. *)
Definition model_validate (u : User.t) : t :=
  mk (User.id u) (User.username u) (User.email u) (User.is_active u)
     (User.created_at u).
End UserResponse.

Module AuthResponse.
Record t : Type := mk {
  message : string;
  user : UserResponse.t;
  access_token : Token;
  token_type : string
}.
End AuthResponse.

(** [db.add(User(username=..., email=..., password_hash=...))]: the row
    gets the next primary key, the server's timestamp and the column
    default of the active flag, under which a fresh account can log in. *)
Definition db_add_user (now : Z) (username email password_hash : string)
    (db : Session) : User.t * Session :=
  let d := pending db in
  let row := User.mk (users_id_seq d) username email password_hash true now in
  (row,
   with_pending (mkDb (users d ++ [row]) (calculations d)
                      (users_id_seq d + 1) (calculations_id_seq d)) db).

Definition db_merge_user (row : User.t) (db : Session) : Session :=
  let d := pending db in
  with_pending
    (mkDb (map (fun u => if User.id u =? User.id row then row else u) (users d))
          (calculations d) (users_id_seq d) (calculations_id_seq d)) db.

(** [db.delete(user)]: the user's row goes; what happens to the rows that
    refer to it is decided by [app.models], which is not among the
    sources, and is left as it is here. *)
Definition db_delete_user (row : User.t) (db : Session) : Session :=
  let d := pending db in
  with_pending
    (mkDb (List.filter (fun u => negb (User.id u =? User.id row)) (users d))
          (calculations d) (users_id_seq d) (calculations_id_seq d)) db.

Definition query_user_by_id (user_id : Z) (db : Session) : option User.t :=
  List.find (fun u => User.id u =? user_id) (users (pending db)).

(** [if value:] on an optional string: absent and empty both count as not
    provided. *)
Definition provided (value : option string) : option string :=
  match value with
  | Some s => if String.eqb s "" then None else Some s
  | None => None
  end.

Section Users.
Context `{Libraries} `{Settings} `{Engine}.

Definition register_user (now : Z) (salt : string) (user_data : UserCreate.t)
    (db : Session) : Result AuthResponse.t * Session :=
  match List.find (fun u => String.eqb (User.username u)
                                       (UserCreate.username user_data))
                  (users (pending db)) with
  | Some _ =>
      (Raise (HTTPException HTTP_400_BAD_REQUEST "Username already registered"),
       db)
  | None =>
      match List.find (fun u => String.eqb (User.email u)
                                           (UserCreate.email user_data))
                      (users (pending db)) with
      | Some _ =>
          (Raise (HTTPException HTTP_400_BAD_REQUEST "Email already registered"),
           db)
      | None =>
          let hashed_password :=
            hash_password salt (UserCreate.password user_data) in
          let '(new_user, db) :=
            db_add_user now (UserCreate.username user_data)
              (UserCreate.email user_data) hashed_password db in
          match db_commit db with
          | Raise e => (Raise e, db)
          | Ok db =>
              match db_refresh new_user db with
              | Raise e => (Raise e, db)
              | Ok new_user =>
                  let access_token_expires :=
                    timedelta_minutes ACCESS_TOKEN_EXPIRE_MINUTES in
                  let access_token :=
                    create_access_token now
                      {[ "sub" := JStr (User.username new_user) ]}
                      (Some access_token_expires) in
                  (Ok (AuthResponse.mk "Registration successful"
                         (UserResponse.model_validate new_user)
                         access_token "bearer"),
                   db)
              end
          end
      end
  end.

(** [(User.username == x) | (User.email == x)], the filter of the login
    query. *)
Definition username_or_email (x : string) (u : User.t) : bool :=
  String.eqb (User.username u) x || String.eqb (User.email u) x.

Definition login_user (now : Z) (login_data : UserLogin.t) (db : Session)
    : Result AuthResponse.t :=
  match first_row
          (List.filter (username_or_email (UserLogin.username login_data))
                       (users (pending db))) with
  | None =>
      Raise (HTTPException HTTP_401_UNAUTHORIZED "Invalid username or password")
  | Some user =>
      if negb (verify_password (UserLogin.password login_data)
                               (User.password_hash user))
      then Raise (HTTPException HTTP_401_UNAUTHORIZED
                    "Invalid username or password")
      else if negb (User.is_active user)
      then Raise (HTTPException HTTP_403_FORBIDDEN "User account is inactive")
      else
        let access_token_expires :=
          timedelta_minutes ACCESS_TOKEN_EXPIRE_MINUTES in
        let access_token :=
          create_access_token now {[ "sub" := JStr (User.username user) ]}
            (Some access_token_expires) in
        Ok (AuthResponse.mk "Login successful"
              (UserResponse.model_validate user) access_token "bearer")
  end.

Definition get_current_user_info (current_user : User.t) : User.t :=
  current_user.

Definition get_users (skip lim : Z) (db : Session) : list User.t :=
  limit lim (offset skip (users (pending db))).

Definition user_not_found {A} : Result A :=
  Raise (HTTPException HTTP_404_NOT_FOUND "User not found").

Definition get_user (user_id : Z) (db : Session) : Result User.t :=
  match query_user_by_id user_id db with
  | None => user_not_found
  | Some user => Ok user
  end.

(** The three "if provided" blocks of [update_user], on the loaded row
    and the session. *)
Definition update_username (user_id : Z) (user_data : UserUpdate.t)
    (user : User.t) (db : Session) : Result (User.t * Session) :=
  match provided (UserUpdate.username user_data) with
  | None => Ok (user, db)
  | Some username =>
      match List.find (fun u => String.eqb (User.username u) username
                                && negb (User.id u =? user_id))
                      (users (pending db)) with
      | Some _ =>
          Raise (HTTPException HTTP_400_BAD_REQUEST "Username already taken")
      | None =>
          let user := User.set_username username user in
          Ok (user, db_merge_user user db)
      end
  end.

Definition update_email (user_id : Z) (user_data : UserUpdate.t)
    (user : User.t) (db : Session) : Result (User.t * Session) :=
  match provided (UserUpdate.email user_data) with
  | None => Ok (user, db)
  | Some email =>
      match List.find (fun u => String.eqb (User.email u) email
                                && negb (User.id u =? user_id))
                      (users (pending db)) with
      | Some _ =>
          Raise (HTTPException HTTP_400_BAD_REQUEST "Email already taken")
      | None =>
          let user := User.set_email email user in
          Ok (user, db_merge_user user db)
      end
  end.

Definition update_password (salt : string) (user_data : UserUpdate.t)
    (user : User.t) (db : Session) : User.t * Session :=
  match provided (UserUpdate.password user_data) with
  | None => (user, db)
  | Some password =>
      let user := User.set_password_hash (hash_password salt password) user in
      (user, db_merge_user user db)
  end.

Definition update_user (salt : string) (user_id : Z) (user_data : UserUpdate.t)
    (db : Session) : Result User.t * Session :=
  match query_user_by_id user_id db with
  | None => (user_not_found, db)
  | Some user =>
      match update_username user_id user_data user db with
      | Raise e => (Raise e, db)
      | Ok (user, db) =>
          match update_email user_id user_data user db with
          | Raise e => (Raise e, db)
          | Ok (user, db) =>
              let '(user, db) := update_password salt user_data user db in
              match db_commit db with
              | Raise e => (Raise e, db)
              | Ok db =>
                  match db_refresh user db with
                  | Raise e => (Raise e, db)
                  | Ok user => (Ok user, db)
                  end
              end
          end
      end
  end.

Definition delete_user (user_id : Z) (db : Session)
    : Result Message * Session :=
  match query_user_by_id user_id db with
  | None => (user_not_found, db)
  | Some user =>
      let username := User.username user in
      let db := db_delete_user user db in
      match db_commit db with
      | Raise e => (Raise e, db)
      | Ok db => (Ok (UserDeleted username), db)
      end
  end.
End Users.

(** ** Routes: a handler behind its declared dependencies *)

Section Routes.
Context `{Libraries} `{Settings} `{Schemas} `{Engine}.

(** One request: a session is opened on the database, the handler runs,
    the session is closed. *)
Definition request {A} (d : Db) (fault : Faults)
    (handler : Session -> Result A * Session) : Result A * Db :=
  let '(r, db) := handler (open_session d fault) in
  (r, close_session db).

(** [Depends(get_current_user_dependency)], itself behind
    [Depends(security)]. *)
Definition current_user_of (now : Z) (authorization : option (string * Token))
    (db : Session) : Result User.t :=
  match security authorization with
  | Raise e => Raise e
  | Ok credentials => get_current_user_dependency now credentials db
  end.

Definition protected {A} (now : Z) (authorization : option (string * Token))
    (handler : User.t -> Session -> Result A * Session)
    (db : Session) : Result A * Session :=
  match current_user_of now authorization db with
  | Raise e => (Raise e, db)
  | Ok current_user => handler current_user db
  end.

Definition validated {A} (valid : bool)
    (handler : Session -> Result A * Session)
    (db : Session) : Result A * Session :=
  if valid then handler db
  else (Raise (HTTPException HTTP_422_UNPROCESSABLE_ENTITY
                 "Unprocessable Entity"), db).

Definition pure_handler {A} (f : Session -> Result A)
    (db : Session) : Result A * Session :=
  (f db, db).

(** The calculation routes: every one declares [current_user]. *)
Definition POST_calculations now authorization body d fault :=
  request d fault
    (protected now authorization (fun current_user =>
       validated (CalculationCreate_valid body)
         (add_calculation now body current_user))).

Definition GET_calculations now authorization skip lim d fault :=
  request d fault
    (protected now authorization (fun current_user =>
       pure_handler (fun db => Ok (browse_calculations skip lim current_user db)))).

Definition GET_calculation now authorization calculation_id d fault :=
  request d fault
    (protected now authorization (fun current_user =>
       pure_handler (read_calculation calculation_id current_user))).

Definition PUT_calculation now authorization calculation_id body d fault :=
  request d fault
    (protected now authorization (fun current_user =>
       validated (CalculationUpdate_valid body)
         (edit_calculation calculation_id body current_user))).

Definition PATCH_calculation now authorization calculation_id body d fault :=
  request d fault
    (protected now authorization (fun current_user =>
       validated (CalculationUpdate_valid body)
         (edit_calculation_patch calculation_id body current_user))).

Definition DELETE_calculation now authorization calculation_id d fault :=
  request d fault
    (protected now authorization (fun current_user =>
       delete_calculation calculation_id current_user)).

Definition GET_users_me now authorization d fault :=
  request d fault
    (protected now authorization (fun current_user =>
       pure_handler (fun _ => Ok (get_current_user_info current_user)))).

(** The user routes by id and the user list declare only the session:
    the [Authorization] header of the request is not looked at. *)
Definition GET_users (authorization : option (string * Token))
    (skip lim : Z) d fault :=
  request d fault (pure_handler (fun db => Ok (get_users skip lim db))).

Definition GET_user (authorization : option (string * Token))
    (user_id : Z) d fault :=
  request d fault (pure_handler (get_user user_id)).

Definition PUT_user (authorization : option (string * Token))
    (salt : string) (user_id : Z) (body : UserUpdate.t) d fault :=
  request d fault
    (validated (UserUpdate_valid body) (update_user salt user_id body)).

Definition DELETE_user (authorization : option (string * Token))
    (user_id : Z) d fault :=
  request d fault (delete_user user_id).
End Routes.

(** ** Instances for concrete scenarios *)

(** Stand-ins for the libraries, good enough to run the handlers: a MAC
    that depends on the key and on the subject and expiry it covers, and a
    digest that marks its input. *)
Definition render (v : option JVal) : string :=
  match v with
  | Some (JStr s) => "s:" ++ s
  | Some (JInt n) => "i:" ++ pretty n
  | None => "-"
  end.

Definition test_libraries : Libraries := {|
  hmac_sha256 key claims :=
    key ++ "|" ++ render (claims !! "sub") ++ "|" ++ render (claims !! "exp");
  registered_claims_ok _ _ := true;
  bcrypt_hash salt password := "$2b$12$" ++ salt ++ "$" ++ password;
  bcrypt_verify plain hashed := String.eqb hashed ("$2b$12$salt$" ++ plain)
|}.

(** The defaults of [app/auth.py]. *)
Definition default_settings : Settings := {|
  SECRET_KEY := "your-secret-key-change-this-in-production";
  ACCESS_TOKEN_EXPIRE_MINUTES := 30
|}.

(** A create schema that rejects a zero divisor (the tests see 422 there),
    and update schemas that accept everything. *)
Definition test_schemas : Schemas := {|
  CalculationCreate_valid body :=
    negb (String.eqb (CalculationCreate.type body) "divide"
          && PrimFloat.eqb (CalculationCreate.b body) 0%float);
  CalculationUpdate_valid _ := true;
  UserUpdate_valid _ := true
|}.

(** An engine that goes through a table in insertion order: [.first()]
    is the first matching row, and of two rows with the same timestamp
    the one inserted first comes first. *)
Definition first_inserted (rows : list User.t) : option User.t :=
  match rows with
  | [] => None
  | row :: _ => Some row
  end.

Definition insertion_order : Engine.
Proof.
  refine {| first_row := first_inserted; tie_before _ _ _ _ := false |}.
  - intros [|x rows] row E; simpl in E; [discriminate|].
    injection E as ->. left. reflexivity.
  - intros [|x rows] E; simpl in E; [reflexivity|discriminate].
Defined.

Definition alice : User.t :=
  User.mk 1 "alice" "alice@x.com" "$2b$12$salt$password123" true 0.

Definition bob : User.t :=
  User.mk 2 "bob" "bob@x.com" "$2b$12$salt$hunter2hunter2" false 0.

Definition empty_db : Db := mkDb [] [] 1 1.

Definition two_users_db : Db := mkDb [alice; bob] [] 3 1.

Definition first_calculation : Calculation.t :=
  Calculation.mk 1 1 10 5 "add" 15 0.

Definition one_calculation_db : Db :=
  mkDb [alice; bob] [first_calculation] 3 2.

Definition alice_claims : Claims := {[ "sub" := JStr "alice" ]}.

(** ** Vocabulary of the statements *)

(** An update body with no field supplied. *)
Definition no_fields : CalculationUpdate.t := CalculationUpdate.mk None None None.

(** The primary key of the calculation table: no two rows share an
    identifier, and the sequence is ahead of every row. *)
Definition calculations_pk (d : Db) : Prop :=
  NoDup (map Calculation.id (calculations d))
  /\ Forall (fun c => Calculation.id c < calculations_id_seq d) (calculations d).

(** What a step of [update_user] keeps: the loaded row is in the
    session's view under the requested identifier, the rows of the view
    are that row or rows the view had before, and nothing is committed
    yet. *)
Definition step_ok (uid : Z) (db : Session) (user : User.t) (db' : Session)
    : Prop :=
  List.In user (users (pending db'))
  /\ User.id user = uid
  /\ (forall x, List.In x (users (pending db')) ->
                User.id x = uid \/ List.In x (users (pending db)))
  /\ committed db' = committed db
  /\ commit_fails db' = commit_fails db
  /\ refresh_fails db' = refresh_fails db.

(** The session as it would be with a database that fails nothing. *)
Definition without_faults (db : Session) : Session :=
  mkSession (committed db) (pending db) false false.

(** The answer of the bearer scheme to a request without credentials. *)
Definition not_authenticated {A} : Result A :=
  Raise (HTTPException HTTP_403_FORBIDDEN "Not authenticated").

Section UpdatedUser.
Context `{Libraries}.

(** The row an accepted update leaves: the provided fields assigned in
    the handler's order. *)
Definition updated_user (salt : string) (body : UserUpdate.t) (u : User.t)
    : User.t :=
  let u := match provided (UserUpdate.username body) with
           | Some v => User.set_username v u | None => u end in
  let u := match provided (UserUpdate.email body) with
           | Some v => User.set_email v u | None => u end in
  match provided (UserUpdate.password body) with
  | Some v => User.set_password_hash (hash_password salt v) u
  | None => u
  end.
End UpdatedUser.

Definition second_calculation : Calculation.t :=
  Calculation.mk 2 1 4 3 "multiply" 12 20.

Definition third_calculation : Calculation.t :=
  Calculation.mk 3 2 9 3 "divide" 3 10.

Definition three_calculations_db : Db :=
  mkDb [alice; bob] [first_calculation; second_calculation; third_calculation]
       3 4.

Definition carol_data : UserCreate.t :=
  UserCreate.mk "carol" "carol@x.com" "password123".

(** The order of a listing: a row is not older than the rows after it. *)
Definition newest_first : list Calculation.t -> Prop :=
  StronglySorted (fun x y => Calculation.created_at y <= Calculation.created_at x).

(** The rows of a user, in table order. *)
Definition calculations_of (u : User.t) (db : Session) : list Calculation.t :=
  List.filter (fun c => Calculation.user_id c =? User.id u)
              (calculations (pending db)).

(** A row whose stored result is what the engine gives for its operands
    and operation. *)
Definition result_is_computed (c : Calculation.t) : Prop :=
  calculate (Calculation.a c) (Calculation.b c) (Calculation.type c)
  = Ok (Calculation.result c).

(** The keys of the user table: the primary key, with the sequence ahead
    of every row, and the two unique columns. *)
Definition users_unique (d : Db) : Prop :=
  NoDup (map User.id (users d))
  /\ Forall (fun u => User.id u < users_id_seq d) (users d)
  /\ NoDup (map User.username (users d))
  /\ NoDup (map User.email (users d)).

(** What [update_user] has in hand between two of its blocks. *)
Definition loaded (uid : Z) (db0 : Session) (user : User.t) (db : Session)
    : Prop :=
  List.In user (users (pending db))
  /\ User.id user = uid
  /\ committed db = committed db0
  /\ commit_fails db = commit_fails db0
  /\ refresh_fails db = refresh_fails db0
  /\ (users_unique (pending db0) -> users_unique (pending db)).

(** Another row holds the user name, or the address, an update asks
    for. *)
Definition username_taken (uid : Z) (body : UserUpdate.t) (db : Session) : Prop :=
  exists v x, provided (UserUpdate.username body) = Some v
              /\ List.In x (users (pending db))
              /\ User.username x = v /\ User.id x <> uid.

Definition email_taken (uid : Z) (body : UserUpdate.t) (db : Session) : Prop :=
  exists v x, provided (UserUpdate.email body) = Some v
              /\ List.In x (users (pending db))
              /\ User.email x = v /\ User.id x <> uid.

(** What [auth.get_current_user] returns: the user's row when it is given
    a session, the dictionary [{"username": sub}] when it is not. *)
Inductive CurrentUser : Type :=
| UserRow (user : User.t)
| UsernameOnly (username : JVal).

Section SessionTokens.
Context `{Libraries} `{Settings} `{Engine}.

(** The token both account handlers issue for a user name at [now]. *)
Definition session_token (now : Z) (name : string) : Token :=
  create_access_token now {[ "sub" := JStr name ]}
    (Some (timedelta_minutes ACCESS_TOKEN_EXPIRE_MINUTES)).

Definition session_payload (now : Z) (name : string) : Claims :=
  <["exp" := JInt (now + timedelta_minutes ACCESS_TOKEN_EXPIRE_MINUTES)]>
    {[ "sub" := JStr name ]}.

(** [get_current_user] of [app/auth.py], whose session is optional. *)
Definition get_current_user (now : Z) (credentials : Token)
    (db : option Session) : Result CurrentUser :=
  let token := credentials in
  match decode_access_token now token with
  | Raise e => Raise e
  | Ok None => credentials_exception
  | Ok (Some payload) =>
      match payload !! "sub" with
      | None => credentials_exception
      | Some username =>
          match db with
          | Some db =>
              match List.find (username_is username) (users (pending db)) with
              | None => credentials_exception
              | Some user => Ok (UserRow user)
              end
          | None => Ok (UsernameOnly username)
          end
      end
  end.
End SessionTokens.

(** ** Basic facts *)

Lemma find_none_iff {A} (f : A -> bool) (l : list A) :
  List.find f l = None <-> forall x, List.In x l -> f x = false.
Proof.
  split.
  - apply find_none.
  - induction l as [|y l IH]; intros Hall; simpl; [reflexivity|].
    rewrite (Hall y (or_introl eq_refl)).
    apply IH. intros x Hx. apply Hall. right. exact Hx.
Qed.

Lemma find_some_iff {A} (f : A -> bool) (l : list A) :
  (exists x, List.find f l = Some x) <-> exists x, List.In x l /\ f x = true.
Proof.
  split.
  - intros [x Hx]. exists x. eapply find_some. exact Hx.
  - intros [x [Hin Hf]]. destruct (List.find f l) as [y|] eqn:E.
    + exists y. reflexivity.
    + rewrite (find_none _ _ E x Hin) in Hf. discriminate.
Qed.

Lemma commit_ok (db : Session) :
  commit_fails db = false ->
  db_commit db = Ok (mkSession (pending db) (pending db) false (refresh_fails db)).
Proof. unfold db_commit. intros ->. reflexivity. Qed.

Lemma commit_fault (db : Session) :
  commit_fails db = true -> db_commit db = Raise SQLAlchemyError.
Proof. unfold db_commit. intros ->. reflexivity. Qed.

Lemma calculate_divide (a b : float) :
  calculate a b "divide" =
  if PrimFloat.eqb b 0%float then Raise DivisionByZeroError
  else Ok (PrimFloat.div a b).
Proof. reflexivity. Qed.

Section AuthFacts.
Context `{Libraries} `{Settings} `{Engine}.

Lemma jwt_decode_raises (now : Z) (token : Token) (key : string)
    (algorithms : list string) (e : Exn) :
  jwt_decode now token key algorithms = Raise e -> e = JWTError.
Proof.
  unfold jwt_decode. destruct token as [raw|alg payload signature].
  - intros [= <-]. reflexivity.
  - repeat (match goal with |- context [if ?c then _ else _] => destruct c end);
      intros E; inversion E; reflexivity.
Qed.

Lemma decode_access_token_returns (now : Z) (token : Token) :
  exists r, decode_access_token now token = Ok r.
Proof.
  unfold decode_access_token.
  destruct (jwt_decode now token SECRET_KEY [ALGORITHM]) as [payload|e] eqn:E.
  - eexists. reflexivity.
  - apply jwt_decode_raises in E. subst e. eexists. reflexivity.
Qed.

Lemma get_current_user_dependency_raises (now : Z) (credentials : Token)
    (db : Session) (e : Exn) :
  get_current_user_dependency now credentials db = Raise e ->
  e = HTTPException HTTP_401_UNAUTHORIZED "Could not validate credentials".
Proof.
  unfold get_current_user_dependency, credentials_exception.
  destruct (decode_access_token_returns now credentials) as [r ->].
  destruct r as [payload|]; [|intros [= <-]; reflexivity].
  destruct (payload !! "sub") as [v|]; [|intros [= <-]; reflexivity].
  destruct (List.find _ _); [discriminate|intros [= <-]; reflexivity].
Qed.

Lemma security_raises (authorization : option (string * Token)) (e : Exn) :
  security authorization = Raise e ->
  exists detail, e = HTTPException HTTP_403_FORBIDDEN detail.
Proof.
  unfold security. destruct authorization as [[scheme credentials]|].
  - destruct (_ || _); [intros [= <-]; eexists; reflexivity|].
    destruct (negb _); [intros [= <-]; eexists; reflexivity|discriminate].
  - intros [= <-]. eexists. reflexivity.
Qed.
End AuthFacts.

Section RouteFacts.
Context `{Libraries} `{Settings} `{Schemas} `{Engine}.

Lemma current_user_of_raises (now : Z) (authorization : option (string * Token))
    (db : Session) (e : Exn) :
  current_user_of now authorization db = Raise e ->
  exists code detail,
    e = HTTPException code detail /\ (code = 401 \/ code = 403).
Proof.
  unfold current_user_of.
  destruct (security authorization) as [credentials|e'] eqn:E.
  - intros E'. apply get_current_user_dependency_raises in E'. subst e.
    do 2 eexists. split; [reflexivity|]. left. reflexivity.
  - intros [= <-]. apply security_raises in E. destruct E as [detail ->].
    do 2 eexists. split; [reflexivity|]. right. reflexivity.
Qed.

Lemma request_protected_raises {A} (now : Z)
    (authorization : option (string * Token))
    (handler : User.t -> Session -> Result A * Session)
    (d : Db) (fault : Faults) (e : Exn) :
  current_user_of now authorization (open_session d fault) = Raise e ->
  request d fault (protected now authorization handler) = (Raise e, d).
Proof.
  intros E. unfold request, protected. rewrite E. reflexivity.
Qed.

Lemma request_protected_ok {A} (now : Z)
    (authorization : option (string * Token))
    (handler : User.t -> Session -> Result A * Session)
    (d : Db) (fault : Faults) (current_user : User.t) :
  current_user_of now authorization (open_session d fault) = Ok current_user ->
  request d fault (protected now authorization handler) =
  request d fault (handler current_user).
Proof.
  intros E. unfold request, protected. rewrite E. reflexivity.
Qed.
End RouteFacts.

(** ** Division by zero *)

Section DivisionByZero.
Context `{Libraries} `{Settings} `{Schemas} `{Engine}.

Lemma add_calculation_zero_divisor (now : Z) (a b : float)
    (current_user : User.t) (db : Session) :
  PrimFloat.eqb b 0%float = true ->
  add_calculation now (CalculationCreate.mk a b "divide") current_user db =
  (Raise (HTTPException HTTP_400_BAD_REQUEST "Division by zero is not allowed"),
   db).
Proof.
  intros Hb. unfold add_calculation. cbn [CalculationCreate.a
    CalculationCreate.b CalculationCreate.type].
  rewrite calculate_divide, Hb. reflexivity.
Qed.

Lemma add_calculation_divides (now : Z) (a b : float)
    (current_user : User.t) (db : Session) :
  PrimFloat.eqb b 0%float = false ->
  commit_fails db = false ->
  refresh_fails db = false ->
  let row := Calculation.mk (calculations_id_seq (pending db))
               (User.id current_user) a b "divide" (PrimFloat.div a b) now in
  exists db',
    add_calculation now (CalculationCreate.mk a b "divide") current_user db =
    (Ok row, db')
    /\ calculations (committed db') = (calculations (pending db) ++ [row])%list.
Proof.
  intros Hb Hc Hr row. unfold add_calculation. cbn [CalculationCreate.a
    CalculationCreate.b CalculationCreate.type].
  rewrite calculate_divide, Hb. cbn [db_add_calculation].
  unfold db_add_calculation, db_commit, db_refresh, with_pending. cbn.
  rewrite Hc. cbn. rewrite Hr. eexists. split; reflexivity.
Qed.

(** C1. A calculation of type "divide" fails with the division-by-zero
    error exactly when [b == 0] (and fails in no other way). Creating
    one with [b == 0] is rejected by the handler with status 400 and
    the session is left as it was; behind the route, whatever the
    request schema and the credentials are, the answer is a client
    error and the database is unchanged. For [b != 0] the create
    returns the new row with result [a / b] and commits it, the database
    failing neither the commit nor the reload of the row. *)
Theorem divide_fails_iff_zero_divisor (a b : float) :
  (calculate a b "divide" = Raise DivisionByZeroError
     <-> PrimFloat.eqb b 0%float = true)
  /\ (failed (calculate a b "divide") = true
     <-> PrimFloat.eqb b 0%float = true)
  /\ (forall now current_user db,
        PrimFloat.eqb b 0%float = true ->
        add_calculation now (CalculationCreate.mk a b "divide") current_user db
        = (Raise (HTTPException HTTP_400_BAD_REQUEST
                    "Division by zero is not allowed"), db))
  /\ (forall now authorization d fault,
        PrimFloat.eqb b 0%float = true ->
        exists code detail,
          POST_calculations now authorization
            (CalculationCreate.mk a b "divide") d fault
          = (Raise (HTTPException code detail), d)
          /\ is_client_error code = true)
  /\ (forall now current_user db,
        PrimFloat.eqb b 0%float = false ->
        commit_fails db = false ->
        refresh_fails db = false ->
        exists row db',
          add_calculation now (CalculationCreate.mk a b "divide")
            current_user db = (Ok row, db')
          /\ Calculation.result row = PrimFloat.div a b
          /\ Calculation.a row = a /\ Calculation.b row = b
          /\ Calculation.type row = "divide"
          /\ Calculation.user_id row = User.id current_user
          /\ List.In row (calculations (committed db'))).
Proof.
  repeat split.
  - rewrite calculate_divide.
    destruct (PrimFloat.eqb b 0); [reflexivity|discriminate].
  - rewrite calculate_divide. intros ->. reflexivity.
  - rewrite calculate_divide.
    destruct (PrimFloat.eqb b 0); [reflexivity|discriminate].
  - rewrite calculate_divide. intros ->. reflexivity.
  - intros. apply add_calculation_zero_divisor. assumption.
  - intros now authorization d fault Hb. unfold POST_calculations.
    destruct (current_user_of now authorization (open_session d fault))
      as [current_user|e] eqn:E.
    + rewrite (request_protected_ok _ _ _ _ _ _ E).
      unfold request, validated.
      destruct (CalculationCreate_valid _).
      * rewrite add_calculation_zero_divisor by assumption.
        do 2 eexists. split; reflexivity.
      * do 2 eexists. split; reflexivity.
    + rewrite (request_protected_raises _ _ _ _ _ _ E).
      apply current_user_of_raises in E.
      destruct E as (code & detail & -> & [-> | ->]);
        do 2 eexists; split; reflexivity.
  - intros now current_user db Hb Hc Hr.
    destruct (add_calculation_divides now a b current_user db Hb Hc Hr)
      as (db' & E & Hin).
    do 2 eexists. split; [exact E|]. repeat split.
    rewrite Hin. apply in_or_app. right. left. reflexivity.
Qed.
End DivisionByZero.

(** ** Updating a calculation *)


Lemma apply_update_fields (data : CalculationUpdate.t) (c : Calculation.t) :
  let c' := fst (apply_update data c) in
  Calculation.a c' = default (Calculation.a c) (CalculationUpdate.a data)
  /\ Calculation.b c' = default (Calculation.b c) (CalculationUpdate.b data)
  /\ Calculation.type c' = default (Calculation.type c) (CalculationUpdate.type data)
  /\ Calculation.id c' = Calculation.id c
  /\ Calculation.user_id c' = Calculation.user_id c
  /\ Calculation.result c' = Calculation.result c
  /\ Calculation.created_at c' = Calculation.created_at c.
Proof.
  destruct data as [[va|] [vb|] [vt|]]; cbn; repeat split.
Qed.

Lemma apply_update_flag (data : CalculationUpdate.t) (c : Calculation.t) :
  snd (apply_update data c) = false <-> data = no_fields.
Proof.
  destruct data as [[va|] [vb|] [vt|]]; cbn; split; intros E;
    try discriminate; reflexivity.
Qed.

Lemma apply_update_no_fields (c : Calculation.t) :
  apply_update no_fields c = (c, false).
Proof. reflexivity. Qed.

Lemma query_calculation_some (cid uid : Z) (db : Session) (c : Calculation.t) :
  query_calculation cid uid db = Some c ->
  List.In c (calculations (pending db))
  /\ Calculation.id c = cid /\ Calculation.user_id c = uid.
Proof.
  unfold query_calculation. intros E. apply find_some in E.
  destruct E as [Hin E]. apply andb_prop in E. destruct E as [E1 E2].
  apply Z.eqb_eq in E1, E2. auto.
Qed.

Lemma in_merge (row c : Calculation.t) (l : list Calculation.t) :
  List.In c l -> Calculation.id c = Calculation.id row ->
  List.In row
    (map (fun x => if Calculation.id x =? Calculation.id row then row else x) l).
Proof.
  intros Hin Hid. apply in_map_iff. exists c. split; [|exact Hin].
  rewrite Hid, Z.eqb_refl. reflexivity.
Qed.

(** What [edit_calculation] does once the row is found and some field is
    supplied, by the outcome of the recomputation, of the commit and of
    the reload of the row. *)
Lemma edit_calculation_updated (cid : Z) (data : CalculationUpdate.t)
    (u : User.t) (db : Session) (c : Calculation.t) :
  query_calculation cid (User.id u) db = Some c ->
  data <> no_fields ->
  let c' := fst (apply_update data c) in
  edit_calculation cid data u db =
  match calculate (Calculation.a c') (Calculation.b c') (Calculation.type c') with
  | Ok r =>
      let c'' := Calculation.set_result r c' in
      let db' := db_merge_calculation c'' (db_merge_calculation c' db) in
      if commit_fails db
      then (Raise (HTTPException HTTP_500_INTERNAL_SERVER_ERROR
                     "Internal server error while updating calculation"),
            db_rollback db)
      else if refresh_fails db
      then (Raise (HTTPException HTTP_500_INTERNAL_SERVER_ERROR
                     "Internal server error while updating calculation"),
            mkSession (pending db') (pending db') false true)
      else (Ok c'', mkSession (pending db') (pending db') false false)
  | Raise DivisionByZeroError =>
      (Raise (HTTPException HTTP_400_BAD_REQUEST "Division by zero is not allowed"),
       db_rollback db)
  | Raise (InvalidOperationError message) =>
      (Raise (HTTPException HTTP_400_BAD_REQUEST message), db_rollback db)
  | Raise _ =>
      (Raise (HTTPException HTTP_500_INTERNAL_SERVER_ERROR
                "Internal server error while updating calculation"),
       db_rollback db)
  end.
Proof.
  intros Hq Hdata c'. unfold edit_calculation. rewrite Hq.
  assert (Hflag : snd (apply_update data c) = true).
  { destruct (snd (apply_update data c)) eqn:E; [reflexivity|].
    apply apply_update_flag in E. contradiction. }
  subst c'. destruct (apply_update data c) as [c' updated].
  cbn [fst snd] in *. subst updated. cbn [negb].
  destruct (calculate _ _ _) as [r|[]]; try reflexivity.
  unfold db_commit, db_refresh.
  cbn [commit_fails refresh_fails db_merge_calculation with_pending].
  destruct (commit_fails db); [reflexivity|].
  cbn [commit_fails refresh_fails].
  destruct (refresh_fails db); reflexivity.
Qed.

Section Update.
Context `{Libraries} `{Settings} `{Schemas} `{Engine}.

(** C10. PATCH on a calculation is PUT on it: the handler hands its four
    arguments to [edit_calculation] and returns what that returns, and
    the two routes declare the same dependencies, so for every
    identifier, body, credentials and database they give the same
    response and the same database. *)
Theorem patch_is_put (now : Z) (authorization : option (string * Token))
    (calculation_id : Z) (calculation_data : CalculationUpdate.t)
    (current_user : User.t) (db : Session) (d : Db) (fault : Faults) :
  edit_calculation_patch calculation_id calculation_data current_user db
  = edit_calculation calculation_id calculation_data current_user db
  /\ PATCH_calculation now authorization calculation_id calculation_data d fault
     = PUT_calculation now authorization calculation_id calculation_data d fault.
Proof.
  split; reflexivity.
Qed.
End Update.

(** C5. An update assigns exactly the supplied fields and leaves the other
    columns alone. With no field supplied the stored row is returned and
    the session is untouched (no recomputation, no commit). With some
    field supplied the result is recomputed from the resulting
    (a, b, type): when that succeeds and the database fails neither the
    commit nor the reload of the row, the row with the new result is
    returned and stored; when it fails the request fails. Creating 10 add 5 and then patching b to 8 gives result 18 with
    a still 10 and the type still "add". *)
Theorem edit_applies_supplied_fields (cid : Z) (data : CalculationUpdate.t)
    (u : User.t) (db : Session) (c : Calculation.t) :
  query_calculation cid (User.id u) db = Some c ->
  let c' := fst (apply_update data c) in
  (Calculation.a c' = default (Calculation.a c) (CalculationUpdate.a data)
   /\ Calculation.b c' = default (Calculation.b c) (CalculationUpdate.b data)
   /\ Calculation.type c'
      = default (Calculation.type c) (CalculationUpdate.type data)
   /\ Calculation.id c' = Calculation.id c
   /\ Calculation.user_id c' = Calculation.user_id c
   /\ Calculation.created_at c' = Calculation.created_at c)
  /\ (data = no_fields -> edit_calculation cid data u db = (Ok c, db))
  /\ (data <> no_fields ->
      forall r,
        calculate (Calculation.a c') (Calculation.b c') (Calculation.type c')
        = Ok r ->
        commit_fails db = false ->
        refresh_fails db = false ->
        exists db',
          edit_calculation cid data u db = (Ok (Calculation.set_result r c'), db')
          /\ List.In (Calculation.set_result r c') (calculations (committed db')))
  /\ (data <> no_fields ->
      forall e,
        calculate (Calculation.a c') (Calculation.b c') (Calculation.type c')
        = Raise e ->
        failed (fst (edit_calculation cid data u db)) = true)
  /\ (forall now,
        exists created db1 patched db2,
          add_calculation now (CalculationCreate.mk 10 5 "add") u
            (open_session empty_db no_faults) = (Ok created, db1)
          /\ edit_calculation_patch (Calculation.id created)
               (CalculationUpdate.mk None (Some 8%float) None) u db1
             = (Ok patched, db2)
          /\ Calculation.result patched = 18%float
          /\ Calculation.a patched = 10%float
          /\ Calculation.b patched = 8%float
          /\ Calculation.type patched = "add").
Proof.
  intros Hq c'.
  destruct (apply_update_fields data c) as (Ha & Hb & Ht & Hid & Hu & _ & Hts).
  split; [repeat split; assumption|].
  split; [|split; [|split]].
  - intros ->. unfold edit_calculation. rewrite Hq, apply_update_no_fields.
    reflexivity.
  - intros Hdata r Hr Hc Hf.
    rewrite (edit_calculation_updated cid data u db c Hq Hdata).
    fold c'. rewrite Hr, Hc, Hf. eexists. split; [reflexivity|].
    cbn [committed pending db_merge_calculation with_pending calculations].
    destruct (query_calculation_some _ _ _ _ Hq) as (Hin & Hcid & _).
    apply in_merge with (c := c'); [|reflexivity].
    apply in_merge with (c := c); [exact Hin|]. symmetry. exact Hid.
  - intros Hdata e He.
    rewrite (edit_calculation_updated cid data u db c Hq Hdata).
    fold c'. rewrite He. destruct e; reflexivity.
  - intros now. do 4 eexists.
    split; [unfold add_calculation; cbn; reflexivity|].
    split.
    + unfold edit_calculation_patch, edit_calculation, query_calculation.
      cbn. rewrite Z.eqb_refl. cbn. reflexivity.
    + cbn. repeat split.
Qed.

(** ** Failed writes *)

(** A failed update has its session as it was, or rolled back, or the
    failure came after the commit: then the same update goes through on
    the session without faults and commits the same database. *)
Lemma edit_calculation_raises (cid : Z) (data : CalculationUpdate.t)
    (u : User.t) (db : Session) (e : Exn) :
  fst (edit_calculation cid data u db) = Raise e ->
  snd (edit_calculation cid data u db) = db
  \/ snd (edit_calculation cid data u db) = db_rollback db
  \/ exists row,
       fst (edit_calculation cid data u (without_faults db)) = Ok row
       /\ committed (snd (edit_calculation cid data u db))
          = committed (snd (edit_calculation cid data u (without_faults db))).
Proof.
  destruct (query_calculation cid (User.id u) db) as [c|] eqn:Hq.
  - assert (Hcase : data = no_fields \/ data <> no_fields).
    { destruct (snd (apply_update data c)) eqn:E.
      - right. intros ->. discriminate.
      - left. apply (apply_update_flag data c). exact E. }
    destruct Hcase as [->|Hdata].
    + unfold edit_calculation. rewrite Hq, apply_update_no_fields. discriminate.
    + rewrite (edit_calculation_updated cid data u (without_faults db) c Hq Hdata).
      rewrite (edit_calculation_updated cid data u db c Hq Hdata).
      destruct (calculate _ _ _) as [r|[]]; cbn zeta;
        try (intros _; right; left; reflexivity).
      destruct (commit_fails db); [intros _; right; left; reflexivity|].
      destruct (refresh_fails db); [|discriminate].
      intros _. right. right. eexists. split; reflexivity.
  - unfold edit_calculation. rewrite Hq. intros _. left. reflexivity.
Qed.

Lemma add_calculation_raises (now : Z) (data : CalculationCreate.t)
    (u : User.t) (db : Session) (e : Exn) :
  fst (add_calculation now data u db) = Raise e ->
  snd (add_calculation now data u db) = db
  \/ snd (add_calculation now data u db) = db_rollback db
  \/ exists row,
       fst (add_calculation now data u (without_faults db)) = Ok row
       /\ committed (snd (add_calculation now data u db))
          = committed (snd (add_calculation now data u (without_faults db))).
Proof.
  unfold add_calculation.
  destruct (calculate _ _ _) as [r|[]];
    try (intros _; left; reflexivity); try (intros _; right; left; reflexivity).
  unfold db_add_calculation, db_commit, db_refresh.
  cbn [commit_fails refresh_fails pending with_pending without_faults].
  destruct (commit_fails db); [intros _; right; left; reflexivity|].
  cbn [commit_fails refresh_fails].
  destruct (refresh_fails db); [|discriminate].
  intros _. right. right. eexists. split; reflexivity.
Qed.

(** The failures that carry a status other than 500 come before the
    commit. *)
Lemma edit_calculation_client_error (cid : Z) (data : CalculationUpdate.t)
    (u : User.t) (db : Session) (code : Z) (detail : string) :
  fst (edit_calculation cid data u db) = Raise (HTTPException code detail) ->
  code <> 500 ->
  snd (edit_calculation cid data u db) = db
  \/ snd (edit_calculation cid data u db) = db_rollback db.
Proof.
  destruct (query_calculation cid (User.id u) db) as [c|] eqn:Hq.
  - assert (Hcase : data = no_fields \/ data <> no_fields).
    { destruct (snd (apply_update data c)) eqn:E.
      - right. intros ->. discriminate.
      - left. apply (apply_update_flag data c). exact E. }
    destruct Hcase as [->|Hdata].
    + unfold edit_calculation. rewrite Hq, apply_update_no_fields. discriminate.
    + rewrite (edit_calculation_updated cid data u db c Hq Hdata).
      destruct (calculate _ _ _) as [r|[]]; cbn zeta;
        try (intros _ _; right; reflexivity).
      destruct (commit_fails db); [intros _ _; right; reflexivity|].
      destruct (refresh_fails db); [|discriminate].
      cbn [fst]. intros [= <- _] Hcode. contradiction.
  - unfold edit_calculation. rewrite Hq. intros _ _. left. reflexivity.
Qed.

Lemma add_calculation_client_error (now : Z) (data : CalculationCreate.t)
    (u : User.t) (db : Session) (code : Z) (detail : string) :
  fst (add_calculation now data u db) = Raise (HTTPException code detail) ->
  code <> 500 ->
  snd (add_calculation now data u db) = db
  \/ snd (add_calculation now data u db) = db_rollback db.
Proof.
  unfold add_calculation.
  destruct (calculate _ _ _) as [r|[]];
    try (intros _ _; left; reflexivity); try (intros _ _; right; reflexivity).
  unfold db_add_calculation, db_commit, db_refresh.
  cbn [commit_fails refresh_fails pending with_pending].
  destruct (commit_fails db); [intros _ _; right; reflexivity|].
  cbn [commit_fails refresh_fails].
  destruct (refresh_fails db); [|discriminate].
  cbn [fst]. intros [= <- _] Hcode. contradiction.
Qed.

(** When the commit raises, nothing is committed, whatever the handler
    answers. *)
Lemma edit_calculation_commit_fault (cid : Z) (data : CalculationUpdate.t)
    (u : User.t) (db : Session) :
  commit_fails db = true ->
  committed (snd (edit_calculation cid data u db)) = committed db.
Proof.
  intros Hc.
  destruct (query_calculation cid (User.id u) db) as [c|] eqn:Hq.
  - assert (Hcase : data = no_fields \/ data <> no_fields).
    { destruct (snd (apply_update data c)) eqn:E.
      - right. intros ->. discriminate.
      - left. apply (apply_update_flag data c). exact E. }
    destruct Hcase as [->|Hdata].
    + unfold edit_calculation. rewrite Hq, apply_update_no_fields. reflexivity.
    + rewrite (edit_calculation_updated cid data u db c Hq Hdata), Hc.
      destruct (calculate _ _ _) as [r|[]]; reflexivity.
  - unfold edit_calculation. rewrite Hq. reflexivity.
Qed.

Lemma add_calculation_commit_fault (now : Z) (data : CalculationCreate.t)
    (u : User.t) (db : Session) :
  commit_fails db = true ->
  committed (snd (add_calculation now data u db)) = committed db.
Proof.
  intros Hc. unfold add_calculation.
  destruct (calculate _ _ _) as [r|[]]; try reflexivity.
  unfold db_add_calculation, db_commit.
  cbn [commit_fails with_pending]. rewrite Hc. reflexivity.
Qed.

Lemma close_unchanged (d : Db) (fault : Faults) (db : Session) :
  db = open_session d fault \/ db = db_rollback (open_session d fault) ->
  close_session db = d.
Proof. intros [-> | ->]; reflexivity. Qed.

Section FailedWrites.
Context `{Libraries} `{Settings} `{Schemas} `{Engine}.

(** The user behind a request is resolved from the session's view alone. *)
Lemma current_user_of_no_faults (now : Z)
    (authorization : option (string * Token)) (d : Db) (fault : Faults) :
  current_user_of now authorization (open_session d fault)
  = current_user_of now authorization (open_session d no_faults).
Proof. reflexivity. Qed.

Lemma request_raises_unchanged {A} (now : Z)
    (authorization : option (string * Token)) (valid : bool)
    (handler : User.t -> Session -> Result A * Session)
    (d : Db) (fault : Faults) (e : Exn) :
  (forall u db e,
      fst (handler u db) = Raise e ->
      snd (handler u db) = db \/ snd (handler u db) = db_rollback db
      \/ exists row,
           fst (handler u (without_faults db)) = Ok row
           /\ committed (snd (handler u db))
              = committed (snd (handler u (without_faults db)))) ->
  fst (request d fault
         (protected now authorization
            (fun u => validated valid (handler u)))) = Raise e ->
  snd (request d fault
         (protected now authorization
            (fun u => validated valid (handler u)))) = d
  \/ exists row,
       fst (request d no_faults
              (protected now authorization
                 (fun u => validated valid (handler u)))) = Ok row
       /\ snd (request d fault
                 (protected now authorization
                    (fun u => validated valid (handler u))))
          = snd (request d no_faults
                   (protected now authorization
                      (fun u => validated valid (handler u)))).
Proof.
  intros Hh. unfold request, protected, validated.
  rewrite (current_user_of_no_faults now authorization d fault).
  destruct (current_user_of now authorization (open_session d no_faults))
    as [u|e']; [|left; reflexivity].
  destruct valid; [|left; reflexivity].
  specialize (Hh u (open_session d fault)).
  change (without_faults (open_session d fault))
    with (open_session d no_faults) in Hh.
  destruct (handler u (open_session d fault)) as [r db'].
  destruct (handler u (open_session d no_faults)) as [r0 db0].
  cbn [fst snd] in *. intros E.
  destruct (Hh e E) as [Hd|[Hd|(row & Hrow & Hd)]].
  - left. apply close_unchanged with (fault := fault). left. exact Hd.
  - left. apply close_unchanged with (fault := fault). right. exact Hd.
  - right. exists row. split; [exact Hrow|exact Hd].
Qed.

Lemma request_client_error_unchanged {A} (now : Z)
    (authorization : option (string * Token)) (valid : bool)
    (handler : User.t -> Session -> Result A * Session)
    (d : Db) (fault : Faults) (code : Z) (detail : string) :
  (forall u db code detail,
      fst (handler u db) = Raise (HTTPException code detail) ->
      code <> 500 ->
      snd (handler u db) = db \/ snd (handler u db) = db_rollback db) ->
  fst (request d fault
         (protected now authorization
            (fun u => validated valid (handler u))))
  = Raise (HTTPException code detail) ->
  code <> 500 ->
  snd (request d fault
         (protected now authorization
            (fun u => validated valid (handler u)))) = d.
Proof.
  intros Hh. unfold request, protected, validated.
  destruct (current_user_of now authorization (open_session d fault))
    as [u|e']; [|reflexivity].
  destruct valid; [|reflexivity].
  specialize (Hh u (open_session d fault)).
  destruct (handler u (open_session d fault)) as [r db'].
  cbn [fst snd] in *. intros E Hcode.
  apply close_unchanged with (fault := fault). eapply Hh; eassumption.
Qed.

Lemma request_commit_fault_unchanged {A} (now : Z)
    (authorization : option (string * Token)) (valid : bool)
    (handler : User.t -> Session -> Result A * Session)
    (d : Db) (fault : Faults) :
  (forall u db, commit_fails db = true ->
                committed (snd (handler u db)) = committed db) ->
  commit_raises fault = true ->
  snd (request d fault
         (protected now authorization
            (fun u => validated valid (handler u)))) = d.
Proof.
  intros Hh Hc. unfold request, protected, validated.
  destruct (current_user_of now authorization (open_session d fault))
    as [u|e']; [|reflexivity].
  destruct valid; [|reflexivity].
  specialize (Hh u (open_session d fault) Hc).
  destruct (handler u (open_session d fault)) as [r db'].
  exact Hh.
Qed.

(** C6. A create or update that fails commits no partial write. When
    the recomputation of an update fails, or the commit of a create or
    of an update raises, the handler rolls the session back and fails
    with an HTTP error, and nothing is committed: behind the routes, a
    request whose commit raises, and a request answered with a status
    other than 500, leave the database as it was. A create or update
    that fails in any other way has either left the database as it was
    or, the error having come after the commit, has committed exactly
    what the same request commits when it goes through: the whole
    write. *)
Theorem failed_write_is_rolled_back (now : Z)
    (authorization : option (string * Token)) (d : Db) (fault : Faults) :
  (forall cid data u db c e,
      query_calculation cid (User.id u) db = Some c ->
      data <> no_fields ->
      calculate (Calculation.a (fst (apply_update data c)))
                (Calculation.b (fst (apply_update data c)))
                (Calculation.type (fst (apply_update data c))) = Raise e ->
      exists code detail,
        edit_calculation cid data u db
        = (Raise (HTTPException code detail), db_rollback db))
  /\ (forall cid data u db c,
      query_calculation cid (User.id u) db = Some c ->
      data <> no_fields ->
      commit_fails db = true ->
      exists code detail,
        edit_calculation cid data u db
        = (Raise (HTTPException code detail), db_rollback db))
  /\ (forall data u db r,
      calculate (CalculationCreate.a data) (CalculationCreate.b data)
                (CalculationCreate.type data) = Ok r ->
      commit_fails db = true ->
      add_calculation now data u db
      = (Raise (HTTPException HTTP_500_INTERNAL_SERVER_ERROR
                  "Internal server error while creating calculation"),
         db_rollback db))
  /\ (forall cid data u db e,
      fst (edit_calculation cid data u db) = Raise e ->
      committed (snd (edit_calculation cid data u db)) = committed db
      \/ exists row,
           fst (edit_calculation cid data u (without_faults db)) = Ok row
           /\ committed (snd (edit_calculation cid data u db))
              = committed (snd (edit_calculation cid data u (without_faults db))))
  /\ (forall data u db e,
      fst (add_calculation now data u db) = Raise e ->
      committed (snd (add_calculation now data u db)) = committed db
      \/ exists row,
           fst (add_calculation now data u (without_faults db)) = Ok row
           /\ committed (snd (add_calculation now data u db))
              = committed (snd (add_calculation now data u (without_faults db))))
  /\ (forall cid body e,
      fst (PUT_calculation now authorization cid body d fault) = Raise e ->
      snd (PUT_calculation now authorization cid body d fault) = d
      \/ exists row,
           fst (PUT_calculation now authorization cid body d no_faults) = Ok row
           /\ snd (PUT_calculation now authorization cid body d fault)
              = snd (PUT_calculation now authorization cid body d no_faults))
  /\ (forall cid body e,
      fst (PATCH_calculation now authorization cid body d fault) = Raise e ->
      snd (PATCH_calculation now authorization cid body d fault) = d
      \/ exists row,
           fst (PATCH_calculation now authorization cid body d no_faults) = Ok row
           /\ snd (PATCH_calculation now authorization cid body d fault)
              = snd (PATCH_calculation now authorization cid body d no_faults))
  /\ (forall body e,
      fst (POST_calculations now authorization body d fault) = Raise e ->
      snd (POST_calculations now authorization body d fault) = d
      \/ exists row,
           fst (POST_calculations now authorization body d no_faults) = Ok row
           /\ snd (POST_calculations now authorization body d fault)
              = snd (POST_calculations now authorization body d no_faults))
  /\ (commit_raises fault = true ->
      (forall cid body,
          snd (PUT_calculation now authorization cid body d fault) = d
          /\ snd (PATCH_calculation now authorization cid body d fault) = d)
      /\ (forall body,
          snd (POST_calculations now authorization body d fault) = d))
  /\ (forall code detail, code <> 500 ->
      (forall cid body,
          fst (PUT_calculation now authorization cid body d fault)
          = Raise (HTTPException code detail) ->
          snd (PUT_calculation now authorization cid body d fault) = d)
      /\ (forall cid body,
          fst (PATCH_calculation now authorization cid body d fault)
          = Raise (HTTPException code detail) ->
          snd (PATCH_calculation now authorization cid body d fault) = d)
      /\ (forall body,
          fst (POST_calculations now authorization body d fault)
          = Raise (HTTPException code detail) ->
          snd (POST_calculations now authorization body d fault) = d)).
Proof.
  repeat apply conj.
  - intros cid data u db c e Hq Hdata He.
    rewrite (edit_calculation_updated cid data u db c Hq Hdata), He.
    destruct e; do 2 eexists; reflexivity.
  - intros cid data u db c Hq Hdata Hc.
    rewrite (edit_calculation_updated cid data u db c Hq Hdata), Hc.
    destruct (calculate _ _ _) as [r|[]]; do 2 eexists; reflexivity.
  - intros data u db r Hr Hc. unfold add_calculation. rewrite Hr.
    unfold db_add_calculation, db_commit. cbn [commit_fails with_pending].
    rewrite Hc. reflexivity.
  - intros cid data u db e E.
    destruct (edit_calculation_raises _ _ _ _ _ E) as [-> |[-> |Hlate]];
      [left; reflexivity|left; reflexivity|right; exact Hlate].
  - intros data u db e E.
    destruct (add_calculation_raises _ _ _ _ _ E) as [-> |[-> |Hlate]];
      [left; reflexivity|left; reflexivity|right; exact Hlate].
  - intros cid body e. unfold PUT_calculation.
    apply request_raises_unchanged. intros u db e'.
    apply edit_calculation_raises.
  - intros cid body e. unfold PATCH_calculation.
    apply request_raises_unchanged. intros u db e'.
    apply edit_calculation_raises.
  - intros body e. unfold POST_calculations.
    apply request_raises_unchanged. intros u db e'.
    apply add_calculation_raises.
  - intros Hc. split; [intros cid body; split|intros body].
    + unfold PUT_calculation.
      apply request_commit_fault_unchanged; [|exact Hc].
      intros u db. apply edit_calculation_commit_fault.
    + unfold PATCH_calculation.
      apply request_commit_fault_unchanged; [|exact Hc].
      intros u db. apply edit_calculation_commit_fault.
    + unfold POST_calculations.
      apply request_commit_fault_unchanged; [|exact Hc].
      intros u db. apply add_calculation_commit_fault.
  - intros code detail Hcode. repeat apply conj.
    + intros cid body E. unfold PUT_calculation in *.
      eapply request_client_error_unchanged; [|exact E|exact Hcode].
      intros u db code' detail'. apply edit_calculation_client_error.
    + intros cid body E. unfold PATCH_calculation in *.
      eapply request_client_error_unchanged; [|exact E|exact Hcode].
      intros u db code' detail'. apply edit_calculation_client_error.
    + intros body E. unfold POST_calculations in *.
      eapply request_client_error_unchanged; [|exact E|exact Hcode].
      intros u db code' detail'. apply add_calculation_client_error.
Qed.
End FailedWrites.

(** ** Ownership *)


Lemma pk_same_row (l : list Calculation.t) (x y : Calculation.t) :
  NoDup (map Calculation.id l) ->
  List.In x l -> List.In y l -> Calculation.id x = Calculation.id y -> x = y.
Proof.
  induction l as [|z l IH]; intros Hnd Hx Hy Hid; [contradiction|].
  cbn in Hnd. apply NoDup_cons in Hnd. destruct Hnd as [Hz Hnd].
  assert (Hmem : forall w, List.In w l -> Calculation.id w ∈ map Calculation.id l).
  { intros w Hw. apply list_elem_of_In. apply in_map. exact Hw. }
  destruct Hx as [<-|Hx], Hy as [<-|Hy].
  - reflexivity.
  - exfalso. apply Hz. rewrite Hid. apply Hmem. exact Hy.
  - exfalso. apply Hz. rewrite <- Hid. apply Hmem. exact Hx.
  - apply IH; assumption.
Qed.

Lemma query_calculation_foreign (db : Session) (c : Calculation.t) (uid : Z) :
  NoDup (map Calculation.id (calculations (pending db))) ->
  List.In c (calculations (pending db)) ->
  Calculation.user_id c <> uid ->
  query_calculation (Calculation.id c) uid db = None.
Proof.
  intros Hnd Hin Hown. unfold query_calculation. apply find_none_iff.
  intros x Hx. apply andb_false_iff.
  destruct (Calculation.id x =? Calculation.id c) eqn:E; [|left; reflexivity].
  right. apply Z.eqb_eq in E.
  rewrite (pk_same_row _ x c Hnd Hx Hin E). apply Z.eqb_neq. exact Hown.
Qed.

Lemma query_calculation_missing (db : Session) (cid uid : Z) :
  (forall x, List.In x (calculations (pending db)) -> Calculation.id x <> cid) ->
  query_calculation cid uid db = None.
Proof.
  intros Hall. unfold query_calculation. apply find_none_iff.
  intros x Hx. apply andb_false_iff. left. apply Z.eqb_neq. apply Hall. exact Hx.
Qed.

Lemma in_insert_desc (before : Calculation.t -> Calculation.t -> bool)
    (c x : Calculation.t) (l : list Calculation.t) :
  List.In x (insert_desc before c l) <-> x = c \/ List.In x l.
Proof.
  induction l as [|y l IH]; cbn.
  - intuition.
  - destruct (_ || _); cbn.
    + intuition.
    + rewrite IH. intuition.
Qed.

Lemma in_order_by_created_at_desc
    (before : Calculation.t -> Calculation.t -> bool)
    (x : Calculation.t) (l : list Calculation.t) :
  List.In x (order_by_created_at_desc before l) <-> List.In x l.
Proof.
  unfold order_by_created_at_desc.
  assert (G : forall acc,
             List.In x (fold_left (fun acc c => insert_desc before c acc) l acc)
             <-> List.In x acc \/ List.In x l).
  { induction l as [|y l IH]; intros acc; cbn.
    - intuition.
    - rewrite IH, in_insert_desc. intuition. }
  rewrite G. cbn. intuition.
Qed.

Lemma in_offset {A} (x : A) (skip : Z) (l : list A) :
  List.In x (offset skip l) -> List.In x l.
Proof.
  unfold offset. intros Hin.
  rewrite <- (firstn_skipn (Z.to_nat skip) l). apply in_or_app. right. exact Hin.
Qed.

Lemma in_limit {A} (x : A) (n : Z) (l : list A) :
  List.In x (limit n l) -> List.In x l.
Proof.
  unfold limit. destruct (n <? 0); [trivial|]. intros Hin.
  rewrite <- (firstn_skipn (Z.to_nat n) l). apply in_or_app. left. exact Hin.
Qed.

Section Listing.
Context `{Engine}.

Lemma in_browse_calculations (x : Calculation.t) (skip lim : Z) (u : User.t)
    (db : Session) :
  List.In x (browse_calculations skip lim u db) ->
  List.In x (calculations (pending db)) /\ Calculation.user_id x = User.id u.
Proof.
  unfold browse_calculations. intros Hin.
  apply in_limit, in_offset, in_order_by_created_at_desc, filter_In in Hin.
  destruct Hin as [Hin E]. apply Z.eqb_eq in E. auto.
Qed.
End Listing.

Lemma empty_db_pk : calculations_pk empty_db.
Proof. split; constructor. Qed.

Lemma add_calculation_pk (now : Z) (data : CalculationCreate.t) (u : User.t)
    (db : Session) (row : Calculation.t) :
  calculations_pk (pending db) ->
  fst (add_calculation now data u db) = Ok row ->
  calculations_pk (pending (snd (add_calculation now data u db)))
  /\ List.In row (calculations (pending (snd (add_calculation now data u db))))
  /\ Calculation.user_id row = User.id u.
Proof.
  intros [Hnd Hlt]. unfold add_calculation.
  destruct (calculate _ _ _) as [r|[]]; try discriminate.
  unfold db_add_calculation, db_commit, db_refresh.
  cbn [commit_fails refresh_fails with_pending].
  destruct (commit_fails db); [discriminate|].
  cbn [commit_fails refresh_fails].
  destruct (refresh_fails db); [discriminate|].
  unfold with_pending.
  cbn [fst snd pending committed calculations calculations_id_seq].
  intros [= <-]. simpl.
  split; [split|split].
  - simpl. rewrite List.map_app. simpl.
    apply NoDup_app. split; [exact Hnd|]. split; [|apply NoDup_singleton].
    intros i Hi Hi'. apply list_elem_of_singleton in Hi'. subst i.
    apply list_elem_of_In, in_map_iff in Hi. destruct Hi as (x & Hx & Hin).
    rewrite Forall_forall in Hlt. apply list_elem_of_In, Hlt in Hin. lia.
  - simpl. apply Forall_app. split.
    + eapply Forall_impl; [exact Hlt|]. simpl. intros; lia.
    + apply Forall_singleton. simpl. lia.
  - apply in_or_app. right. left. reflexivity.
  - reflexivity.
Qed.

Lemma pk_append (d : Db) (row : Calculation.t) :
  calculations_pk d ->
  Calculation.id row = calculations_id_seq d ->
  calculations_pk (mkDb (users d) (calculations d ++ [row])
                        (users_id_seq d) (calculations_id_seq d + 1)).
Proof.
  intros [Hnd Hlt] Hid. split; simpl.
  - rewrite List.map_app. simpl.
    apply NoDup_app. split; [exact Hnd|]. split; [|apply NoDup_singleton].
    intros i Hi Hi'. apply list_elem_of_singleton in Hi'. subst i.
    apply list_elem_of_In, in_map_iff in Hi. destruct Hi as (x & Hx & Hin).
    rewrite Forall_forall in Hlt. apply list_elem_of_In, Hlt in Hin. lia.
  - apply Forall_app. split.
    + eapply Forall_impl; [exact Hlt|]. simpl. intros; lia.
    + apply Forall_singleton. lia.
Qed.

Lemma pk_replace (d : Db) (row : Calculation.t) :
  calculations_pk d ->
  calculations_pk
    (mkDb (users d)
          (map (fun c => if Calculation.id c =? Calculation.id row then row else c)
               (calculations d))
          (users_id_seq d) (calculations_id_seq d)).
Proof.
  intros [Hnd Hlt].
  assert (Hids : map Calculation.id
                   (map (fun c => if Calculation.id c =? Calculation.id row
                                  then row else c) (calculations d))
                 = map Calculation.id (calculations d)).
  { rewrite List.map_map. apply map_ext. intros c.
    destruct (Calculation.id c =? Calculation.id row) eqn:E; [|reflexivity].
    apply Z.eqb_eq in E. symmetry. exact E. }
  split; simpl.
  - rewrite Hids. exact Hnd.
  - rewrite Forall_forall in Hlt. apply Forall_forall. intros x Hx.
    apply list_elem_of_In, in_map_iff in Hx. destruct Hx as (c & Hc & Hin).
    apply list_elem_of_In, Hlt in Hin.
    destruct (Calculation.id c =? Calculation.id row) eqn:E; subst x;
      [apply Z.eqb_eq in E; lia|exact Hin].
Qed.

Lemma pk_filter (d : Db) (keep : Calculation.t -> bool) :
  calculations_pk d ->
  calculations_pk (mkDb (users d) (List.filter keep (calculations d))
                        (users_id_seq d) (calculations_id_seq d)).
Proof.
  intros [Hnd Hlt]. split; simpl.
  - induction (calculations d) as [|c l IH]; simpl; [constructor|].
    simpl in Hnd. apply NoDup_cons in Hnd. destruct Hnd as [Hc Hnd].
    apply Forall_cons in Hlt. destruct Hlt as [_ Hlt].
    destruct (keep c); simpl; [|apply IH; assumption].
    apply NoDup_cons. split; [|apply IH; assumption].
    intros Hin. apply Hc.
    apply list_elem_of_In, in_map_iff in Hin. destruct Hin as (x & Hx & Hin).
    apply filter_In in Hin. destruct Hin as [Hin _].
    apply list_elem_of_In, in_map_iff. exists x. auto.
  - rewrite Forall_forall in Hlt. apply Forall_forall. intros x Hx.
    apply list_elem_of_In, filter_In in Hx. destruct Hx as [Hx _].
    apply Hlt, list_elem_of_In. exact Hx.
Qed.

(** The primary key is an invariant of the calculation handlers: what
    they commit satisfies it if the database and the session's view
    did. *)
Lemma calculation_handlers_keep_pk (db : Session) :
  calculations_pk (committed db) ->
  calculations_pk (pending db) ->
  (forall now data u,
      calculations_pk (committed (snd (add_calculation now data u db))))
  /\ (forall cid data u,
      calculations_pk (committed (snd (edit_calculation cid data u db))))
  /\ (forall cid u,
      calculations_pk (committed (snd (delete_calculation cid u db)))).
Proof.
  intros Hc Hp. repeat apply conj.
  - intros now data u. unfold add_calculation.
    destruct (calculate _ _ _) as [r|[]]; try exact Hc.
    unfold db_add_calculation, db_commit, db_refresh.
    cbn [commit_fails refresh_fails with_pending].
    destruct (commit_fails db); [exact Hc|].
    cbn [commit_fails refresh_fails].
    destruct (refresh_fails db);
      cbn [snd committed pending with_pending db_rollback];
      apply pk_append; solve [exact Hp|reflexivity].
  - intros cid data u. unfold edit_calculation.
    destruct (query_calculation cid (User.id u) db) as [c|]; [|exact Hc].
    destruct (apply_update data c) as [c' updated].
    destruct updated; cbn [negb]; [|exact Hc].
    destruct (calculate _ _ _) as [r|[]]; try exact Hc.
    unfold db_commit, db_refresh.
    cbn [commit_fails refresh_fails db_merge_calculation with_pending].
    destruct (commit_fails db); [exact Hc|].
    cbn [commit_fails refresh_fails].
    destruct (refresh_fails db); cbn [snd committed pending db_rollback];
      apply (pk_replace _ _ (pk_replace _ c' Hp)).
  - intros cid u. unfold delete_calculation.
    destruct (query_calculation cid (User.id u) db) as [c|]; [|exact Hc].
    unfold db_commit. cbn [commit_fails db_delete_calculation with_pending].
    destruct (commit_fails db); [exact Hc|].
    cbn [snd committed pending]. apply pk_filter. exact Hp.
Qed.

Section Ownership.
Context `{Engine}.

(** C3. A calculation owned by one user does not exist for another. With
    the primary key in force, for a stored row [c] and a user [B] who is
    not its owner: B's get, update (PUT and PATCH) and delete of [c]'s
    identifier answer 404 "Calculation not found" and leave the session
    as it was, B's list does not contain [c] for any paging, and the
    answers are those given for an identifier that no row carries. The
    same holds for a row that its owner has just created. *)
Theorem foreign_calculation_is_not_found (db : Session) (c : Calculation.t)
    (B : User.t) :
  NoDup (map Calculation.id (calculations (pending db))) ->
  List.In c (calculations (pending db)) ->
  Calculation.user_id c <> User.id B ->
  read_calculation (Calculation.id c) B db = calculation_not_found
  /\ (forall data,
        edit_calculation (Calculation.id c) data B db = (calculation_not_found, db)
        /\ edit_calculation_patch (Calculation.id c) data B db
           = (calculation_not_found, db))
  /\ delete_calculation (Calculation.id c) B db = (calculation_not_found, db)
  /\ (forall skip lim, ~ List.In c (browse_calculations skip lim B db))
  /\ (forall missing,
        (forall x, List.In x (calculations (pending db)) ->
                   Calculation.id x <> missing) ->
        read_calculation missing B db = read_calculation (Calculation.id c) B db
        /\ (forall data,
              fst (edit_calculation missing data B db)
              = fst (edit_calculation (Calculation.id c) data B db))
        /\ fst (delete_calculation missing B db)
           = fst (delete_calculation (Calculation.id c) B db))
  /\ (forall now data A created,
        calculations_pk (pending db) ->
        User.id A <> User.id B ->
        fst (add_calculation now data A db) = Ok created ->
        let db' := snd (add_calculation now data A db) in
        read_calculation (Calculation.id created) B db' = calculation_not_found
        /\ (forall data',
              edit_calculation (Calculation.id created) data' B db'
              = (calculation_not_found, db'))
        /\ delete_calculation (Calculation.id created) B db'
           = (calculation_not_found, db')
        /\ (forall skip lim,
              ~ List.In created (browse_calculations skip lim B db'))).
Proof.
  intros Hnd Hin Hown.
  pose proof (query_calculation_foreign db c (User.id B) Hnd Hin Hown) as Hq.
  assert (Hbrowse : forall db0 x skip lim,
             Calculation.user_id x <> User.id B ->
             ~ List.In x (browse_calculations skip lim B db0)).
  { intros db0 x skip lim Hx Hb. apply in_browse_calculations in Hb.
    destruct Hb as [_ Hb]. contradiction. }
  repeat apply conj.
  - unfold read_calculation. rewrite Hq. reflexivity.
  - intros data. unfold edit_calculation_patch, edit_calculation. rewrite Hq.
    split; reflexivity.
  - unfold delete_calculation. rewrite Hq. reflexivity.
  - intros skip lim. apply Hbrowse. exact Hown.
  - intros missing Hmissing.
    pose proof (query_calculation_missing db missing (User.id B) Hmissing) as Hm.
    unfold read_calculation, edit_calculation, delete_calculation.
    rewrite Hq, Hm. repeat split.
  - intros now data A created Hpk HAB Hadd db'.
    destruct (add_calculation_pk now data A db created Hpk Hadd)
      as ([Hnd' _] & Hin' & Hu).
    fold db' in Hnd', Hin'.
    assert (Hown' : Calculation.user_id created <> User.id B) by congruence.
    pose proof (query_calculation_foreign db' created (User.id B) Hnd' Hin' Hown')
      as Hq'.
    unfold read_calculation, edit_calculation, delete_calculation.
    rewrite Hq'. repeat split.
    intros skip lim. apply Hbrowse. exact Hown'.
Qed.
End Ownership.

(** ** Tokens: issue and validate *)

Section Tokens.
Context `{Libraries} `{Settings} `{Engine}.

Lemma decode_fresh (now : Z) (payload : Claims) :
  decode_access_token now (jwt_encode payload SECRET_KEY ALGORITHM) =
  if exp_ok now payload && sub_ok payload && registered_claims_ok now payload
  then Ok (Some payload) else Ok None.
Proof.
  unfold decode_access_token, jwt_encode, jwt_decode.
  cbn [existsb]. rewrite !String.eqb_refl. cbn [orb negb].
  destruct (exp_ok now payload), (sub_ok payload),
    (registered_claims_ok now payload); reflexivity.
Qed.

Lemma create_access_token_eq (issued : Z) (claims : Claims)
    (expires_delta : option Z) :
  expires_delta <> Some 0 ->
  create_access_token issued claims expires_delta =
  jwt_encode
    (<["exp" := JInt (issued + default (timedelta_minutes
                                          ACCESS_TOKEN_EXPIRE_MINUTES)
                                       expires_delta)]> claims)
    SECRET_KEY ALGORITHM.
Proof.
  intros Hd. unfold create_access_token, timedelta_truthy.
  destruct expires_delta as [d|]; [|reflexivity].
  destruct (d =? 0) eqn:E; [|reflexivity].
  apply Z.eqb_eq in E. subst d. contradiction.
Qed.

Lemma exp_ok_insert (now exp : Z) (claims : Claims) :
  exp_ok now (<["exp" := JInt exp]> claims) = negb (exp <? now).
Proof. unfold exp_ok. rewrite lookup_insert_eq. reflexivity. Qed.

Lemma sub_ok_insert_exp (v : JVal) (claims : Claims) :
  sub_ok (<["exp" := v]> claims) = sub_ok claims.
Proof. unfold sub_ok. rewrite lookup_insert_ne by discriminate. reflexivity. Qed.

Lemma decode_malformed (now : Z) (raw : string) :
  decode_access_token now (Malformed raw) = Ok None.
Proof. reflexivity. Qed.

Lemma decode_bad_signature (now : Z) (alg : string) (payload : Claims)
    (signature : string) :
  signature <> hmac_sha256 SECRET_KEY payload ->
  decode_access_token now (Jws alg payload signature) = Ok None.
Proof.
  intros Hs. unfold decode_access_token, jwt_decode.
  destruct (negb (existsb _ _)); [reflexivity|].
  apply String.eqb_neq in Hs. rewrite Hs. reflexivity.
Qed.

Lemma decode_expired (now : Z) (alg : string) (payload : Claims)
    (signature : string) (exp : Z) :
  payload !! "exp" = Some (JInt exp) -> exp < now ->
  decode_access_token now (Jws alg payload signature) = Ok None.
Proof.
  intros He Hlt. unfold decode_access_token, jwt_decode.
  destruct (negb (existsb _ _)); [reflexivity|].
  destruct (negb (String.eqb _ _)); [reflexivity|].
  unfold exp_ok. rewrite He.
  apply Z.ltb_lt in Hlt. rewrite Hlt. reflexivity.
Qed.

(** C2, as the code has it. A token issued with a non-zero ttl (or with
    none, which means the configured default) carries the claims with
    the entry "exp" set to the issue time plus the ttl; every other
    entry is the caller's. Up to and including that instant validation
    returns this payload, provided the library accepts the registered
    claims in it; after it validation returns None. A malformed token,
    a signature that is not the MAC of the payload under the secret key
    and a payload whose "exp" is in the past all give None, and
    validation returns for every token: it never raises. *)
Theorem fresh_token_validates_until_expiry (claims : Claims)
    (expires_delta : option Z) (issued now : Z) :
  expires_delta <> Some 0 ->
  let ttl := default (timedelta_minutes ACCESS_TOKEN_EXPIRE_MINUTES)
                     expires_delta in
  let payload := <["exp" := JInt (issued + ttl)]> claims in
  let token := create_access_token issued claims expires_delta in
  (forall k, k <> "exp" -> payload !! k = claims !! k)
  /\ payload !! "exp" = Some (JInt (issued + ttl))
  /\ (now <= issued + ttl ->
      sub_ok claims = true ->
      registered_claims_ok now payload = true ->
      decode_access_token now token = Ok (Some payload))
  /\ (issued + ttl < now -> decode_access_token now token = Ok None)
  /\ (forall t, exists r, decode_access_token now t = Ok r)
  /\ (forall raw, decode_access_token now (Malformed raw) = Ok None)
  /\ (forall alg p s,
        s <> hmac_sha256 SECRET_KEY p ->
        decode_access_token now (Jws alg p s) = Ok None)
  /\ (forall alg p s exp,
        p !! "exp" = Some (JInt exp) -> exp < now ->
        decode_access_token now (Jws alg p s) = Ok None).
Proof.
  intros Hd ttl payload token.
  assert (Htoken : decode_access_token now token =
                   if exp_ok now payload && sub_ok payload
                      && registered_claims_ok now payload
                   then Ok (Some payload) else Ok None).
  { subst token payload ttl. rewrite create_access_token_eq by exact Hd.
    apply decode_fresh. }
  repeat apply conj.
  - intros k Hk. subst payload. apply lookup_insert_ne. congruence.
  - subst payload. apply lookup_insert_eq.
  - intros Hle Hsub Hreg. rewrite Htoken. subst payload.
    rewrite exp_ok_insert, sub_ok_insert_exp, Hsub.
    fold ttl. fold ttl in Hreg. rewrite Hreg.
    assert (E : (issued + ttl <? now) = false) by (apply Z.ltb_ge; lia).
    rewrite E. reflexivity.
  - intros Hlt. rewrite Htoken. subst payload. rewrite exp_ok_insert.
    apply Z.ltb_lt in Hlt. rewrite Hlt. reflexivity.
  - intros t. apply decode_access_token_returns.
  - apply decode_malformed.
  - intros alg p s. apply decode_bad_signature.
  - intros alg p s exp. apply decode_expired.
Qed.
End Tokens.

(** ** Identity resolution *)

Section Resolver.
Context `{Libraries} `{Settings} `{Engine}.

Lemma get_current_user_dependency_eq (now : Z) (credentials : Token)
    (db : Session) :
  get_current_user_dependency now credentials db =
  match decode_access_token now credentials with
  | Ok (Some payload) =>
      match payload !! "sub" with
      | Some v =>
          match List.find (username_is v) (users (pending db)) with
          | Some user => Ok user
          | None => credentials_exception
          end
      | None => credentials_exception
      end
  | _ => credentials_exception
  end.
Proof.
  unfold get_current_user_dependency.
  destruct (decode_access_token_returns now credentials) as [r ->].
  destruct r; reflexivity.
Qed.

Lemma decode_access_token_jws (now : Z) (alg : string) (payload : Claims)
    (signature : string) :
  decode_access_token now (Jws alg payload signature) =
  if String.eqb alg ALGORITHM
     && String.eqb signature (hmac_sha256 SECRET_KEY payload)
     && exp_ok now payload && sub_ok payload
     && registered_claims_ok now payload
  then Ok (Some payload) else Ok None.
Proof.
  unfold decode_access_token, jwt_decode. cbn [existsb].
  rewrite orb_false_r.
  destruct (String.eqb alg ALGORITHM); [|reflexivity].
  destruct (String.eqb signature _); [|reflexivity].
  destruct (exp_ok now payload); [|reflexivity].
  destruct (sub_ok payload); [|reflexivity].
  destruct (registered_claims_ok now payload); reflexivity.
Qed.

Lemma exp_ok_false (now : Z) (payload : Claims) :
  exp_ok now payload = false
  <-> exists exp, payload !! "exp" = Some (JInt exp) /\ exp < now.
Proof.
  unfold exp_ok. destruct (payload !! "exp") as [[s|exp]|].
  - split; [discriminate|]. intros (exp & E & _). discriminate.
  - rewrite negb_false_iff, Z.ltb_lt. split.
    + intros Hlt. exists exp. auto.
    + intros (exp' & [= <-] & Hlt). exact Hlt.
  - split; [discriminate|]. intros (exp & E & _). discriminate.
Qed.

Lemma sub_ok_false (payload : Claims) :
  sub_ok payload = false <-> exists n, payload !! "sub" = Some (JInt n).
Proof.
  unfold sub_ok. destruct (payload !! "sub") as [[s|n]|].
  - split; [discriminate|]. intros (n & E). discriminate.
  - split; [|reflexivity]. intros _. exists n. reflexivity.
  - split; [discriminate|]. intros (n & E). discriminate.
Qed.

(** C4, as the code has it. Handed a bearer credential, the resolver
    fails exactly when the token does not validate, when its payload has
    no subject, or when no user carries the subject as user name, and
    then always with 401. A token does not validate when it is
    malformed, names another algorithm than HS256, carries another
    signature than the MAC of its payload under the server's key, has
    an expiry before the clock, has a subject that is not a string, or
    is refused by the JWT library's checks of the other registered
    claims (a not-before time still ahead, for one). Otherwise the
    resolver returns the user of that name, whatever the active
    flag says, so that an inactive user with a valid token passes every
    protected handler. A request with no Authorization header is
    refused by the bearer scheme with 403 before the resolver runs. *)
Theorem resolver_rejects_unresolvable_tokens (now : Z) (credentials : Token)
    (db : Session) :
  (get_current_user_dependency now credentials db = credentials_exception
   <-> ((exists raw, credentials = Malformed raw)
        \/ exists alg payload signature,
             credentials = Jws alg payload signature
             /\ (alg <> ALGORITHM
                 \/ signature <> hmac_sha256 SECRET_KEY payload
                 \/ (exists exp, payload !! "exp" = Some (JInt exp) /\ exp < now)
                 \/ (exists n, payload !! "sub" = Some (JInt n))
                 \/ registered_claims_ok now payload = false
                 \/ payload !! "sub" = None
                 \/ exists v, payload !! "sub" = Some v
                      /\ forall u, List.In u (users (pending db)) ->
                                   username_is v u = false)))
  /\ (forall e,
        get_current_user_dependency now credentials db = Raise e ->
        e = HTTPException HTTP_401_UNAUTHORIZED "Could not validate credentials")
  /\ (forall alg payload signature name,
        credentials = Jws alg payload signature ->
        alg = ALGORITHM ->
        signature = hmac_sha256 SECRET_KEY payload ->
        exp_ok now payload = true ->
        registered_claims_ok now payload = true ->
        payload !! "sub" = Some (JStr name) ->
        (exists u, List.In u (users (pending db)) /\ User.username u = name) ->
        exists user,
          get_current_user_dependency now credentials db = Ok user
          /\ User.username user = name
          /\ List.In user (users (pending db)))
  /\ (forall payload name,
        decode_access_token now credentials = Ok (Some payload) ->
        payload !! "sub" = Some (JStr name) ->
        (exists u, List.In u (users (pending db)) /\ User.username u = name) ->
        exists user,
          get_current_user_dependency now credentials db = Ok user
          /\ User.username user = name
          /\ List.In user (users (pending db)))
  /\ (forall user (A : Type) (handler : User.t -> Session -> Result A * Session)
             scheme,
        get_current_user_dependency now credentials db = Ok user ->
        User.is_active user = false ->
        security (Some (scheme, credentials)) = Ok credentials ->
        protected now (Some (scheme, credentials)) handler db = handler user db)
  /\ current_user_of now None db
     = Raise (HTTPException HTTP_403_FORBIDDEN "Not authenticated")
  /\ (forall (A : Type) (handler : User.t -> Session -> Result A * Session),
        protected now None handler db
        = (Raise (HTTPException HTTP_403_FORBIDDEN "Not authenticated"), db)).
Proof.
  assert (Hfound : forall payload name,
             decode_access_token now credentials = Ok (Some payload) ->
             payload !! "sub" = Some (JStr name) ->
             (exists u, List.In u (users (pending db)) /\ User.username u = name) ->
             exists user,
               get_current_user_dependency now credentials db = Ok user
               /\ User.username user = name
               /\ List.In user (users (pending db))).
  { intros payload name E Hs Hex.
    rewrite get_current_user_dependency_eq, E, Hs.
    destruct (List.find (username_is (JStr name)) (users (pending db)))
      as [user|] eqn:Hf.
    + apply find_some in Hf. destruct Hf as [Hin Hu].
      exists user. split; [reflexivity|]. split; [|exact Hin].
      apply String.eqb_eq. exact Hu.
    + destruct Hex as (u & Hin & Hu).
      pose proof (find_none _ _ Hf u Hin) as Hno. cbn in Hno.
      apply String.eqb_neq in Hno. contradiction. }
  repeat apply conj.
  - rewrite get_current_user_dependency_eq.
    destruct credentials as [raw|alg payload signature].
    { intros _. left. exists raw. reflexivity. }
    rewrite decode_access_token_jws. intros E. right.
    exists alg, payload, signature. split; [reflexivity|].
    destruct (String.eqb alg ALGORITHM) eqn:Ealg;
      [|left; apply String.eqb_neq; exact Ealg].
    destruct (String.eqb signature (hmac_sha256 SECRET_KEY payload)) eqn:Esig;
      [|right; left; apply String.eqb_neq; exact Esig].
    destruct (exp_ok now payload) eqn:Eexp;
      [|right; right; left; apply exp_ok_false; exact Eexp].
    destruct (sub_ok payload) eqn:Esub;
      [|right; right; right; left; apply sub_ok_false; exact Esub].
    destruct (registered_claims_ok now payload) eqn:Ereg;
      [|right; right; right; right; left; reflexivity].
    cbn [andb] in E. do 5 right.
    destruct (payload !! "sub") as [v|] eqn:Hs; [|left; reflexivity].
    right. exists v. split; [reflexivity|].
    destruct (List.find (username_is v) (users (pending db))) eqn:Hf;
      [discriminate|]. apply find_none_iff. exact Hf.
  - rewrite get_current_user_dependency_eq.
    intros [(raw & ->)|(alg & payload & signature & -> & Hwhy)];
      [reflexivity|].
    rewrite decode_access_token_jws.
    destruct (String.eqb alg ALGORITHM) eqn:Ealg; [|reflexivity].
    destruct (String.eqb signature (hmac_sha256 SECRET_KEY payload)) eqn:Esig;
      [|reflexivity].
    destruct (exp_ok now payload) eqn:Eexp; [|reflexivity].
    destruct (sub_ok payload) eqn:Esub; [|reflexivity].
    destruct (registered_claims_ok now payload) eqn:Ereg; [|reflexivity].
    cbn [andb].
    destruct Hwhy as [Hw|[Hw|[Hw|[Hw|[Hw|[Hw|(v & Hs & Hnone)]]]]]].
    + apply String.eqb_eq in Ealg. contradiction.
    + apply String.eqb_eq in Esig. contradiction.
    + apply exp_ok_false in Hw. congruence.
    + apply sub_ok_false in Hw. congruence.
    + discriminate.
    + rewrite Hw. reflexivity.
    + rewrite Hs. apply find_none_iff in Hnone. rewrite Hnone. reflexivity.
  - apply get_current_user_dependency_raises.
  - intros alg payload signature name -> -> -> Hexp Hreg Hs Hex.
    apply (Hfound payload name); [|exact Hs|exact Hex].
    rewrite decode_access_token_jws, !String.eqb_refl, Hexp, Hreg.
    unfold sub_ok. rewrite Hs. reflexivity.
  - exact Hfound.
  - intros user A handler scheme E _ Hsec.
    unfold protected, current_user_of. rewrite Hsec, E. reflexivity.
  - reflexivity.
  - reflexivity.
Qed.
End Resolver.

(** ** Registration and login *)

Section Accounts.
Context `{Libraries} `{Settings} `{Engine}.

Lemma create_access_token_subject (now : Z) (name : string) :
  exists payload signature,
    create_access_token now {[ "sub" := JStr name ]}
      (Some (timedelta_minutes ACCESS_TOKEN_EXPIRE_MINUTES))
    = Jws ALGORITHM payload signature
    /\ payload !! "sub" = Some (JStr name)
    /\ payload !! "exp"
       = Some (JInt (now + timedelta_minutes ACCESS_TOKEN_EXPIRE_MINUTES)).
Proof.
  unfold create_access_token, jwt_encode, timedelta_truthy.
  destruct (timedelta_minutes ACCESS_TOKEN_EXPIRE_MINUTES =? 0) eqn:E;
    cbn [negb]; do 2 eexists; (split; [reflexivity|]); split.
  - rewrite lookup_insert_ne by discriminate. apply lookup_singleton_eq.
  - apply Z.eqb_eq in E. rewrite E. apply lookup_insert_eq.
  - rewrite lookup_insert_ne by discriminate. apply lookup_singleton_eq.
  - apply lookup_insert_eq.
Qed.

(** C7. Registration answers 400 exactly when some stored user has the
    requested user name or the requested e-mail address (string
    equality, so case matters), and then stores nothing. Otherwise, if
    the database fails neither the commit nor the reload of the row,
    the new row carries the requested name and
    address and the digest of the password as its password hash (so the
    plaintext is stored nowhere, the digest differing from it), and the
    answer holds the row's public projection and an access token whose
    subject is the new user name. *)
Theorem registration_conflict_iff_taken (now : Z) (salt : string)
    (user_data : UserCreate.t) (db : Session) :
  ((exists detail,
      fst (register_user now salt user_data db)
      = Raise (HTTPException HTTP_400_BAD_REQUEST detail))
   <-> exists u, List.In u (users (pending db))
         /\ (User.username u = UserCreate.username user_data
             \/ User.email u = UserCreate.email user_data))
  /\ (forall detail,
        fst (register_user now salt user_data db)
        = Raise (HTTPException HTTP_400_BAD_REQUEST detail) ->
        snd (register_user now salt user_data db) = db)
  /\ ((forall u, List.In u (users (pending db)) ->
         User.username u <> UserCreate.username user_data
         /\ User.email u <> UserCreate.email user_data) ->
      commit_fails db = false ->
      refresh_fails db = false ->
      exists new_user access_token db',
        register_user now salt user_data db
        = (Ok (AuthResponse.mk "Registration successful"
                 (UserResponse.model_validate new_user) access_token "bearer"),
           db')
        /\ users (committed db') = (users (pending db) ++ [new_user])%list
        /\ User.username new_user = UserCreate.username user_data
        /\ User.email new_user = UserCreate.email user_data
        /\ User.password_hash new_user
           = hash_password salt (UserCreate.password user_data)
        /\ (hash_password salt (UserCreate.password user_data)
            <> UserCreate.password user_data ->
            User.password_hash new_user <> UserCreate.password user_data)
        /\ access_token
           = create_access_token now
               {[ "sub" := JStr (UserCreate.username user_data) ]}
               (Some (timedelta_minutes ACCESS_TOKEN_EXPIRE_MINUTES))
        /\ exists payload signature,
             access_token = Jws ALGORITHM payload signature
             /\ payload !! "sub" = Some (JStr (UserCreate.username user_data))).
Proof.
  unfold register_user.
  destruct (List.find (fun u => String.eqb (User.username u)
                                  (UserCreate.username user_data))
              (users (pending db))) as [u1|] eqn:E1.
  { apply find_some in E1. destruct E1 as [Hin Hu]. apply String.eqb_eq in Hu.
    repeat apply conj.
    - intros _. exists u1. auto.
    - intros _. eexists. reflexivity.
    - reflexivity.
    - intros Hfree. destruct (Hfree u1 Hin) as [Hne _]. contradiction. }
  destruct (List.find (fun u => String.eqb (User.email u)
                                  (UserCreate.email user_data))
              (users (pending db))) as [u2|] eqn:E2.
  { apply find_some in E2. destruct E2 as [Hin Hu]. apply String.eqb_eq in Hu.
    repeat apply conj.
    - intros _. exists u2. auto.
    - intros _. eexists. reflexivity.
    - reflexivity.
    - intros Hfree. destruct (Hfree u2 Hin) as [_ Hne]. contradiction. }
  unfold db_add_user, db_commit, db_refresh.
  cbn [commit_fails refresh_fails with_pending].
  repeat apply conj.
  - destruct (commit_fails db); [intros [detail E]; discriminate|].
    cbn [commit_fails refresh_fails].
    destruct (refresh_fails db); intros [detail E]; discriminate.
  - intros (u & Hin & [Hu|Hu]).
    + pose proof (find_none _ _ E1 u Hin) as Hno. cbn in Hno.
      apply String.eqb_neq in Hno. contradiction.
    + pose proof (find_none _ _ E2 u Hin) as Hno. cbn in Hno.
      apply String.eqb_neq in Hno. contradiction.
  - destruct (commit_fails db); [intros detail E; discriminate|].
    cbn [commit_fails refresh_fails].
    destruct (refresh_fails db); intros detail E; discriminate.
  - intros _ -> Hr. cbn [commit_fails refresh_fails]. rewrite Hr.
    do 3 eexists. split; [reflexivity|].
    cbn. repeat apply conj; try reflexivity.
    + trivial.
    + destruct (create_access_token_subject now
                  (UserCreate.username user_data))
        as (payload & signature & Et & Hsub & _).
      exists payload, signature. auto.
Qed.

Lemma username_or_email_iff (x : string) (u : User.t) :
  username_or_email x u = true <-> User.username u = x \/ User.email u = x.
Proof.
  unfold username_or_email. rewrite orb_true_iff, !String.eqb_eq. reflexivity.
Qed.

(** The row the login query returns is one of the rows that match; there
    is none exactly when no row matches. *)
Lemma login_row_none (x : string) (l : list User.t) :
  first_row (List.filter (username_or_email x) l) = None
  <-> forall u, List.In u l -> username_or_email x u = false.
Proof.
  split.
  - intros E u Hin. apply first_row_found in E.
    destruct (username_or_email x u) eqn:Hu; [|reflexivity].
    assert (Hf : List.In u (List.filter (username_or_email x) l))
      by (apply filter_In; auto).
    rewrite E in Hf. contradiction.
  - intros Hall.
    destruct (first_row (List.filter (username_or_email x) l)) as [u|] eqn:E;
      [|reflexivity].
    apply first_row_matches, filter_In in E. destruct E as [Hin Hu].
    rewrite (Hall u Hin) in Hu. discriminate.
Qed.

Lemma login_row_some (x : string) (l : list User.t) (u : User.t) :
  first_row (List.filter (username_or_email x) l) = Some u ->
  List.In u l /\ username_or_email x u = true.
Proof.
  intros E. apply first_row_matches, filter_In in E. exact E.
Qed.

(** C8. Login takes a stored user whose user name or whose e-mail
    address equals the submitted identifier: the row the database
    returns first among those that match, which is the matching row when
    there is one only. It answers 401 when there is none and when the
    password does not verify against that user's hash (even for an
    inactive user: the password is checked first), 403 when the password
    verifies and the user is inactive, and otherwise returns the user's
    projection with a token issued at that moment for the user's
    name. *)
Theorem login_outcomes (now : Z) (login_data : UserLogin.t) (db : Session) :
  let matches u :=
    User.username u = UserLogin.username login_data
    \/ User.email u = UserLogin.username login_data in
  let found :=
    first_row
      (List.filter (username_or_email (UserLogin.username login_data))
                   (users (pending db))) in
  (found = None <-> forall u, List.In u (users (pending db)) -> ~ matches u)
  /\ (forall u, found = Some u -> List.In u (users (pending db)) /\ matches u)
  /\ (forall u,
        List.In u (users (pending db)) -> matches u ->
        (forall u', List.In u' (users (pending db)) -> matches u' -> u' = u) ->
        found = Some u)
  /\ (found = None ->
      login_user now login_data db
      = Raise (HTTPException HTTP_401_UNAUTHORIZED "Invalid username or password"))
  /\ (forall u,
        found = Some u ->
        verify_password (UserLogin.password login_data) (User.password_hash u)
        = false ->
        login_user now login_data db
        = Raise (HTTPException HTTP_401_UNAUTHORIZED
                   "Invalid username or password"))
  /\ (forall u,
        found = Some u ->
        verify_password (UserLogin.password login_data) (User.password_hash u)
        = true ->
        User.is_active u = false ->
        login_user now login_data db
        = Raise (HTTPException HTTP_403_FORBIDDEN "User account is inactive"))
  /\ (forall u,
        found = Some u ->
        verify_password (UserLogin.password login_data) (User.password_hash u)
        = true ->
        User.is_active u = true ->
        login_user now login_data db
        = Ok (AuthResponse.mk "Login successful"
                (UserResponse.model_validate u)
                (create_access_token now {[ "sub" := JStr (User.username u) ]}
                   (Some (timedelta_minutes ACCESS_TOKEN_EXPIRE_MINUTES)))
                "bearer")).
Proof.
  intros matches found.
  assert (Hm : forall u,
             username_or_email (UserLogin.username login_data) u = true
             <-> matches u).
  { intros u. apply username_or_email_iff. }
  repeat apply conj.
  - intros E u Hin Hmu. apply Hm in Hmu.
    pose proof (proj1 (login_row_none _ _) E u Hin) as Hno. congruence.
  - intros Hall. apply login_row_none. intros u Hin.
    specialize (Hall u Hin). rewrite <- Hm in Hall.
    apply not_true_is_false. exact Hall.
  - intros u E. apply login_row_some in E. destruct E as [Hin E].
    split; [exact Hin|]. apply Hm. exact E.
  - intros u Hin Hmu Honly. destruct found as [u'|] eqn:E.
    + apply login_row_some in E. destruct E as [Hin' E]. apply Hm in E.
      rewrite (Honly u' Hin' E). reflexivity.
    + apply Hm in Hmu.
      pose proof (proj1 (login_row_none _ _) E u Hin) as Hno. congruence.
  - intros E. unfold login_user. fold found. rewrite E. reflexivity.
  - intros u E Hv. unfold login_user. fold found. rewrite E, Hv. reflexivity.
  - intros u E Hv Ha. unfold login_user. fold found. rewrite E, Hv, Ha.
    reflexivity.
  - intros u E Hv Ha. unfold login_user. fold found. rewrite E, Hv, Ha.
    reflexivity.
Qed.
End Accounts.

(** ** The user routes *)

Lemma in_merge_user (row u : User.t) (l : list User.t) :
  List.In u l -> User.id u = User.id row ->
  List.In row (map (fun x => if User.id x =? User.id row then row else x) l).
Proof.
  intros Hin Hid. apply in_map_iff. exists u. split; [|exact Hin].
  rewrite Hid, Z.eqb_refl. reflexivity.
Qed.

Lemma no_conflict_find (f : User.t -> bool) (uid : Z) (l : list User.t) :
  (forall x, List.In x l -> f x = true -> User.id x = uid) ->
  List.find (fun u => f u && negb (User.id u =? uid)) l = None.
Proof.
  intros Hall. apply find_none_iff. intros x Hin.
  destruct (f x) eqn:E; [|reflexivity].
  rewrite (Hall x Hin E), Z.eqb_refl. reflexivity.
Qed.

Lemma no_conflict_merge (f : User.t -> bool) (row : User.t) (l : list User.t) :
  (forall x, List.In x l -> f x = true -> User.id x = User.id row) ->
  forall y,
    List.In y (map (fun x => if User.id x =? User.id row then row else x) l) ->
    f y = true -> User.id y = User.id row.
Proof.
  intros Hall y Hy Hf. apply in_map_iff in Hy. destruct Hy as (x & Hx & Hin).
  destruct (User.id x =? User.id row) eqn:E.
  - subst y. reflexivity.
  - subst y. apply Hall; assumption.
Qed.

Lemma merge_user_rows (row x : User.t) (db : Session) :
  List.In x (users (pending (db_merge_user row db))) ->
  x = row \/ List.In x (users (pending db)).
Proof.
  unfold db_merge_user, with_pending. cbn. intros Hx.
  apply in_map_iff in Hx. destruct Hx as (y & Hy & Hin).
  destruct (User.id y =? User.id row); subst x; auto.
Qed.

Lemma merge_user_in (row u : User.t) (db : Session) :
  List.In u (users (pending db)) -> User.id u = User.id row ->
  List.In row (users (pending (db_merge_user row db))).
Proof.
  intros Hin Hid. unfold db_merge_user, with_pending. cbn.
  apply in_merge_user with (u := u); assumption.
Qed.

Section UserRoutes.
Context `{Libraries} `{Settings} `{Schemas} `{Engine}.



Lemma step_ok_merge (uid : Z) (db db1 : Session) (user user' : User.t) :
  step_ok uid db user db1 -> User.id user' = uid ->
  step_ok uid db user' (db_merge_user user' db1).
Proof.
  intros (Hin & Hid & Hrows & Hcm & Hcf & Hrf) Hid'. repeat apply conj.
  - apply merge_user_in with (u := user); congruence.
  - exact Hid'.
  - intros x Hx. apply merge_user_rows in Hx. destruct Hx as [->|Hx].
    + left. exact Hid'.
    + apply Hrows. exact Hx.
  - exact Hcm.
  - exact Hcf.
  - exact Hrf.
Qed.

Lemma step_no_conflict (f : User.t -> bool) (uid : Z) (db db1 : Session)
    (user : User.t) :
  step_ok uid db user db1 ->
  (forall x, List.In x (users (pending db)) -> f x = true -> User.id x = uid) ->
  List.find (fun u => f u && negb (User.id u =? uid)) (users (pending db1))
  = None.
Proof.
  intros (_ & _ & Hrows & _) Hall. apply no_conflict_find.
  intros x Hx Hf. destruct (Hrows x Hx) as [E|Hin]; [exact E|].
  apply Hall; assumption.
Qed.

Lemma update_user_ok (salt : string) (uid : Z) (body : UserUpdate.t)
    (db : Session) (u : User.t) :
  query_user_by_id uid db = Some u ->
  (forall v x, provided (UserUpdate.username body) = Some v ->
               List.In x (users (pending db)) ->
               User.username x = v -> User.id x = uid) ->
  (forall v x, provided (UserUpdate.email body) = Some v ->
               List.In x (users (pending db)) ->
               User.email x = v -> User.id x = uid) ->
  commit_fails db = false ->
  refresh_fails db = false ->
  exists db',
    update_user salt uid body db = (Ok (updated_user salt body u), db')
    /\ committed db' = pending db'
    /\ List.In (updated_user salt body u) (users (committed db')).
Proof.
  intros Hq Hname Hmail Hc Hr.
  pose proof Hq as Hfound. unfold query_user_by_id in Hfound.
  apply find_some in Hfound. destruct Hfound as [Hin Hid].
  apply Z.eqb_eq in Hid.
  assert (S0 : step_ok uid db u db).
  { repeat apply conj; auto. }
  unfold update_user, updated_user. rewrite Hq.
  (* user name *)
  assert (exists u1 db1,
             update_username uid body u db = Ok (u1, db1)
             /\ step_ok uid db u1 db1
             /\ u1 = match provided (UserUpdate.username body) with
                     | Some v => User.set_username v u | None => u end)
    as (u1 & db1 & -> & S1 & E1).
  { unfold update_username.
    destruct (provided (UserUpdate.username body)) as [v|] eqn:Ev.
    - rewrite (step_no_conflict
                 (fun x => String.eqb (User.username x) v) uid db db u S0).
      + do 2 eexists. split; [reflexivity|]. split; [|reflexivity].
        apply step_ok_merge with (user := u); [exact S0|exact Hid].
      + intros x Hx Hf. apply String.eqb_eq in Hf. eapply Hname; eauto.
    - do 2 eexists. split; [reflexivity|]. split; [exact S0|reflexivity]. }
  (* e-mail address *)
  assert (exists u2 db2,
             update_email uid body u1 db1 = Ok (u2, db2)
             /\ step_ok uid db u2 db2
             /\ u2 = match provided (UserUpdate.email body) with
                     | Some v => User.set_email v u1 | None => u1 end)
    as (u2 & db2 & -> & S2 & E2).
  { unfold update_email.
    destruct (provided (UserUpdate.email body)) as [v|] eqn:Ev.
    - rewrite (step_no_conflict
                 (fun x => String.eqb (User.email x) v) uid db db1 u1 S1).
      + do 2 eexists. split; [reflexivity|]. split; [|reflexivity].
        apply step_ok_merge with (user := u1); [exact S1|].
        destruct S1 as (_ & Hid1 & _). exact Hid1.
      + intros x Hx Hf. apply String.eqb_eq in Hf. eapply Hmail; eauto.
    - do 2 eexists. split; [reflexivity|]. split; [exact S1|reflexivity]. }
  (* password *)
  assert (exists u3 db3,
             update_password salt body u2 db2 = (u3, db3)
             /\ step_ok uid db u3 db3
             /\ u3 = match provided (UserUpdate.password body) with
                     | Some v =>
                         User.set_password_hash (hash_password salt v) u2
                     | None => u2
                     end)
    as (u3 & db3 & -> & S3 & E3).
  { unfold update_password.
    destruct (provided (UserUpdate.password body)) as [v|].
    - do 2 eexists. split; [reflexivity|]. split; [|reflexivity].
      apply step_ok_merge with (user := u2); [exact S2|].
      destruct S2 as (_ & Hid2 & _). exact Hid2.
    - do 2 eexists. split; [reflexivity|]. split; [exact S2|reflexivity]. }
  destruct S3 as (Hin3 & _ & _ & _ & Hcf3 & Hrf3).
  rewrite commit_ok by congruence.
  unfold db_refresh. cbn [refresh_fails]. rewrite Hrf3, Hr.
  subst u1 u2 u3. eexists. split; [reflexivity|]. split; [reflexivity|].
  exact Hin3.
Qed.
End UserRoutes.

Section OpenUserRoutes.
Context `{Libraries} `{Settings} `{Schemas} `{Engine}.

Lemma delete_user_ok (uid : Z) (db : Session) (u : User.t) :
  query_user_by_id uid db = Some u ->
  commit_fails db = false ->
  exists db',
    delete_user uid db = (Ok (UserDeleted (User.username u)), db')
    /\ users (committed db')
       = List.filter (fun x => negb (User.id x =? uid)) (users (pending db)).
Proof.
  intros Hq Hc. pose proof Hq as Hfound. unfold query_user_by_id in Hfound.
  apply find_some in Hfound. destruct Hfound as [_ Hid]. apply Z.eqb_eq in Hid.
  unfold delete_user. rewrite Hq.
  unfold db_commit, db_delete_user, with_pending. cbn. rewrite Hc, Hid.
  eexists. split; reflexivity.
Qed.


(** C9. The user list and the user routes by identifier look at no
    credentials: whatever the Authorization header holds, the answer and
    the database are those of the same request without a header. Without
    a header the list returns the stored users (paged), a user is fetched
    and deleted by identifier, and an update goes through as soon as no
    other row holds the requested user name or address (the database
    failing none of its steps). Every calculation
    route, and the current-user route, refuses the request without a
    header and leaves the database alone. *)
Theorem user_routes_need_no_token (authorization : option (string * Token))
    (d : Db) (fault : Faults) :
  (forall skip lim,
      GET_users authorization skip lim d fault = GET_users None skip lim d fault
      /\ GET_users None skip lim d fault
         = (Ok (limit lim (offset skip (users d))), d))
  /\ (forall uid,
      GET_user authorization uid d fault = GET_user None uid d fault)
  /\ (forall salt uid body,
      PUT_user authorization salt uid body d fault
      = PUT_user None salt uid body d fault)
  /\ (forall uid,
      DELETE_user authorization uid d fault = DELETE_user None uid d fault)
  /\ (forall uid u,
      List.find (fun x => User.id x =? uid) (users d) = Some u ->
      GET_user None uid d fault = (Ok u, d)
      /\ (commit_raises fault = false ->
          exists d',
            DELETE_user None uid d fault
            = (Ok (UserDeleted (User.username u)), d')
            /\ forall x, List.In x (users d') <->
                         List.In x (users d) /\ User.id x <> uid)
      /\ (forall salt body,
            UserUpdate_valid body = true ->
            (forall v x, provided (UserUpdate.username body) = Some v ->
                         List.In x (users d) ->
                         User.username x = v -> User.id x = uid) ->
            (forall v x, provided (UserUpdate.email body) = Some v ->
                         List.In x (users d) ->
                         User.email x = v -> User.id x = uid) ->
            fault = no_faults ->
            exists d',
              PUT_user None salt uid body d fault
              = (Ok (updated_user salt body u), d')
              /\ List.In (updated_user salt body u) (users d')))
  /\ (forall now,
      (forall body,
          POST_calculations now None body d fault = (not_authenticated, d))
      /\ (forall skip lim,
          GET_calculations now None skip lim d fault = (not_authenticated, d))
      /\ (forall cid,
          GET_calculation now None cid d fault = (not_authenticated, d))
      /\ (forall cid body,
          PUT_calculation now None cid body d fault = (not_authenticated, d))
      /\ (forall cid body,
          PATCH_calculation now None cid body d fault = (not_authenticated, d))
      /\ (forall cid,
          DELETE_calculation now None cid d fault = (not_authenticated, d))
      /\ GET_users_me now None d fault = (not_authenticated, d)).
Proof.
  split; [intros; split; reflexivity|].
  do 3 (split; [intros; reflexivity|]).
  split; [|intros now; repeat apply conj; intros; reflexivity].
  intros uid u Hq. repeat apply conj.
  - unfold GET_user, request, pure_handler, get_user.
    unfold query_user_by_id. cbn. rewrite Hq. reflexivity.
  - intros Hc.
    destruct (delete_user_ok uid (open_session d fault) u Hq Hc)
      as (db' & E & Hrows).
    unfold DELETE_user, request. rewrite E. eexists. split; [reflexivity|].
    intros x. unfold close_session. rewrite Hrows. cbn.
    rewrite filter_In, negb_true_iff, Z.eqb_neq. reflexivity.
  - intros salt body Hv Hname Hmail ->.
    destruct (update_user_ok salt uid body (open_session d no_faults) u Hq
                Hname Hmail eq_refl eq_refl) as (db' & E & _ & Hin).
    unfold PUT_user, request, validated. rewrite Hv, E.
    eexists. split; [reflexivity|]. exact Hin.
Qed.
End OpenUserRoutes.

(** ** Listing calculations *)

Lemma insert_desc_sorted (before : Calculation.t -> Calculation.t -> bool)
    (c : Calculation.t) (l : list Calculation.t) :
  newest_first l -> newest_first (insert_desc before c l).
Proof.
  unfold newest_first. induction l as [|x l IH]; intros Hs; cbn.
  - repeat constructor.
  - apply StronglySorted_inv in Hs. destruct Hs as [Hl Hx].
    destruct ((Calculation.created_at x <? Calculation.created_at c)
              || ((Calculation.created_at x =? Calculation.created_at c)
                  && before c x)) eqn:E.
    + assert (Hle : Calculation.created_at x <= Calculation.created_at c).
      { apply orb_true_iff in E. destruct E as [E|E].
        - apply Z.ltb_lt in E. lia.
        - apply andb_true_iff in E. destruct E as [E _].
          apply Z.eqb_eq in E. lia. }
      constructor; [constructor; assumption|].
      constructor; [exact Hle|]. rewrite Forall_forall in *. intros y Hy.
      specialize (Hx y Hy). cbn in Hx. lia.
    + apply orb_false_iff in E. destruct E as [E _].
      apply Z.ltb_ge in E. constructor; [apply IH; exact Hl|].
      rewrite Forall_forall in *. intros y Hy.
      apply list_elem_of_In, in_insert_desc in Hy. destruct Hy as [->|Hy].
      * exact E.
      * apply Hx, list_elem_of_In. exact Hy.
Qed.

Lemma order_by_sorted (before : Calculation.t -> Calculation.t -> bool)
    (l : list Calculation.t) :
  newest_first (order_by_created_at_desc before l).
Proof.
  unfold order_by_created_at_desc.
  assert (G : forall acc, newest_first acc ->
                newest_first
                  (fold_left (fun acc c => insert_desc before c acc) l acc)).
  { induction l as [|x l IH]; intros acc Hacc; cbn; [exact Hacc|].
    apply IH, insert_desc_sorted, Hacc. }
  apply G. constructor.
Qed.

Lemma insert_desc_perm (before : Calculation.t -> Calculation.t -> bool)
    (c : Calculation.t) (l : list Calculation.t) :
  Permutation (insert_desc before c l) (c :: l).
Proof.
  induction l as [|x l IH]; cbn; [reflexivity|].
  destruct (_ || _); [reflexivity|].
  rewrite IH. apply perm_swap.
Qed.

(** Among rows with different timestamps there is no tie to break. *)
Lemma insert_desc_no_tie (before before' : Calculation.t -> Calculation.t -> bool)
    (c : Calculation.t) (l : list Calculation.t) :
  (forall x, List.In x l -> Calculation.created_at x <> Calculation.created_at c) ->
  insert_desc before c l = insert_desc before' c l.
Proof.
  induction l as [|x l IH]; intros Hall; cbn; [reflexivity|].
  assert (E : (Calculation.created_at x =? Calculation.created_at c) = false).
  { apply Z.eqb_neq. apply Hall. left. reflexivity. }
  rewrite E. cbn [andb]. rewrite IH; [reflexivity|].
  intros y Hy. apply Hall. right. exact Hy.
Qed.

Lemma order_by_no_tie (before before' : Calculation.t -> Calculation.t -> bool)
    (l : list Calculation.t) :
  NoDup (map Calculation.created_at l) ->
  order_by_created_at_desc before l = order_by_created_at_desc before' l.
Proof.
  unfold order_by_created_at_desc.
  assert (G : forall acc,
             NoDup (map Calculation.created_at l) ->
             (forall x y, List.In x acc -> List.In y l ->
                          Calculation.created_at x <> Calculation.created_at y) ->
             fold_left (fun acc c => insert_desc before c acc) l acc
             = fold_left (fun acc c => insert_desc before' c acc) l acc).
  { induction l as [|c l IH]; intros acc Hnd Hacc; cbn; [reflexivity|].
    cbn in Hnd. apply NoDup_cons in Hnd. destruct Hnd as [Hc Hnd].
    rewrite (insert_desc_no_tie before before' c acc).
    2: { intros x Hx. apply Hacc; [exact Hx|left; reflexivity]. }
    apply IH; [exact Hnd|].
    intros x y Hx Hy. apply in_insert_desc in Hx. destruct Hx as [->|Hx].
    - intros E. apply Hc. rewrite E. apply list_elem_of_In, in_map. exact Hy.
    - apply Hacc; [exact Hx|right; exact Hy]. }
  intros Hnd. apply G; [exact Hnd|]. intros x y [].
Qed.

Lemma order_by_perm (before : Calculation.t -> Calculation.t -> bool)
    (l : list Calculation.t) :
  Permutation (order_by_created_at_desc before l) l.
Proof.
  unfold order_by_created_at_desc.
  assert (G : forall acc,
             Permutation (fold_left (fun acc c => insert_desc before c acc) l acc)
                         (acc ++ l)).
  { induction l as [|x l IH]; intros acc; cbn.
    - rewrite app_nil_r. reflexivity.
    - rewrite IH, insert_desc_perm. apply Permutation_middle. }
  apply (G []).
Qed.

Lemma sorted_skipn (n : nat) (l : list Calculation.t) :
  newest_first l -> newest_first (skipn n l).
Proof.
  revert l. induction n as [|n IH]; intros l Hs; [exact Hs|].
  destruct l as [|x l]; [exact Hs|]. cbn.
  apply IH. apply StronglySorted_inv in Hs. tauto.
Qed.

Lemma sorted_firstn (n : nat) (l : list Calculation.t) :
  newest_first l -> newest_first (firstn n l).
Proof.
  revert l. induction n as [|n IH]; intros l Hs; [constructor|].
  destruct l as [|x l]; [constructor|]. cbn.
  apply StronglySorted_inv in Hs. destruct Hs as [Hl Hx].
  constructor; [apply IH; exact Hl|].
  rewrite Forall_forall in *. intros y Hy. apply Hx.
  apply list_elem_of_In. apply list_elem_of_In in Hy.
  rewrite <- (firstn_skipn n l). apply in_or_app. left. exact Hy.
Qed.

Section Pages.
Context `{Engine}.

Lemma browse_calculations_eq (skip lim : Z) (u : User.t) (db : Session) :
  browse_calculations skip lim u db
  = limit (Z.min lim 1000)
      (offset skip
         (order_by_created_at_desc (tie_before skip (Z.min lim 1000))
            (calculations_of u db))).
Proof. reflexivity. Qed.

(** X1. The list of calculations is ordered newest first, holds only rows
    of the caller that are in the table, and for a non-negative limit has
    at most that many rows and never more than 1000. *)
Theorem browse_newest_first_and_capped (skip lim : Z) (u : User.t)
    (db : Session) :
  newest_first (browse_calculations skip lim u db)
  /\ (forall c, List.In c (browse_calculations skip lim u db) ->
                List.In c (calculations (pending db))
                /\ Calculation.user_id c = User.id u)
  /\ (0 <= lim ->
      (length (browse_calculations skip lim u db) <= Z.to_nat lim)%nat
      /\ (length (browse_calculations skip lim u db) <= 1000)%nat).
Proof.
  split; [|split].
  - rewrite browse_calculations_eq. unfold limit, offset.
    destruct (Z.min lim 1000 <? 0).
    + apply sorted_skipn, order_by_sorted.
    + apply sorted_firstn, sorted_skipn, order_by_sorted.
  - intros c. apply in_browse_calculations.
  - intros Hlim. rewrite browse_calculations_eq. unfold limit.
    assert (E : (Z.min lim 1000 <? 0) = false) by (apply Z.ltb_ge; lia).
    rewrite E.
    pose proof (firstn_le_length (Z.to_nat (Z.min lim 1000))
                  (offset skip
                     (order_by_created_at_desc
                        (tie_before skip (Z.min lim 1000))
                        (calculations_of u db))))
      as Hlen.
    split; lia.
Qed.

(** X2. When the caller owns at most 1000 rows and the limit is at least
    their number, the first page is a rearrangement of exactly the
    caller's rows: a row is listed if and only if it is in the table and
    the caller owns it. *)
Theorem browse_lists_every_own_row (lim : Z) (u : User.t) (db : Session) :
  (length (calculations_of u db) <= 1000)%nat ->
  Z.of_nat (length (calculations_of u db)) <= lim ->
  Permutation (browse_calculations 0 lim u db) (calculations_of u db)
  /\ forall c, List.In c (browse_calculations 0 lim u db)
               <-> List.In c (calculations (pending db))
                   /\ Calculation.user_id c = User.id u.
Proof.
  intros Hcap Hlim.
  assert (Hp : Permutation (browse_calculations 0 lim u db) (calculations_of u db)).
  { rewrite browse_calculations_eq. unfold limit, offset.
    change (Z.to_nat 0) with 0%nat. rewrite skipn_0.
    assert (E : (Z.min lim 1000 <? 0) = false) by (apply Z.ltb_ge; lia).
    rewrite E, firstn_all2; [apply order_by_perm|].
    rewrite (Permutation_length (order_by_perm _ (calculations_of u db))). lia. }
  split; [exact Hp|].
  intros c. split.
  - apply in_browse_calculations.
  - intros [Hin Hu]. apply (Permutation_in c (Permutation_sym Hp)).
    unfold calculations_of. apply filter_In. split; [exact Hin|].
    apply Z.eqb_eq. exact Hu.
Qed.

Lemma firstn_add_skipn {A} (n m : nat) (l : list A) :
  (firstn n l ++ firstn m (skipn n l))%list = firstn (n + m) l.
Proof.
  revert l. induction n as [|n IH]; intros l; [reflexivity|].
  destruct l as [|x l]; cbn.
  - destruct m; reflexivity.
  - rewrite IH. reflexivity.
Qed.

(** X3. Consecutive pages fit together when no two of the caller's rows
    have the same creation time (the order of the listing is then
    fixed): for non-negative skip and limits whose sum stays within the
    cap of 1000, the page at [skip] followed by the page at
    [skip + limit] is the page at [skip] of the two limits added. *)
Theorem browse_pages_concatenate (skip lim lim' : Z) (u : User.t)
    (db : Session) :
  NoDup (map Calculation.created_at (calculations_of u db)) ->
  0 <= skip -> 0 <= lim -> 0 <= lim' -> lim + lim' <= 1000 ->
  (browse_calculations skip lim u db
   ++ browse_calculations (skip + lim) lim' u db)%list
  = browse_calculations skip (lim + lim') u db.
Proof.
  intros Hts Hs Hl Hl' Hcap. rewrite !browse_calculations_eq.
  rewrite (order_by_no_tie (tie_before skip (Z.min lim 1000))
             (tie_before skip (Z.min (lim + lim') 1000)) _ Hts).
  rewrite (order_by_no_tie (tie_before (skip + lim) (Z.min lim' 1000))
             (tie_before skip (Z.min (lim + lim') 1000)) _ Hts).
  unfold limit, offset.
  rewrite !Z.min_l by lia.
  assert (E : forall n, 0 <= n -> (n <? 0) = false)
    by (intros n Hn; apply Z.ltb_ge; exact Hn).
  rewrite !E by lia.
  rewrite !Z2Nat.inj_add by lia.
  rewrite (Nat.add_comm (Z.to_nat skip) (Z.to_nat lim)), <- skipn_skipn.
  apply firstn_add_skipn.
Qed.
End Pages.

(** ** Reading back what was written *)

Lemma find_app {A} (f : A -> bool) (l1 l2 : list A) :
  List.find f (l1 ++ l2) =
  match List.find f l1 with Some x => Some x | None => List.find f l2 end.
Proof.
  induction l1 as [|x l1 IH]; cbn; [reflexivity|].
  destruct (f x); [reflexivity|exact IH].
Qed.

Lemma find_filter_implied {A} (f keep : A -> bool) (l : list A) :
  (forall x, f x = true -> keep x = true) ->
  List.find f (List.filter keep l) = List.find f l.
Proof.
  intros Himp. induction l as [|x l IH]; cbn; [reflexivity|].
  destruct (keep x) eqn:Ek; cbn.
  - destruct (f x); [reflexivity|exact IH].
  - destruct (f x) eqn:Ef; [|exact IH].
    rewrite (Himp x Ef) in Ek. discriminate.
Qed.

(** What the three writing handlers leave committed, when they succeed. *)
Lemma add_calculation_ok (now : Z) (data : CalculationCreate.t) (u : User.t)
    (db db' : Session) (row : Calculation.t) :
  add_calculation now data u db = (Ok row, db') ->
  exists r,
    calculate (CalculationCreate.a data) (CalculationCreate.b data)
              (CalculationCreate.type data) = Ok r
    /\ row = Calculation.mk (calculations_id_seq (pending db)) (User.id u)
               (CalculationCreate.a data) (CalculationCreate.b data)
               (CalculationCreate.type data) r now
    /\ commit_fails db = false
    /\ refresh_fails db = false
    /\ db' = mkSession
               (mkDb (users (pending db)) (calculations (pending db) ++ [row])
                     (users_id_seq (pending db))
                     (calculations_id_seq (pending db) + 1))
               (mkDb (users (pending db)) (calculations (pending db) ++ [row])
                     (users_id_seq (pending db))
                     (calculations_id_seq (pending db) + 1))
               false false.
Proof.
  unfold add_calculation.
  destruct (calculate _ _ _) as [r|[]]; try discriminate.
  unfold db_add_calculation, db_commit, db_refresh.
  cbn [commit_fails refresh_fails with_pending].
  destruct (commit_fails db) eqn:Ec; [discriminate|].
  cbn [commit_fails refresh_fails].
  destruct (refresh_fails db) eqn:Er; [discriminate|].
  intros [= <- <-]. exists r. repeat split.
Qed.

(** What the three writing handlers leave committed, whether they
    succeed or fail: what was committed before, or the whole write. *)
Lemma add_calculation_committed (now : Z) (data : CalculationCreate.t)
    (u : User.t) (db : Session) :
  committed (snd (add_calculation now data u db)) = committed db
  \/ exists r,
       calculate (CalculationCreate.a data) (CalculationCreate.b data)
                 (CalculationCreate.type data) = Ok r
       /\ committed (snd (add_calculation now data u db))
          = mkDb (users (pending db))
                 (calculations (pending db)
                  ++ [Calculation.mk (calculations_id_seq (pending db))
                        (User.id u) (CalculationCreate.a data)
                        (CalculationCreate.b data)
                        (CalculationCreate.type data) r now])
                 (users_id_seq (pending db))
                 (calculations_id_seq (pending db) + 1).
Proof.
  unfold add_calculation.
  destruct (calculate _ _ _) as [r|[]]; try (left; reflexivity).
  unfold db_add_calculation, db_commit, db_refresh.
  cbn [commit_fails refresh_fails with_pending].
  destruct (commit_fails db); [left; reflexivity|].
  cbn [commit_fails refresh_fails].
  right. exists r. split; [reflexivity|].
  destruct (refresh_fails db); reflexivity.
Qed.

Lemma edit_calculation_committed (cid : Z) (data : CalculationUpdate.t)
    (u : User.t) (db : Session) :
  committed (snd (edit_calculation cid data u db)) = committed db
  \/ exists c r,
       query_calculation cid (User.id u) db = Some c
       /\ data <> no_fields
       /\ calculate (Calculation.a (fst (apply_update data c)))
                    (Calculation.b (fst (apply_update data c)))
                    (Calculation.type (fst (apply_update data c))) = Ok r
       /\ committed (snd (edit_calculation cid data u db))
          = pending (db_merge_calculation
                       (Calculation.set_result r (fst (apply_update data c)))
                       (db_merge_calculation (fst (apply_update data c)) db)).
Proof.
  destruct (query_calculation cid (User.id u) db) as [c|] eqn:Hq.
  - assert (Hcase : data = no_fields \/ data <> no_fields).
    { destruct (snd (apply_update data c)) eqn:E.
      - right. intros ->. discriminate.
      - left. apply (apply_update_flag data c). exact E. }
    destruct Hcase as [->|Hdata].
    + left. unfold edit_calculation. rewrite Hq, apply_update_no_fields.
      reflexivity.
    + rewrite (edit_calculation_updated cid data u db c Hq Hdata).
      destruct (calculate _ _ _) as [r|[]] eqn:Hr; cbn zeta;
        try (left; reflexivity).
      destruct (commit_fails db); [left; reflexivity|].
      right. exists c, r. split; [reflexivity|]. split; [exact Hdata|].
      split; [exact Hr|]. destruct (refresh_fails db); reflexivity.
  - left. unfold edit_calculation. rewrite Hq. reflexivity.
Qed.

Lemma delete_calculation_committed (cid : Z) (u : User.t) (db : Session) :
  committed (snd (delete_calculation cid u db)) = committed db
  \/ exists c,
       query_calculation cid (User.id u) db = Some c
       /\ committed (snd (delete_calculation cid u db))
          = pending (db_delete_calculation c db).
Proof.
  unfold delete_calculation.
  destruct (query_calculation cid (User.id u) db) as [c|] eqn:Hq;
    [|left; reflexivity].
  unfold db_commit. cbn [commit_fails db_delete_calculation with_pending].
  destruct (commit_fails db); [left; reflexivity|].
  right. exists c. split; reflexivity.
Qed.

Lemma delete_calculation_ok (cid : Z) (u : User.t) (db db' : Session)
    (msg : Message) :
  delete_calculation cid u db = (Ok msg, db') ->
  exists c,
    query_calculation cid (User.id u) db = Some c
    /\ commit_fails db = false
    /\ calculations (committed db')
       = List.filter (fun x => negb (Calculation.id x =? cid))
                     (calculations (pending db))
    /\ users (committed db') = users (pending db)
    /\ pending db' = committed db'.
Proof.
  unfold delete_calculation.
  destruct (query_calculation cid (User.id u) db) as [c|] eqn:Hq;
    [|discriminate].
  destruct (query_calculation_some _ _ _ _ Hq) as (_ & Hid & _).
  unfold db_commit. cbn [commit_fails db_delete_calculation with_pending].
  destruct (commit_fails db) eqn:Ec; [discriminate|].
  intros [= _ <-]. exists c. rewrite Hid. repeat split.
Qed.

(** X4. With the primary key in force, a created calculation can be read
    back by its owner under the identifier it was given, that identifier
    is carried by no earlier row, and every read that succeeded before
    the create returns the same row after it. *)
Theorem created_calculation_is_readable (now : Z) (data : CalculationCreate.t)
    (u : User.t) (db db' : Session) (row : Calculation.t) :
  calculations_pk (pending db) ->
  add_calculation now data u db = (Ok row, db') ->
  read_calculation (Calculation.id row) u db' = Ok row
  /\ (forall cid reader c,
        read_calculation cid reader db = Ok c ->
        read_calculation cid reader db' = Ok c)
  /\ (forall c, List.In c (calculations (pending db)) ->
                Calculation.id c <> Calculation.id row).
Proof.
  intros [Hnd Hlt] Hadd.
  destruct (add_calculation_ok _ _ _ _ _ _ Hadd)
    as (r & Hr & Hrow & Hc & _ & ->).
  assert (Hfresh : forall c, List.In c (calculations (pending db)) ->
                             Calculation.id c <> Calculation.id row).
  { intros c Hin. rewrite Forall_forall in Hlt.
    apply list_elem_of_In, Hlt in Hin. subst row. cbn. lia. }
  split; [|split; [|exact Hfresh]].
  - unfold read_calculation, query_calculation. cbn [pending calculations].
    rewrite find_app.
    rewrite (proj2 (find_none_iff _ _)).
    + cbn. subst row. cbn. rewrite !Z.eqb_refl. reflexivity.
    + intros c Hin. apply andb_false_iff. left. apply Z.eqb_neq.
      apply Hfresh. exact Hin.
  - intros cid reader c. unfold read_calculation, query_calculation.
    cbn [pending calculations]. rewrite find_app.
    destruct (List.find _ (calculations (pending db))); [trivial|discriminate].
Qed.

Section Deleted.
Context `{Engine}.

(** X5. After a successful delete the identifier is not found by any
    reader and appears on no page of any list, while a read of any other
    identifier answers as before the delete. *)
Theorem deleted_calculation_is_gone (cid : Z) (u : User.t) (db db' : Session)
    (msg : Message) :
  delete_calculation cid u db = (Ok msg, db') ->
  (forall reader, read_calculation cid reader db' = calculation_not_found)
  /\ (forall skip lim reader c,
        List.In c (browse_calculations skip lim reader db') ->
        Calculation.id c <> cid)
  /\ (forall other reader,
        other <> cid ->
        read_calculation other reader db' = read_calculation other reader db).
Proof.
  intros Hdel.
  destruct (delete_calculation_ok _ _ _ _ _ Hdel) as (c & Hq & Hc & Hrows & _ & Hp).
  assert (Hview : calculations (pending db')
                  = List.filter (fun x => negb (Calculation.id x =? cid))
                                (calculations (pending db))).
  { rewrite Hp. exact Hrows. }
  split; [|split].
  - intros reader. unfold read_calculation.
    rewrite query_calculation_missing; [reflexivity|].
    intros x Hx. rewrite Hview in Hx. apply filter_In in Hx.
    destruct Hx as [_ Hx]. apply negb_true_iff, Z.eqb_neq in Hx. exact Hx.
  - intros skip lim reader x Hx. apply in_browse_calculations in Hx.
    destruct Hx as [Hx _]. rewrite Hview in Hx. apply filter_In in Hx.
    destruct Hx as [_ Hx]. apply negb_true_iff, Z.eqb_neq in Hx. exact Hx.
  - intros other reader Hne. unfold read_calculation, query_calculation.
    rewrite Hview, find_filter_implied; [reflexivity|].
    intros x Hx. apply andb_prop in Hx. destruct Hx as [Hx _].
    apply Z.eqb_eq in Hx. apply negb_true_iff, Z.eqb_neq. congruence.
Qed.
End Deleted.

Lemma edit_calculation_ok (cid : Z) (data : CalculationUpdate.t) (u : User.t)
    (db db' : Session) (row : Calculation.t) :
  edit_calculation cid data u db = (Ok row, db') ->
  exists c,
    query_calculation cid (User.id u) db = Some c
    /\ ((data = no_fields /\ row = c /\ db' = db)
        \/ (data <> no_fields
            /\ calculate (Calculation.a (fst (apply_update data c)))
                         (Calculation.b (fst (apply_update data c)))
                         (Calculation.type (fst (apply_update data c)))
               = Ok (Calculation.result row)
            /\ row = Calculation.set_result (Calculation.result row)
                       (fst (apply_update data c))
            /\ commit_fails db = false
            /\ refresh_fails db = false
            /\ db' = mkSession
                       (pending (db_merge_calculation row
                                   (db_merge_calculation
                                      (fst (apply_update data c)) db)))
                       (pending (db_merge_calculation row
                                   (db_merge_calculation
                                      (fst (apply_update data c)) db)))
                       false false)).
Proof.
  intros Hedit.
  destruct (query_calculation cid (User.id u) db) as [c|] eqn:Hq.
  - exists c. split; [reflexivity|].
    assert (Hcase : data = no_fields \/ data <> no_fields).
    { destruct (snd (apply_update data c)) eqn:E.
      - right. intros ->. discriminate.
      - left. apply (apply_update_flag data c). exact E. }
    destruct Hcase as [->|Hdata].
    + left. unfold edit_calculation in Hedit.
      rewrite Hq, apply_update_no_fields in Hedit. cbn in Hedit.
      inversion Hedit. auto.
    + right. rewrite (edit_calculation_updated cid data u db c Hq Hdata) in Hedit.
      destruct (calculate _ _ _) as [r|[]]; cbn zeta in Hedit; try discriminate.
      destruct (commit_fails db) eqn:Ec; [discriminate|].
      destruct (refresh_fails db) eqn:Er; [discriminate|].
      inversion Hedit. subst row. cbn [Calculation.set_result Calculation.result].
      repeat split; auto.
  - unfold edit_calculation in Hedit. rewrite Hq in Hedit. discriminate.
Qed.

Lemma merge_other_rows (row x : Calculation.t) (l : list Calculation.t) :
  Calculation.id x <> Calculation.id row ->
  (List.In x (map (fun c => if Calculation.id c =? Calculation.id row
                            then row else c) l)
   <-> List.In x l).
Proof.
  intros Hne. rewrite in_map_iff. split.
  - intros (y & Hy & Hin).
    destruct (Calculation.id y =? Calculation.id row) eqn:E.
    + subst x. contradiction.
    + subst x. exact Hin.
  - intros Hin. exists x. split; [|exact Hin].
    apply Z.eqb_neq in Hne. rewrite Hne. reflexivity.
Qed.

(** X6. With the primary key in force, whatever a user creates, updates
    or deletes, and whether the request succeeds or fails, a row owned by
    somebody else is committed afterwards exactly when it was committed
    before. *)
Theorem writes_leave_foreign_rows_alone (u : User.t) (db : Session)
    (x : Calculation.t) :
  committed db = pending db ->
  NoDup (map Calculation.id (calculations (pending db))) ->
  Calculation.user_id x <> User.id u ->
  (forall now data,
      List.In x (calculations (committed (snd (add_calculation now data u db))))
      <-> List.In x (calculations (committed db)))
  /\ (forall cid data,
      List.In x (calculations (committed (snd (edit_calculation cid data u db))))
      <-> List.In x (calculations (committed db)))
  /\ (forall cid,
      List.In x (calculations (committed (snd (delete_calculation cid u db))))
      <-> List.In x (calculations (committed db))).
Proof.
  intros Hfresh Hnd Hx. repeat apply conj.
  - intros now data.
    destruct (add_calculation_committed now data u db) as [-> |(r & _ & ->)];
      [reflexivity|].
    cbn [calculations]. rewrite Hfresh, in_app_iff. cbn.
    split; [|auto]. intros [H|[H|[]]]; [exact H|].
    subst x. cbn in Hx. contradiction.
  - intros cid data.
    destruct (edit_calculation_committed cid data u db)
      as [-> |(c & r & Hq & _ & _ & ->)]; [reflexivity|].
    set (row := Calculation.set_result r (fst (apply_update data c))).
    destruct (query_calculation_some _ _ _ _ Hq) as (Hin & Hid & Hu).
    destruct (apply_update_fields data c) as (_ & _ & _ & Hid' & Hu' & _).
    assert (Hrid : Calculation.id row = cid).
    { subst row. cbn. congruence. }
    assert (Hruid : Calculation.user_id row = User.id u).
    { subst row. cbn. congruence. }
    assert (Hxid : List.In x (calculations (pending db)) ->
                   Calculation.id x <> cid).
    { intros Hxin E'. apply Hx. rewrite <- Hu.
      f_equal. apply (pk_same_row _ x c Hnd Hxin Hin). congruence. }
    cbn [pending db_merge_calculation with_pending calculations].
    rewrite Hfresh. split.
    + intros H. apply in_map_iff in H. destruct H as (y & Hy & Hyin).
      destruct (Calculation.id y =? Calculation.id row) eqn:Ey.
      { exfalso. apply Hx. subst x. exact Hruid. }
      subst y. apply in_map_iff in Hyin. destruct Hyin as (z & Hz & Hzin).
      destruct (Calculation.id z =? _) eqn:Ez.
      { exfalso. apply Hx. rewrite <- Hz. congruence. }
      subst z. exact Hzin.
    + intros H. pose proof (Hxid H) as Hne.
      apply merge_other_rows; [congruence|].
      apply merge_other_rows; [congruence|exact H].
  - intros cid.
    destruct (delete_calculation_committed cid u db) as [-> |(c & Hq & ->)];
      [reflexivity|].
    destruct (query_calculation_some _ _ _ _ Hq) as (Hin & Hid & Hu).
    cbn [pending db_delete_calculation with_pending calculations].
    rewrite Hfresh, filter_In. split; [tauto|].
    intros H. split; [exact H|]. apply negb_true_iff, Z.eqb_neq.
    intros E'. apply Hx. rewrite <- Hu. f_equal.
    apply (pk_same_row _ x c Hnd H Hin). congruence.
Qed.

(** X7. If every stored row holds the result the engine computes from
    its operands and operation, so does every row committed by a create,
    an update or a delete. *)
Theorem stored_results_are_computed (db : Session) :
  Forall result_is_computed (calculations (committed db)) ->
  Forall result_is_computed (calculations (pending db)) ->
  (forall now data u,
      Forall result_is_computed
        (calculations (committed (snd (add_calculation now data u db)))))
  /\ (forall cid data u,
      Forall result_is_computed
        (calculations (committed (snd (edit_calculation cid data u db)))))
  /\ (forall cid u,
      Forall result_is_computed
        (calculations (committed (snd (delete_calculation cid u db))))).
Proof.
  intros Hc Hp. repeat apply conj.
  - intros now data u.
    destruct (add_calculation_committed now data u db) as [-> |(r & Hr & ->)];
      [exact Hc|].
    cbn [calculations]. apply Forall_app. split; [exact Hp|].
    apply Forall_singleton. exact Hr.
  - intros cid data u.
    destruct (edit_calculation_committed cid data u db)
      as [-> |(c & r & Hq & _ & Hcalc & ->)]; [exact Hc|].
    set (row := Calculation.set_result r (fst (apply_update data c))).
    assert (Hgood : result_is_computed row).
    { unfold result_is_computed. subst row. exact Hcalc. }
    cbn [pending db_merge_calculation with_pending calculations].
    apply Forall_forall. intros y Hy.
    apply list_elem_of_In, in_map_iff in Hy. destruct Hy as (z & Hz & Hzin).
    destruct (Calculation.id z =? Calculation.id row) eqn:Ez;
      [subst y; exact Hgood|].
    subst z. apply in_map_iff in Hzin. destruct Hzin as (w & Hw & Hwin).
    destruct (Calculation.id w =? _) eqn:Ew.
    + (* the first assignment's row has the identifier of [row] *)
      exfalso. apply Z.eqb_neq in Ez. apply Ez.
      rewrite <- Hw. reflexivity.
    + subst w. rewrite Forall_forall in Hp. apply Hp, list_elem_of_In, Hwin.
  - intros cid u.
    destruct (delete_calculation_committed cid u db) as [-> |(c & _ & ->)];
      [exact Hc|].
    cbn [pending db_delete_calculation with_pending calculations].
    apply Forall_forall. intros y Hy.
    apply list_elem_of_In, filter_In in Hy. destruct Hy as [Hy _].
    rewrite Forall_forall in Hp. apply Hp, list_elem_of_In, Hy.
Qed.

Lemma find_merged (p : Calculation.t -> bool) (row : Calculation.t)
    (l : list Calculation.t) :
  p row = true ->
  (forall x, p x = true -> Calculation.id x = Calculation.id row) ->
  (exists c, List.In c l /\ Calculation.id c = Calculation.id row) ->
  List.find p (map (fun c => if Calculation.id c =? Calculation.id row
                             then row else c) l) = Some row.
Proof.
  intros Hrow Hp. induction l as [|x l IH]; intros (c & Hin & Hid).
  - contradiction.
  - cbn. destruct (Calculation.id x =? Calculation.id row) eqn:E.
    + rewrite Hrow. reflexivity.
    + destruct (p x) eqn:Epx.
      * apply Hp in Epx. apply Z.eqb_neq in E. contradiction.
      * apply IH. exists c. split; [|exact Hid].
        destruct Hin as [->|Hin]; [|exact Hin].
        apply Z.eqb_neq in E. contradiction.
Qed.

Lemma merge_twice (row : Calculation.t) (l : list Calculation.t) :
  map (fun c => if Calculation.id c =? Calculation.id row then row else c)
      (map (fun c => if Calculation.id c =? Calculation.id row then row else c) l)
  = map (fun c => if Calculation.id c =? Calculation.id row then row else c) l.
Proof.
  rewrite List.map_map. apply map_ext. intros c.
  destruct (Calculation.id c =? Calculation.id row) eqn:E.
  - rewrite Z.eqb_refl. reflexivity.
  - rewrite E. reflexivity.
Qed.

Lemma apply_update_again (data : CalculationUpdate.t) (r : float)
    (c : Calculation.t) :
  fst (apply_update data (Calculation.set_result r (fst (apply_update data c))))
  = Calculation.set_result r (fst (apply_update data c)).
Proof.
  destruct data as [[va|] [vb|] [vt|]], c; reflexivity.
Qed.

(** X8. A successful update, sent again on the session it left, returns
    the same row and leaves the same session. *)
Theorem edit_calculation_idempotent (cid : Z) (data : CalculationUpdate.t)
    (u : User.t) (db db' : Session) (row : Calculation.t) :
  edit_calculation cid data u db = (Ok row, db') ->
  edit_calculation cid data u db' = (Ok row, db').
Proof.
  intros Hedit.
  destruct (edit_calculation_ok _ _ _ _ _ _ Hedit)
    as (c & Hq & [(_ & _ & ->)|(Hdata & Hcalc & Hrow & Hc & _ & Hdb)]);
    [exact Hedit|].
  destruct (query_calculation_some _ _ _ _ Hq) as (Hin & Hid & Hu).
  destruct (apply_update_fields data c) as (_ & _ & _ & Hid' & Hu' & _).
  set (c' := fst (apply_update data c)) in *.
  assert (Hrid : Calculation.id row = cid) by (rewrite Hrow; cbn; congruence).
  assert (Hruid : Calculation.user_id row = User.id u)
    by (rewrite Hrow; cbn; congruence).
  assert (Hq' : query_calculation cid (User.id u) db' = Some row).
  { unfold query_calculation. rewrite Hdb.
    cbn [pending db_merge_calculation with_pending calculations].
    apply find_merged.
    - rewrite Hrid, Hruid, !Z.eqb_refl. reflexivity.
    - intros x Hx. apply andb_prop in Hx. destruct Hx as [Hx _].
      apply Z.eqb_eq in Hx. congruence.
    - exists c'. split; [|congruence].
      apply in_merge with (c := c); [exact Hin|congruence]. }
  assert (Hagain : fst (apply_update data row) = row).
  { rewrite Hrow. apply apply_update_again. }
  rewrite (edit_calculation_updated cid data u db' row Hq' Hdata), Hagain.
  assert (Hcalc' : calculate (Calculation.a row) (Calculation.b row)
                             (Calculation.type row)
                   = Ok (Calculation.result row)).
  { rewrite Hrow at 1 2 3. exact Hcalc. }
  rewrite Hcalc'. cbn zeta.
  assert (Hsame : Calculation.set_result (Calculation.result row) row = row)
    by (destruct row; reflexivity).
  rewrite Hsame.
  assert (Hcf : commit_fails db' = false) by (rewrite Hdb; reflexivity).
  assert (Hrf : refresh_fails db' = false) by (rewrite Hdb; reflexivity).
  rewrite Hcf, Hrf. f_equal. subst db'.
  unfold db_merge_calculation, with_pending.
  cbn [pending committed commit_fails calculations users users_id_seq
       calculations_id_seq].
  rewrite !merge_twice. reflexivity.
Qed.

(** ** The keys of the user table *)

Lemma column_same_row {B} (f : User.t -> B) (l : list User.t) (x y : User.t) :
  NoDup (map f l) -> List.In x l -> List.In y l -> f x = f y -> x = y.
Proof.
  induction l as [|z l IH]; intros Hnd Hx Hy Hn; [contradiction|].
  cbn in Hnd. apply NoDup_cons in Hnd. destruct Hnd as [Hz Hnd].
  assert (Hmem : forall w, List.In w l -> f w ∈ map f l).
  { intros w Hw. apply list_elem_of_In. apply in_map. exact Hw. }
  destruct Hx as [<-|Hx], Hy as [<-|Hy].
  - reflexivity.
  - exfalso. apply Hz. rewrite Hn. apply Hmem. exact Hy.
  - exfalso. apply Hz. rewrite <- Hn. apply Hmem. exact Hx.
  - apply IH; assumption.
Qed.

Lemma column_append {B} (f : User.t -> B) (l : list User.t) (row : User.t) :
  NoDup (map f l) -> (forall x, List.In x l -> f x <> f row) ->
  NoDup (map f (l ++ [row])).
Proof.
  intros Hnd Hnew. rewrite List.map_app. cbn.
  apply NoDup_app. split; [exact Hnd|]. split; [|apply NoDup_singleton].
  intros b Hb Hb'. apply list_elem_of_singleton in Hb'. subst b.
  apply list_elem_of_In, in_map_iff in Hb. destruct Hb as (x & Hx & Hin).
  apply (Hnew x Hin Hx).
Qed.

Lemma column_filter {B} (f : User.t -> B) (keep : User.t -> bool)
    (l : list User.t) :
  NoDup (map f l) -> NoDup (map f (List.filter keep l)).
Proof.
  induction l as [|x l IH]; cbn; intros Hnd; [constructor|].
  apply NoDup_cons in Hnd. destruct Hnd as [Hx Hnd].
  destruct (keep x); cbn; [|apply IH; exact Hnd].
  apply NoDup_cons. split; [|apply IH; exact Hnd].
  intros Hin. apply Hx.
  apply list_elem_of_In, in_map_iff in Hin. destruct Hin as (y & Hy & Hin).
  apply filter_In in Hin. destruct Hin as [Hin _].
  apply list_elem_of_In, in_map_iff. exists y. auto.
Qed.

Lemma column_replace {B} (f : User.t -> B) (row : User.t) (l : list User.t) :
  NoDup (map User.id l) -> NoDup (map f l) ->
  (forall x, List.In x l -> User.id x <> User.id row -> f x <> f row) ->
  NoDup (map f (map (fun x => if User.id x =? User.id row then row else x) l)).
Proof.
  induction l as [|x l IH]; cbn; intros Hid Hf Hother; [constructor|].
  apply NoDup_cons in Hid. destruct Hid as [Hxid Hid].
  apply NoDup_cons in Hf. destruct Hf as [Hxf Hf].
  assert (IH' : NoDup (map f (map (fun x0 => if User.id x0 =? User.id row
                                           then row else x0) l))).
  { apply IH; [exact Hid|exact Hf|]. intros y Hy. apply Hother. right. exact Hy. }
  apply NoDup_cons. split; [|exact IH'].
  intros Hin. apply list_elem_of_In, in_map_iff in Hin.
  destruct Hin as (y & Hy & Hin). apply in_map_iff in Hin.
  destruct Hin as (z & Hz & Hzin).
  assert (Hzx : User.id z <> User.id x).
  { intros E. apply Hxid. rewrite <- E.
    apply list_elem_of_In, in_map. exact Hzin. }
  destruct (User.id x =? User.id row) eqn:Ex;
    destruct (User.id z =? User.id row) eqn:Ez.
  - apply Z.eqb_eq in Ex, Ez. congruence.
  - subst y. apply Z.eqb_neq in Ez.
    apply (Hother z (or_intror Hzin) Ez). exact Hy.
  - subst y. apply Z.eqb_neq in Ex.
    apply (Hother x (or_introl eq_refl) Ex). symmetry. exact Hy.
  - subst y. apply Hxf. rewrite <- Hy.
    apply list_elem_of_In, in_map. exact Hzin.
Qed.

Lemma users_unique_merge (row user : User.t) (db : Session) :
  users_unique (pending db) ->
  List.In user (users (pending db)) ->
  User.id row = User.id user ->
  (forall x, List.In x (users (pending db)) -> User.id x <> User.id user ->
             User.username x <> User.username row) ->
  (forall x, List.In x (users (pending db)) -> User.id x <> User.id user ->
             User.email x <> User.email row) ->
  users_unique (pending (db_merge_user row db)).
Proof.
  intros (Hid & Hlt & Hn & Hm) Hin Hrid Hname Hmail.
  unfold db_merge_user, with_pending. cbn [pending].
  assert (Hids : map User.id
                   (map (fun x => if User.id x =? User.id row then row else x)
                        (users (pending db)))
                 = map User.id (users (pending db))).
  { rewrite List.map_map. apply map_ext. intros x.
    destruct (User.id x =? User.id row) eqn:E; [|reflexivity].
    apply Z.eqb_eq in E. symmetry. exact E. }
  repeat apply conj; cbn [users users_id_seq].
  - rewrite Hids. exact Hid.
  - rewrite Forall_forall in Hlt. apply Forall_forall. intros x Hx.
    apply list_elem_of_In, in_map_iff in Hx. destruct Hx as (y & Hy & Hyin).
    destruct (User.id y =? User.id row) eqn:E; subst x.
    + rewrite Hrid. apply Hlt, list_elem_of_In. exact Hin.
    + apply Hlt, list_elem_of_In. exact Hyin.
  - apply column_replace; [exact Hid|exact Hn|].
    intros x Hx Hne. apply Hname; [exact Hx|congruence].
  - apply column_replace; [exact Hid|exact Hm|].
    intros x Hx Hne. apply Hmail; [exact Hx|congruence].
Qed.

(** ** Accounts and their tokens *)

Section AccountRoundTrips.
Context `{Libraries} `{Settings} `{Engine}.

Lemma session_token_eq (now : Z) (name : string) :
  session_token now name
  = jwt_encode (session_payload now name) SECRET_KEY ALGORITHM.
Proof.
  unfold session_token, session_payload, create_access_token, timedelta_truthy.
  destruct (timedelta_minutes ACCESS_TOKEN_EXPIRE_MINUTES =? 0) eqn:E;
    cbn [negb]; [|reflexivity].
  apply Z.eqb_eq in E. rewrite E. reflexivity.
Qed.

Lemma decode_session_token (issued now : Z) (name : string) :
  decode_access_token now (session_token issued name)
  = if (issued + timedelta_minutes ACCESS_TOKEN_EXPIRE_MINUTES <? now)
    then Ok None
    else if registered_claims_ok now (session_payload issued name)
         then Ok (Some (session_payload issued name)) else Ok None.
Proof.
  rewrite session_token_eq, decode_fresh. unfold session_payload.
  rewrite exp_ok_insert, sub_ok_insert_exp.
  unfold sub_ok. rewrite lookup_singleton_eq.
  destruct (_ <? now); reflexivity.
Qed.

Lemma resolve_session_token (issued now : Z) (name : string) (db : Session) :
  get_current_user_dependency now (session_token issued name) db
  = if (issued + timedelta_minutes ACCESS_TOKEN_EXPIRE_MINUTES <? now)
    then credentials_exception
    else if registered_claims_ok now (session_payload issued name)
         then match List.find (fun u => String.eqb (User.username u) name)
                              (users (pending db)) with
              | Some user => Ok user
              | None => credentials_exception
              end
         else credentials_exception.
Proof.
  rewrite get_current_user_dependency_eq, decode_session_token.
  destruct (_ <? now); [reflexivity|].
  destruct (registered_claims_ok _ _); [|reflexivity].
  unfold session_payload. rewrite lookup_insert_ne by discriminate.
  rewrite lookup_singleton_eq. reflexivity.
Qed.

Lemma register_user_ok (now : Z) (salt : string) (data : UserCreate.t)
    (db db' : Session) (resp : AuthResponse.t) :
  register_user now salt data db = (Ok resp, db') ->
  let new_user :=
    User.mk (users_id_seq (pending db)) (UserCreate.username data)
      (UserCreate.email data) (hash_password salt (UserCreate.password data))
      true now in
  (forall x, List.In x (users (pending db)) ->
             User.username x <> UserCreate.username data
             /\ User.email x <> UserCreate.email data)
  /\ commit_fails db = false
  /\ resp = AuthResponse.mk "Registration successful"
              (UserResponse.model_validate new_user)
              (session_token now (UserCreate.username data)) "bearer"
  /\ pending db' = committed db'
  /\ committed db'
     = mkDb (users (pending db) ++ [new_user]) (calculations (pending db))
            (users_id_seq (pending db) + 1) (calculations_id_seq (pending db)).
Proof.
  unfold register_user.
  destruct (List.find _ _) eqn:E1; [discriminate|].
  destruct (List.find (fun u => String.eqb (User.email u) _) _) eqn:E2;
    [discriminate|].
  unfold db_add_user, db_commit, db_refresh.
  cbn [commit_fails refresh_fails with_pending].
  destruct (commit_fails db) eqn:Ec; [discriminate|].
  cbn [commit_fails refresh_fails].
  destruct (refresh_fails db) eqn:Er; [discriminate|].
  intros [= <- <-]. cbn. split; [|repeat split].
  intros x Hx. split; apply String.eqb_neq.
  - apply (find_none _ _ E1 x Hx).
  - apply (find_none _ _ E2 x Hx).
Qed.

Lemma filter_nothing {A} (f : A -> bool) (l : list A) :
  (forall x, List.In x l -> f x = false) -> List.filter f l = [].
Proof.
  induction l as [|y l IH]; intros Hall; cbn; [reflexivity|].
  rewrite (Hall y (or_introl eq_refl)). apply IH.
  intros x Hx. apply Hall. right. exact Hx.
Qed.

Lemma first_row_only (row : User.t) : first_row [row] = Some row.
Proof.
  destruct (first_row [row]) as [x|] eqn:E.
  - apply first_row_matches in E. destruct E as [->|[]]. reflexivity.
  - apply first_row_found in E. discriminate.
Qed.

(** X9. After a successful registration, logging in with the registered
    user name and password succeeds and returns the same user
    projection, provided the password verifies against its own digest
    and no user stored before has the new user name as e-mail address
    (login matches the identifier against both columns). *)
Theorem registered_user_can_log_in (now now' : Z) (salt : string)
    (data : UserCreate.t) (db db' : Session) (resp : AuthResponse.t) :
  register_user now salt data db = (Ok resp, db') ->
  verify_password (UserCreate.password data)
    (hash_password salt (UserCreate.password data)) = true ->
  (forall x, List.In x (users (pending db)) ->
             User.email x <> UserCreate.username data) ->
  login_user now'
    (UserLogin.mk (UserCreate.username data) (UserCreate.password data)) db'
  = Ok (AuthResponse.mk "Login successful" (AuthResponse.user resp)
          (session_token now' (UserCreate.username data)) "bearer").
Proof.
  intros Hreg Hverify Hmail.
  destruct (register_user_ok _ _ _ _ _ _ Hreg)
    as (Hfree & _ & -> & Hp & Hdb).
  unfold login_user. rewrite Hp, Hdb. cbn [users UserLogin.username].
  rewrite List.filter_app, filter_nothing.
  - cbn [List.filter app]. unfold username_or_email at 1.
    cbn [User.username]. rewrite String.eqb_refl. cbn [orb].
    rewrite first_row_only. cbn. rewrite Hverify. reflexivity.
  - intros x Hx. apply orb_false_iff. split; apply String.eqb_neq.
    + apply (Hfree x Hx).
    + apply (Hmail x Hx).
Qed.

(** X10. The access token returned by a registration resolves, up to
    its expiry instant, to the row that was just stored (provided the
    library accepts the registered claims of the payload), and to 401
    after it. *)
Theorem registration_token_resolves (now now' : Z) (salt : string)
    (data : UserCreate.t) (db db' : Session) (resp : AuthResponse.t) :
  register_user now salt data db = (Ok resp, db') ->
  (now' <= now + timedelta_minutes ACCESS_TOKEN_EXPIRE_MINUTES ->
   registered_claims_ok now'
     (session_payload now (UserCreate.username data)) = true ->
   exists user,
     get_current_user_dependency now' (AuthResponse.access_token resp) db'
     = Ok user
     /\ UserResponse.model_validate user = AuthResponse.user resp
     /\ List.In user (users (committed db')))
  /\ (now + timedelta_minutes ACCESS_TOKEN_EXPIRE_MINUTES < now' ->
      get_current_user_dependency now' (AuthResponse.access_token resp) db'
      = credentials_exception).
Proof.
  intros Hreg.
  destruct (register_user_ok _ _ _ _ _ _ Hreg)
    as (Hfree & _ & -> & Hp & Hdb).
  cbn [AuthResponse.access_token AuthResponse.user].
  rewrite resolve_session_token. split.
  - intros Hle Hreg_ok.
    assert (E : (now + timedelta_minutes ACCESS_TOKEN_EXPIRE_MINUTES <? now')
                = false) by (apply Z.ltb_ge; lia).
    rewrite E, Hreg_ok, Hp, Hdb. cbn [users].
    rewrite find_app, (proj2 (find_none_iff _ _)).
    + cbn. rewrite String.eqb_refl. eexists. split; [reflexivity|].
      split; [reflexivity|]. apply in_or_app. right. left. reflexivity.
    + intros x Hx. apply String.eqb_neq. apply (Hfree x Hx).
  - intros Hlt. apply Z.ltb_lt in Hlt. rewrite Hlt. reflexivity.
Qed.

Lemma login_user_ok (now : Z) (login_data : UserLogin.t) (db : Session)
    (resp : AuthResponse.t) :
  login_user now login_data db = Ok resp ->
  exists user,
    List.In user (users (pending db))
    /\ User.is_active user = true
    /\ resp = AuthResponse.mk "Login successful"
                (UserResponse.model_validate user)
                (session_token now (User.username user)) "bearer".
Proof.
  unfold login_user. intros Hlogin.
  destruct (first_row _) as [user|] eqn:Hf; [|discriminate].
  destruct (negb (verify_password _ _)); [discriminate|].
  destruct (User.is_active user) eqn:Ha; [|discriminate].
  cbn [negb] in Hlogin. injection Hlogin as <-.
  apply login_row_some in Hf. destruct Hf as [Hin _].
  exists user. split; [exact Hin|]. split; [exact Ha|reflexivity].
Qed.

Lemma resolve_own_token (issued now : Z) (user : User.t) (db : Session) :
  NoDup (map User.username (users (pending db))) ->
  List.In user (users (pending db)) ->
  now <= issued + timedelta_minutes ACCESS_TOKEN_EXPIRE_MINUTES ->
  registered_claims_ok now (session_payload issued (User.username user)) = true ->
  get_current_user_dependency now (session_token issued (User.username user)) db
  = Ok user.
Proof.
  intros Hnd Hin Hle Hok. rewrite resolve_session_token.
  assert (E : (issued + timedelta_minutes ACCESS_TOKEN_EXPIRE_MINUTES <? now)
              = false) by (apply Z.ltb_ge; lia).
  rewrite E, Hok.
  destruct (List.find _ _) as [user'|] eqn:Hf.
  - apply find_some in Hf. destruct Hf as [Hin' Hn].
    apply String.eqb_eq in Hn.
    rewrite (column_same_row User.username _ user' user Hnd Hin' Hin Hn).
    reflexivity.
  - pose proof (find_none _ _ Hf user Hin) as Hno. cbn in Hno.
    rewrite String.eqb_refl in Hno. discriminate.
Qed.

(** X11. A successful login is one of an active stored user, and with
    unique user names the token it returns resolves to that very user up
    to its expiry instant (provided the library accepts the registered
    claims of the payload), and to 401 after it. *)
Theorem login_token_resolves (now now' : Z) (login_data : UserLogin.t)
    (db : Session) (resp : AuthResponse.t) :
  login_user now login_data db = Ok resp ->
  NoDup (map User.username (users (pending db))) ->
  exists user,
    List.In user (users (pending db))
    /\ User.is_active user = true
    /\ AuthResponse.user resp = UserResponse.model_validate user
    /\ AuthResponse.access_token resp = session_token now (User.username user)
    /\ (now' <= now + timedelta_minutes ACCESS_TOKEN_EXPIRE_MINUTES ->
        registered_claims_ok now'
          (session_payload now (User.username user)) = true ->
        get_current_user_dependency now' (AuthResponse.access_token resp) db
        = Ok user)
    /\ (now + timedelta_minutes ACCESS_TOKEN_EXPIRE_MINUTES < now' ->
        get_current_user_dependency now' (AuthResponse.access_token resp) db
        = credentials_exception).
Proof.
  intros Hlogin Hnd.
  destruct (login_user_ok _ _ _ _ Hlogin) as (user & Hin & Ha & ->).
  exists user. cbn [AuthResponse.user AuthResponse.access_token].
  split; [exact Hin|]. split; [exact Ha|]. split; [reflexivity|].
  split; [reflexivity|]. split.
  - intros Hle Hok. apply resolve_own_token; assumption.
  - intros Hlt. rewrite resolve_session_token.
    apply Z.ltb_lt in Hlt. rewrite Hlt. reflexivity.
Qed.

Lemma delete_user_done (uid : Z) (db db' : Session) (msg : Message) :
  delete_user uid db = (Ok msg, db') ->
  exists u,
    query_user_by_id uid db = Some u
    /\ msg = UserDeleted (User.username u)
    /\ pending db' = committed db'
    /\ users (committed db')
       = List.filter (fun x => negb (User.id x =? uid)) (users (pending db))
    /\ calculations (committed db') = calculations (pending db).
Proof.
  unfold delete_user.
  destruct (query_user_by_id uid db) as [u|] eqn:Hq; [|discriminate].
  pose proof Hq as Hfound. unfold query_user_by_id in Hfound.
  apply find_some in Hfound. destruct Hfound as [_ Hid]. apply Z.eqb_eq in Hid.
  unfold db_commit. cbn [commit_fails db_delete_user with_pending].
  destruct (commit_fails db); [discriminate|].
  intros [= <- <-]. exists u. rewrite Hid. repeat split.
Qed.

End AccountRoundTrips.

Section UserInvariant.
Context `{Libraries} `{Settings} `{Engine}.

Lemma loaded_other_column {B} (f : User.t -> B) (uid : Z) (db : Session)
    (user : User.t) :
  NoDup (map f (users (pending db))) ->
  List.In user (users (pending db)) ->
  forall x, List.In x (users (pending db)) -> User.id x <> User.id user ->
            f x <> f user.
Proof.
  intros Hnd Hin x Hx Hne E. apply Hne. f_equal.
  apply (column_same_row f _ x user Hnd Hx Hin E).
Qed.

Lemma update_username_loaded (uid : Z) (body : UserUpdate.t) (db0 db db' : Session)
    (user user' : User.t) :
  loaded uid db0 user db ->
  update_username uid body user db = Ok (user', db') ->
  loaded uid db0 user' db'.
Proof.
  intros (Hin & Hid & Hcm & Hcf & Hrf & Hu). unfold update_username.
  destruct (provided (UserUpdate.username body)) as [v|].
  - destruct (List.find _ _) eqn:Hf; [discriminate|].
    intros [= <- <-]. repeat apply conj.
    + apply merge_user_in with (u := user); [exact Hin|reflexivity].
    + exact Hid.
    + exact Hcm.
    + exact Hcf.
    + exact Hrf.
    + intros H0'. specialize (Hu H0').
      apply users_unique_merge with (user := user);
        [exact Hu|exact Hin|reflexivity| |].
      * intros x Hx Hne. cbn. apply String.eqb_neq.
        pose proof (find_none _ _ Hf x Hx) as Hno. cbn in Hno.
        apply andb_false_iff in Hno. destruct Hno as [Hno|Hno]; [exact Hno|].
        apply negb_false_iff, Z.eqb_eq in Hno. congruence.
      * destruct Hu as (_ & _ & _ & Hm). cbn.
        apply (loaded_other_column User.email uid db user Hm Hin).
  - intros [= <- <-]. repeat apply conj; assumption.
Qed.

Lemma update_email_loaded (uid : Z) (body : UserUpdate.t) (db0 db db' : Session)
    (user user' : User.t) :
  loaded uid db0 user db ->
  update_email uid body user db = Ok (user', db') ->
  loaded uid db0 user' db'.
Proof.
  intros (Hin & Hid & Hcm & Hcf & Hrf & Hu). unfold update_email.
  destruct (provided (UserUpdate.email body)) as [v|].
  - destruct (List.find _ _) eqn:Hf; [discriminate|].
    intros [= <- <-]. repeat apply conj.
    + apply merge_user_in with (u := user); [exact Hin|reflexivity].
    + exact Hid.
    + exact Hcm.
    + exact Hcf.
    + exact Hrf.
    + intros H0'. specialize (Hu H0').
      apply users_unique_merge with (user := user);
        [exact Hu|exact Hin|reflexivity| |].
      * destruct Hu as (_ & _ & Hn & _). cbn.
        apply (loaded_other_column User.username uid db user Hn Hin).
      * intros x Hx Hne. cbn. apply String.eqb_neq.
        pose proof (find_none _ _ Hf x Hx) as Hno. cbn in Hno.
        apply andb_false_iff in Hno. destruct Hno as [Hno|Hno]; [exact Hno|].
        apply negb_false_iff, Z.eqb_eq in Hno. congruence.
  - intros [= <- <-]. repeat apply conj; assumption.
Qed.

Lemma update_password_loaded (salt : string) (uid : Z) (body : UserUpdate.t)
    (db0 db db' : Session) (user user' : User.t) :
  loaded uid db0 user db ->
  update_password salt body user db = (user', db') ->
  loaded uid db0 user' db'.
Proof.
  intros (Hin & Hid & Hcm & Hcf & Hrf & Hu). unfold update_password.
  destruct (provided (UserUpdate.password body)) as [v|].
  - intros [= <- <-]. repeat apply conj.
    + apply merge_user_in with (u := user); [exact Hin|reflexivity].
    + exact Hid.
    + exact Hcm.
    + exact Hcf.
    + exact Hrf.
    + intros H0'. specialize (Hu H0').
      apply users_unique_merge with (user := user);
        [exact Hu|exact Hin|reflexivity| |].
      * destruct Hu as (_ & _ & Hn & _). cbn.
        apply (loaded_other_column User.username uid db user Hn Hin).
      * destruct Hu as (_ & _ & _ & Hm). cbn.
        apply (loaded_other_column User.email uid db user Hm Hin).
  - intros [= <- <-]. repeat apply conj; assumption.
Qed.

(** The steps of [update_user] do not look at the faults of the
    session. *)
Lemma update_username_without_faults (uid : Z) (body : UserUpdate.t)
    (user : User.t) (db : Session) :
  update_username uid body user (without_faults db)
  = match update_username uid body user db with
    | Ok (user', db') => Ok (user', without_faults db')
    | Raise e => Raise e
    end.
Proof.
  unfold update_username. destruct (provided _) as [v|]; [|reflexivity].
  cbn [pending without_faults]. destruct (List.find _ _); reflexivity.
Qed.

Lemma update_email_without_faults (uid : Z) (body : UserUpdate.t)
    (user : User.t) (db : Session) :
  update_email uid body user (without_faults db)
  = match update_email uid body user db with
    | Ok (user', db') => Ok (user', without_faults db')
    | Raise e => Raise e
    end.
Proof.
  unfold update_email. destruct (provided _) as [v|]; [|reflexivity].
  cbn [pending without_faults]. destruct (List.find _ _); reflexivity.
Qed.

Lemma update_password_without_faults (salt : string) (body : UserUpdate.t)
    (user : User.t) (db : Session) :
  update_password salt body user (without_faults db)
  = (fst (update_password salt body user db),
     without_faults (snd (update_password salt body user db))).
Proof.
  unfold update_password. destruct (provided _) as [v|]; reflexivity.
Qed.

(** The ways [update_user] ends: nothing committed and an exception, or
    the session's view committed with the updated row in it; in that
    case the row is returned unless its reload fails, and the same
    update on the session without faults returns it and commits the
    same database. *)
Lemma update_user_ends (salt : string) (uid : Z) (body : UserUpdate.t)
    (db : Session) :
  (committed (snd (update_user salt uid body db)) = committed db
   /\ failed (fst (update_user salt uid body db)) = true
   /\ (commit_fails db = false ->
       exists code detail,
         fst (update_user salt uid body db) = Raise (HTTPException code detail)))
  \/ (exists user,
        fst (update_user salt uid body db)
        = (if refresh_fails db then Raise SQLAlchemyError else Ok user)
        /\ fst (update_user salt uid body (without_faults db)) = Ok user
        /\ committed (snd (update_user salt uid body db))
           = committed (snd (update_user salt uid body (without_faults db)))
        /\ commit_fails db = false
        /\ User.id user = uid
        /\ List.In user (users (committed (snd (update_user salt uid body db))))
        /\ (users_unique (pending db) ->
            users_unique (committed (snd (update_user salt uid body db))))).
Proof.
  unfold update_user.
  change (query_user_by_id uid (without_faults db))
    with (query_user_by_id uid db).
  destruct (query_user_by_id uid db) as [user|] eqn:Hq.
  2:{ left. split; [reflexivity|]. split; [reflexivity|].
      intros _. do 2 eexists. reflexivity. }
  pose proof Hq as Hfound. unfold query_user_by_id in Hfound.
  apply find_some in Hfound. destruct Hfound as [Hin Hid]. apply Z.eqb_eq in Hid.
  assert (L0 : loaded uid db user db) by (repeat apply conj; auto).
  rewrite update_username_without_faults.
  assert (H400 : forall u0 db0 e,
             update_username uid body u0 db0 = Raise e ->
             exists code detail, e = HTTPException code detail).
  { intros u0 db0 e. unfold update_username.
    destruct (provided _); [|discriminate].
    destruct (List.find _ _); [|discriminate].
    intros [= <-]. do 2 eexists. reflexivity. }
  assert (H400' : forall u0 db0 e,
             update_email uid body u0 db0 = Raise e ->
             exists code detail, e = HTTPException code detail).
  { intros u0 db0 e. unfold update_email.
    destruct (provided _); [|discriminate].
    destruct (List.find _ _); [|discriminate].
    intros [= <-]. do 2 eexists. reflexivity. }
  destruct (update_username uid body user db) as [[u1 db1]|e] eqn:E1.
  2:{ left. split; [reflexivity|]. split; [reflexivity|].
      intros _. destruct (H400 _ _ _ E1) as (code & detail & ->).
      do 2 eexists. reflexivity. }
  pose proof (update_username_loaded _ _ _ _ _ _ _ L0 E1) as L1.
  rewrite update_email_without_faults.
  destruct (update_email uid body u1 db1) as [[u2 db2]|e] eqn:E2.
  2:{ left. destruct L1 as (_ & _ & Hcm & _). split; [exact Hcm|].
      split; [reflexivity|].
      intros _. destruct (H400' _ _ _ E2) as (code & detail & ->).
      do 2 eexists. reflexivity. }
  pose proof (update_email_loaded _ _ _ _ _ _ _ L1 E2) as L2.
  rewrite update_password_without_faults.
  destruct (update_password salt body u2 db2) as [u3 db3] eqn:E3.
  pose proof (update_password_loaded _ _ _ _ _ _ _ _ L2 E3) as L3.
  destruct L3 as (Hin3 & Hid3 & Hcm3 & Hcf3 & Hrf3 & Hu3).
  cbn [fst snd]. unfold db_commit, db_refresh.
  cbn [commit_fails refresh_fails pending without_faults].
  rewrite Hcf3. destruct (commit_fails db) eqn:Hc.
  - left. split; [exact Hcm3|]. split; [reflexivity|]. discriminate.
  - right. exists u3. cbn [commit_fails refresh_fails]. rewrite Hrf3.
    destruct (refresh_fails db); cbn [fst snd committed]; repeat apply conj;
      auto.
Qed.

Lemma update_user_raises (salt : string) (uid : Z) (body : UserUpdate.t)
    (db : Session) (e : Exn) :
  fst (update_user salt uid body db) = Raise e ->
  committed (snd (update_user salt uid body db)) = committed db
  \/ exists user,
       fst (update_user salt uid body (without_faults db)) = Ok user
       /\ committed (snd (update_user salt uid body db))
          = committed (snd (update_user salt uid body (without_faults db))).
Proof.
  intros E. destruct (update_user_ends salt uid body db)
    as [[Hcm _]|(user & _ & Hok & Hsame & _)]; [left; exact Hcm|].
  right. exists user. split; [exact Hok|exact Hsame].
Qed.

Lemma update_user_client_error (salt : string) (uid : Z) (body : UserUpdate.t)
    (db : Session) (code : Z) (detail : string) :
  fst (update_user salt uid body db) = Raise (HTTPException code detail) ->
  committed (snd (update_user salt uid body db)) = committed db.
Proof.
  intros E. destruct (update_user_ends salt uid body db)
    as [[Hcm _]|(user & Hout & _)]; [exact Hcm|].
  rewrite Hout in E. destruct (refresh_fails db); discriminate.
Qed.

Lemma update_user_commit_fault (salt : string) (uid : Z) (body : UserUpdate.t)
    (db : Session) :
  commit_fails db = true ->
  committed (snd (update_user salt uid body db)) = committed db.
Proof.
  intros Hc. destruct (update_user_ends salt uid body db)
    as [[Hcm _]|(user & _ & _ & _ & Hc' & _)]; [exact Hcm|congruence].
Qed.

(** What a registration leaves committed, whether it succeeds or fails:
    what was committed before, or the new row appended. *)
Lemma register_user_committed (now : Z) (salt : string) (data : UserCreate.t)
    (db : Session) :
  committed (snd (register_user now salt data db)) = committed db
  \/ ((forall x, List.In x (users (pending db)) ->
                 User.username x <> UserCreate.username data
                 /\ User.email x <> UserCreate.email data)
      /\ committed (snd (register_user now salt data db))
         = mkDb (users (pending db)
                 ++ [User.mk (users_id_seq (pending db))
                       (UserCreate.username data) (UserCreate.email data)
                       (hash_password salt (UserCreate.password data))
                       true now])
                (calculations (pending db))
                (users_id_seq (pending db) + 1)
                (calculations_id_seq (pending db))).
Proof.
  unfold register_user.
  destruct (List.find _ _) eqn:E1; [left; reflexivity|].
  destruct (List.find (fun u => String.eqb (User.email u) _) _) eqn:E2;
    [left; reflexivity|].
  unfold db_add_user, db_commit, db_refresh.
  cbn [commit_fails refresh_fails with_pending].
  destruct (commit_fails db); [left; reflexivity|].
  cbn [commit_fails refresh_fails]. right. split.
  - intros x Hx. split; apply String.eqb_neq.
    + apply (find_none _ _ E1 x Hx).
    + apply (find_none _ _ E2 x Hx).
  - destruct (refresh_fails db); reflexivity.
Qed.

Lemma register_user_client_error (now : Z) (salt : string)
    (data : UserCreate.t) (db : Session) (code : Z) (detail : string) :
  fst (register_user now salt data db) = Raise (HTTPException code detail) ->
  committed (snd (register_user now salt data db)) = committed db.
Proof.
  unfold register_user.
  destruct (List.find _ _); [reflexivity|].
  destruct (List.find _ _); [reflexivity|].
  unfold db_add_user, db_commit, db_refresh.
  cbn [commit_fails refresh_fails with_pending].
  destruct (commit_fails db); [reflexivity|].
  cbn [commit_fails refresh_fails].
  destruct (refresh_fails db); discriminate.
Qed.

Lemma register_user_commit_fault (now : Z) (salt : string)
    (data : UserCreate.t) (db : Session) :
  commit_fails db = true ->
  committed (snd (register_user now salt data db)) = committed db.
Proof.
  intros Hc. unfold register_user.
  destruct (List.find _ _); [reflexivity|].
  destruct (List.find _ _); [reflexivity|].
  unfold db_add_user, db_commit.
  cbn [commit_fails with_pending]. rewrite Hc. reflexivity.
Qed.

Lemma delete_user_raises (uid : Z) (db : Session) (e : Exn) :
  fst (delete_user uid db) = Raise e ->
  committed (snd (delete_user uid db)) = committed db.
Proof.
  unfold delete_user.
  destruct (query_user_by_id uid db); [|reflexivity].
  unfold db_commit. cbn [commit_fails db_delete_user with_pending].
  destruct (commit_fails db); [reflexivity|discriminate].
Qed.

Lemma delete_user_commit_fault (uid : Z) (db : Session) :
  commit_fails db = true ->
  committed (snd (delete_user uid db)) = committed db.
Proof.
  intros Hc. unfold delete_user.
  destruct (query_user_by_id uid db); [|reflexivity].
  unfold db_commit. cbn [commit_fails db_delete_user with_pending].
  rewrite Hc. reflexivity.
Qed.

(** X14. Registration, update and delete keep the keys of the user
    table: if identifiers, user names and e-mail addresses are unique
    (and the sequence is ahead of every identifier) in the database and
    in the session's view, they are in what the handler commits. *)
Theorem user_handlers_keep_unique (db : Session) :
  users_unique (committed db) ->
  users_unique (pending db) ->
  (forall now salt data,
      users_unique (committed (snd (register_user now salt data db))))
  /\ (forall salt uid body,
      users_unique (committed (snd (update_user salt uid body db))))
  /\ (forall uid, users_unique (committed (snd (delete_user uid db)))).
Proof.
  intros Hc Hp. repeat apply conj.
  - intros now salt data.
    destruct (register_user_committed now salt data db) as [-> |[Hfree ->]];
      [exact Hc|].
    destruct Hp as (Hid & Hlt & Hn & Hm).
    repeat apply conj; cbn [users users_id_seq].
    + apply column_append; [exact Hid|]. intros x Hx.
      rewrite Forall_forall in Hlt. apply list_elem_of_In, Hlt in Hx.
      cbn. lia.
    + apply Forall_app. split.
      * eapply Forall_impl; [exact Hlt|]. cbn. intros; lia.
      * apply Forall_singleton. cbn. lia.
    + apply column_append; [exact Hn|]. intros x Hx. apply (Hfree x Hx).
    + apply column_append; [exact Hm|]. intros x Hx. apply (Hfree x Hx).
  - intros salt uid body.
    destruct (update_user_ends salt uid body db)
      as [[-> _]|(user & _ & _ & _ & _ & _ & _ & Hu)]; [exact Hc|].
    apply Hu. exact Hp.
  - intros uid.
    destruct (delete_user uid db) as [[msg|e] db'] eqn:E.
    + destruct (delete_user_done _ _ _ _ E) as (u & _ & _ & _ & Hrows & _).
      destruct Hp as (Hid & Hlt & Hn & Hm).
      assert (Hseq : users_id_seq (committed db') = users_id_seq (pending db)).
      { unfold delete_user in E.
        destruct (query_user_by_id uid db); [|discriminate].
        unfold db_commit in E.
        cbn [commit_fails db_delete_user with_pending] in E.
        destruct (commit_fails db); [discriminate|].
        injection E as _ <-. reflexivity. }
      cbn [snd]. unfold users_unique. rewrite Hrows, Hseq.
      repeat apply conj; try apply column_filter; try assumption.
      rewrite Forall_forall in Hlt. apply Forall_forall. intros x Hx.
      apply list_elem_of_In, filter_In in Hx. destruct Hx as [Hx _].
      apply Hlt, list_elem_of_In. exact Hx.
    + pose proof (delete_user_raises uid db e) as Hr.
      rewrite E in Hr. cbn [fst snd] in *. rewrite (Hr eq_refl). exact Hc.
Qed.
End UserInvariant.

Section UserFailures.
Context `{Libraries} `{Settings} `{Schemas} `{Engine}.

(** X15. A user write that fails commits all of it or nothing. A
    registration or update answered with an HTTP error (a conflict, an
    unknown identifier) has committed nothing, also when the update had
    already assigned the user name in the session before the e-mail
    conflict was found; nothing is committed when the commit raises; and
    a failed delete has committed nothing. A registration or update that
    fails in any other way has committed nothing or the whole write:
    the new row, or what the same update commits when it goes through.
    Behind the routes the same holds of PUT and DELETE on a user. *)
Theorem failed_user_write_is_all_or_nothing (db : Session) (d : Db)
    (fault : Faults) :
  (forall code detail,
      (forall now salt data,
          fst (register_user now salt data db)
          = Raise (HTTPException code detail) ->
          committed (snd (register_user now salt data db)) = committed db)
      /\ (forall salt uid body,
          fst (update_user salt uid body db)
          = Raise (HTTPException code detail) ->
          committed (snd (update_user salt uid body db)) = committed db)
      /\ (forall authorization salt uid body,
          fst (PUT_user authorization salt uid body d fault)
          = Raise (HTTPException code detail) ->
          snd (PUT_user authorization salt uid body d fault) = d))
  /\ (commit_fails db = true ->
      (forall now salt data,
          committed (snd (register_user now salt data db)) = committed db)
      /\ (forall salt uid body,
          committed (snd (update_user salt uid body db)) = committed db)
      /\ (forall uid,
          committed (snd (delete_user uid db)) = committed db))
  /\ (commit_raises fault = true ->
      (forall authorization salt uid body,
          snd (PUT_user authorization salt uid body d fault) = d)
      /\ (forall authorization uid,
          snd (DELETE_user authorization uid d fault) = d))
  /\ (forall uid e,
      fst (delete_user uid db) = Raise e ->
      committed (snd (delete_user uid db)) = committed db)
  /\ (forall authorization uid e,
      fst (DELETE_user authorization uid d fault) = Raise e ->
      snd (DELETE_user authorization uid d fault) = d)
  /\ (forall now salt data e,
      fst (register_user now salt data db) = Raise e ->
      committed (snd (register_user now salt data db)) = committed db
      \/ committed (snd (register_user now salt data db))
         = mkDb (users (pending db)
                 ++ [User.mk (users_id_seq (pending db))
                       (UserCreate.username data) (UserCreate.email data)
                       (hash_password salt (UserCreate.password data))
                       true now])
                (calculations (pending db))
                (users_id_seq (pending db) + 1)
                (calculations_id_seq (pending db)))
  /\ (forall salt uid body e,
      fst (update_user salt uid body db) = Raise e ->
      committed (snd (update_user salt uid body db)) = committed db
      \/ exists user,
           fst (update_user salt uid body (without_faults db)) = Ok user
           /\ committed (snd (update_user salt uid body db))
              = committed (snd (update_user salt uid body (without_faults db))))
  /\ (forall authorization salt uid body e,
      fst (PUT_user authorization salt uid body d fault) = Raise e ->
      snd (PUT_user authorization salt uid body d fault) = d
      \/ exists user,
           fst (PUT_user authorization salt uid body d no_faults) = Ok user
           /\ snd (PUT_user authorization salt uid body d fault)
              = snd (PUT_user authorization salt uid body d no_faults)).
Proof.
  split; [|split; [|split; [|split; [|split; [|split; [|split]]]]]].
  - intros code detail. repeat apply conj.
    + intros now salt data. apply register_user_client_error.
    + intros salt uid body. apply update_user_client_error.
    + intros authorization salt uid body. unfold PUT_user, request, validated.
      destruct (UserUpdate_valid body); [|reflexivity].
      pose proof (update_user_client_error salt uid body (open_session d fault)
                    code detail) as Hr.
      destruct (update_user salt uid body (open_session d fault)) as [r db'].
      cbn [fst snd] in *. exact Hr.
  - intros Hc. repeat apply conj.
    + intros now salt data. apply register_user_commit_fault. exact Hc.
    + intros salt uid body. apply update_user_commit_fault. exact Hc.
    + intros uid. apply delete_user_commit_fault. exact Hc.
  - intros Hc. split.
    + intros authorization salt uid body. unfold PUT_user, request, validated.
      destruct (UserUpdate_valid body); [|reflexivity].
      pose proof (update_user_commit_fault salt uid body
                    (open_session d fault) Hc) as Hr.
      destruct (update_user salt uid body (open_session d fault)) as [r db'].
      exact Hr.
    + intros authorization uid. unfold DELETE_user, request.
      pose proof (delete_user_commit_fault uid (open_session d fault) Hc) as Hr.
      destruct (delete_user uid (open_session d fault)) as [r db'].
      exact Hr.
  - intros uid e. apply delete_user_raises.
  - intros authorization uid e. unfold DELETE_user, request.
    pose proof (delete_user_raises uid (open_session d fault) e) as Hr.
    destruct (delete_user uid (open_session d fault)) as [r db'].
    cbn [fst snd] in *. exact Hr.
  - intros now salt data e _.
    destruct (register_user_committed now salt data db) as [Hsame|[_ Hrow]];
      [left; exact Hsame|right; exact Hrow].
  - intros salt uid body e. apply update_user_raises.
  - intros authorization salt uid body e. unfold PUT_user, request, validated.
    destruct (UserUpdate_valid body); [|left; reflexivity].
    pose proof (update_user_raises salt uid body (open_session d fault) e) as Hr.
    change (without_faults (open_session d fault))
      with (open_session d no_faults) in Hr.
    destruct (update_user salt uid body (open_session d fault)) as [r db'].
    destruct (update_user salt uid body (open_session d no_faults)) as [r0 db0].
    cbn [fst snd] in *. intros E.
    destruct (Hr E) as [Hd|(user & Hok & Hd)]; [left; exact Hd|].
    right. exists user. split; [exact Hok|exact Hd].
Qed.
End UserFailures.

Lemma merge_user_keeps (row x : User.t) (db : Session) :
  List.In x (users (pending db)) -> User.id x <> User.id row ->
  List.In x (users (pending (db_merge_user row db))).
Proof.
  intros Hin Hne. unfold db_merge_user, with_pending. cbn.
  apply in_map_iff. exists x. split; [|exact Hin].
  apply Z.eqb_neq in Hne. rewrite Hne. reflexivity.
Qed.

Lemma find_other_row (f : User.t -> bool) (uid : Z) (l : list User.t) :
  (exists x, List.find (fun u => f u && negb (User.id u =? uid)) l = Some x)
  <-> exists x, List.In x l /\ f x = true /\ User.id x <> uid.
Proof.
  rewrite find_some_iff. split; intros (x & Hin & Hx); exists x.
  - apply andb_prop in Hx. destruct Hx as [Hf Hne].
    apply negb_true_iff, Z.eqb_neq in Hne. auto.
  - destruct Hx as [Hf Hne]. split; [exact Hin|].
    rewrite Hf. apply Z.eqb_neq in Hne. rewrite Hne. reflexivity.
Qed.

Section UpdateConflicts.
Context `{Libraries} `{Settings} `{Engine}.

Lemma update_username_outcome (uid : Z) (body : UserUpdate.t) (user : User.t)
    (db : Session) :
  User.id user = uid ->
  (username_taken uid body db
   /\ update_username uid body user db
      = Raise (HTTPException HTTP_400_BAD_REQUEST "Username already taken"))
  \/ (~ username_taken uid body db
      /\ exists user' db',
           update_username uid body user db = Ok (user', db')
           /\ User.id user' = uid
           /\ committed db' = committed db
           /\ commit_fails db' = commit_fails db
           /\ forall x, User.id x <> uid ->
                        (List.In x (users (pending db'))
                         <-> List.In x (users (pending db)))).
Proof.
  intros Hid. unfold update_username, username_taken.
  destruct (provided (UserUpdate.username body)) as [v|].
  - destruct (List.find _ _) as [x|] eqn:Hf.
    + left. split; [|reflexivity].
      destruct (proj1 (find_other_row
                         (fun u => String.eqb (User.username u) v) uid _)
                      (ex_intro _ x Hf)) as (y & Hy & Hn & Hne).
      apply String.eqb_eq in Hn. exists v, y. auto.
    + right. split.
      * intros (v' & y & [= <-] & Hy & Hn & Hne).
        pose proof (find_none _ _ Hf y Hy) as Hno. cbn in Hno.
        apply String.eqb_eq in Hn. rewrite Hn in Hno.
        apply Z.eqb_neq in Hne. rewrite Hne in Hno. discriminate.
      * do 2 eexists. split; [reflexivity|]. repeat split; try exact Hid.
        -- intros Hx. apply merge_user_rows in Hx.
           destruct Hx as [->|Hx]; [|exact Hx]. cbn in *. contradiction.
        -- intros Hx. apply merge_user_keeps; [exact Hx|]. cbn. congruence.
  - right. split.
    + intros (v' & y & [=] & _).
    + do 2 eexists. split; [reflexivity|]. repeat split; auto.
Qed.

Lemma update_email_outcome (uid : Z) (body : UserUpdate.t) (user : User.t)
    (db : Session) :
  User.id user = uid ->
  (email_taken uid body db
   /\ update_email uid body user db
      = Raise (HTTPException HTTP_400_BAD_REQUEST "Email already taken"))
  \/ (~ email_taken uid body db
      /\ exists user' db',
           update_email uid body user db = Ok (user', db')
           /\ User.id user' = uid
           /\ committed db' = committed db
           /\ commit_fails db' = commit_fails db).
Proof.
  intros Hid. unfold update_email, email_taken.
  destruct (provided (UserUpdate.email body)) as [v|].
  - destruct (List.find _ _) as [x|] eqn:Hf.
    + left. split; [|reflexivity].
      destruct (proj1 (find_other_row
                         (fun u => String.eqb (User.email u) v) uid _)
                      (ex_intro _ x Hf)) as (y & Hy & Hn & Hne).
      apply String.eqb_eq in Hn. exists v, y. auto.
    + right. split.
      * intros (v' & y & [= <-] & Hy & Hn & Hne).
        pose proof (find_none _ _ Hf y Hy) as Hno. cbn in Hno.
        apply String.eqb_eq in Hn. rewrite Hn in Hno.
        apply Z.eqb_neq in Hne. rewrite Hne in Hno. discriminate.
      * do 2 eexists. split; [reflexivity|]. repeat split; exact Hid.
  - right. split.
    + intros (v' & y & [=] & _).
    + do 2 eexists. split; [reflexivity|]. repeat split; auto.
Qed.

(** X16. For an existing user, an update answers 400 exactly when
    another row (one with a different identifier) holds the provided
    user name or the provided e-mail address; the user's own current
    values are no conflict. The user name is checked first and fails
    with the session untouched. *)
Theorem update_conflict_iff_taken_by_another (salt : string) (uid : Z)
    (body : UserUpdate.t) (db : Session) (u : User.t) :
  query_user_by_id uid db = Some u ->
  ((exists detail,
      fst (update_user salt uid body db)
      = Raise (HTTPException HTTP_400_BAD_REQUEST detail))
   <-> username_taken uid body db \/ email_taken uid body db)
  /\ (username_taken uid body db ->
      update_user salt uid body db
      = (Raise (HTTPException HTTP_400_BAD_REQUEST "Username already taken"), db))
  /\ (~ username_taken uid body db -> email_taken uid body db ->
      fst (update_user salt uid body db)
      = Raise (HTTPException HTTP_400_BAD_REQUEST "Email already taken")).
Proof.
  intros Hq. pose proof Hq as Hfound. unfold query_user_by_id in Hfound.
  apply find_some in Hfound. destruct Hfound as [Hin Hid]. apply Z.eqb_eq in Hid.
  unfold update_user. rewrite Hq.
  destruct (update_username_outcome uid body u db Hid)
    as [[Htaken ->]|(Hfree & u1 & db1 & -> & Hid1 & Hcm1 & Hcf1 & Hrows)].
  { repeat apply conj.
    - intros _. left. exact Htaken.
    - intros _. eexists. reflexivity.
    - reflexivity.
    - intros Hno. contradiction. }
  assert (Hsame : email_taken uid body db1 <-> email_taken uid body db).
  { unfold email_taken. split; intros (v & x & Hv & Hx & Hm & Hne);
      exists v, x; (split; [exact Hv|]); (split; [|auto]);
      apply (Hrows x Hne); exact Hx. }
  destruct (update_email_outcome uid body u1 db1 Hid1)
    as [[Htaken ->]|(Hfree2 & u2 & db2 & -> & Hid2 & Hcm2 & Hcf2)].
  { repeat apply conj.
    - intros _. right. apply Hsame. exact Htaken.
    - intros _. eexists. reflexivity.
    - intros Hno. contradiction.
    - reflexivity. }
  destruct (update_password salt body u2 db2) as [u3 db3].
  repeat apply conj.
  - intros [detail E]. unfold db_commit, db_refresh in E.
    destruct (commit_fails db3); cbn in E; [discriminate|].
    destruct (refresh_fails db3); discriminate.
  - intros [Ht|Ht]; [contradiction|]. apply Hsame in Ht. contradiction.
  - intros Ht. contradiction.
  - intros _ Ht. apply Hsame in Ht. contradiction.
Qed.

End UpdateConflicts.

Section AuthResolver.
Context `{Libraries} `{Settings} `{Engine}.

(** X17. The resolver of [app/auth.py] agrees with the dependency of
    [app/users.py] when it is given a session. Without a session it
    returns the subject of every token that validates, without looking
    the user up: in particular the name of any user the dependency would
    resolve. It fails only with 401. *)
Theorem get_current_user_with_and_without_session (now : Z)
    (credentials : Token) :
  (forall db,
      get_current_user now credentials (Some db)
      = match get_current_user_dependency now credentials db with
        | Ok user => Ok (UserRow user)
        | Raise e => Raise e
        end)
  /\ (forall v,
        get_current_user now credentials None = Ok (UsernameOnly v)
        <-> exists payload,
              decode_access_token now credentials = Ok (Some payload)
              /\ payload !! "sub" = Some v)
  /\ (forall db user,
        get_current_user_dependency now credentials db = Ok user ->
        get_current_user now credentials None
        = Ok (UsernameOnly (JStr (User.username user))))
  /\ (forall db e,
        get_current_user now credentials db = Raise e ->
        e = HTTPException HTTP_401_UNAUTHORIZED "Could not validate credentials").
Proof.
  unfold get_current_user.
  destruct (decode_access_token_returns now credentials) as [r Hr].
  rewrite Hr. unfold credentials_exception. repeat apply conj.
  - intros db. rewrite get_current_user_dependency_eq, Hr.
    unfold credentials_exception.
    destruct r as [payload|]; [|reflexivity].
    destruct (payload !! "sub") as [v|]; [|reflexivity].
    destruct (List.find _ _); reflexivity.
  - intros v. split.
    + destruct r as [payload|]; [|discriminate].
      destruct (payload !! "sub") as [w|] eqn:Hs; [|discriminate].
      intros [= <-]. exists payload. auto.
    + intros (payload & [= ->] & ->). reflexivity.
  - intros db user. rewrite get_current_user_dependency_eq, Hr.
    unfold credentials_exception. destruct r as [payload|]; [|discriminate].
    destruct (payload !! "sub") as [v|]; [|discriminate].
    destruct (List.find _ _) as [user'|] eqn:Hf; [|discriminate].
    intros [= <-]. apply find_some in Hf. destruct Hf as [_ Hn].
    destruct v as [s|n]; [|discriminate]. cbn in Hn.
    apply String.eqb_eq in Hn. rewrite Hn. reflexivity.
  - intros db e. destruct r as [payload|]; [|intros [= <-]; reflexivity].
    destruct (payload !! "sub") as [v|]; [|intros [= <-]; reflexivity].
    destruct db as [db|]; [|discriminate].
    destruct (List.find _ _); [discriminate|intros [= <-]; reflexivity].
Qed.

(** X12. With unique user names, a protected route called before expiry
    with the token of a login, under any spelling of the scheme "bearer",
    runs its handler for the user who logged in. *)
Theorem login_token_opens_protected_routes (now now' : Z)
    (login_data : UserLogin.t) (d : Db) (fault fault' : Faults)
    (resp : AuthResponse.t) :
  login_user now login_data (open_session d fault) = Ok resp ->
  NoDup (map User.username (users d)) ->
  now' <= now + timedelta_minutes ACCESS_TOKEN_EXPIRE_MINUTES ->
  registered_claims_ok now'
    (session_payload now (UserResponse.username (AuthResponse.user resp)))
  = true ->
  exists user,
    List.In user (users d)
    /\ AuthResponse.user resp = UserResponse.model_validate user
    /\ forall scheme (A : Type)
              (handler : User.t -> Session -> Result A * Session),
         lower scheme = "bearer" ->
         request d fault'
           (protected now' (Some (scheme, AuthResponse.access_token resp)) handler)
         = request d fault' (handler user).
Proof.
  intros Hlogin Hnd Hle Hok.
  destruct (login_user_ok _ _ _ _ Hlogin) as (user & Hin & _ & ->).
  cbn [AuthResponse.user AuthResponse.access_token UserResponse.username
       UserResponse.model_validate] in *.
  exists user. split; [exact Hin|]. split; [reflexivity|].
  intros scheme A handler Hscheme.
  apply request_protected_ok. unfold current_user_of, security.
  assert (Hne : String.eqb scheme "" = false).
  { destruct scheme; [discriminate|reflexivity]. }
  assert (Hfull : empty_credentials (session_token now (User.username user))
                  = false).
  { rewrite session_token_eq. reflexivity. }
  rewrite Hne, Hfull, Hscheme. cbn [orb String.eqb negb].
  apply resolve_own_token; assumption.
Qed.
End AuthResolver.

(** ** Scenarios *)

#[local] Existing Instance test_libraries.
#[local] Existing Instance default_settings.
#[local] Existing Instance test_schemas.
#[local] Existing Instance insertion_order.


(** C2, as stated, fails at three inputs. With a zero ttl the token is
    issued with the default thirty minutes, so one second after the ttl
    has elapsed it still validates. What validation returns is the
    payload of the token, in which the expiry entry is the issuer's: an
    "exp" among the claims handed in is overwritten. And claims whose
    subject is a number are refused by the library's check of registered
    claims while the ttl is still running. *)
Lemma zero_ttl_token_outlives_its_ttl :
  (decode_access_token 1001 (create_access_token 1000 alice_claims (Some 0))
   = Ok (Some (<["exp" := JInt 2800]> alice_claims))
   /\ (1000 + 0 <? 1001) = true)
  /\ (decode_access_token 1010
        (create_access_token 1000 (<["exp" := JInt 5]> alice_claims) (Some 60))
      = Ok (Some (<["exp" := JInt 1060]> alice_claims))
      /\ (<["exp" := JInt 5]> alice_claims : Claims) !! "exp" = Some (JInt 5))
  /\ (decode_access_token 1010
        (create_access_token 1000 {[ "sub" := JInt 7 ]} (Some 60))
      = Ok None
      /\ (1010 <? 1000 + 60) = true).
Proof.
  repeat split; vm_compute; reflexivity.
Qed.

Lemma fresh_token_validates_until_expiry_witness :
  Some 60 <> Some 0
  /\ decode_access_token 1010 (create_access_token 1000 alice_claims (Some 60))
     = Ok (Some (<["exp" := JInt 1060]> alice_claims))
  /\ decode_access_token 1061 (create_access_token 1000 alice_claims (Some 60))
     = Ok None.
Proof.
  assert (Hd : Some 60 <> Some 0) by discriminate.
  split; [exact Hd|].
  destruct (fresh_token_validates_until_expiry alice_claims (Some 60) 1000 1010 Hd)
    as (_ & _ & Hvalid & _).
  destruct (fresh_token_validates_until_expiry alice_claims (Some 60) 1000 1061 Hd)
    as (_ & _ & _ & Hexpired & _).
  split.
  - apply Hvalid; [cbn; lia|reflexivity|reflexivity].
  - apply Hexpired. cbn. lia.
Defined.

(** C4, as stated, fails for an absent token: the request is refused
    with 403, not 401. *)
Lemma absent_token_is_forbidden :
  status_of (current_user_of 0 None (open_session two_users_db no_faults))
  = Some HTTP_403_FORBIDDEN
  /\ status_of (fst (GET_calculations 0 None 0 100 two_users_db no_faults))
     = Some HTTP_403_FORBIDDEN
  /\ (HTTP_403_FORBIDDEN =? HTTP_401_UNAUTHORIZED) = false.
Proof.
  repeat split.
Qed.

Lemma divide_fails_iff_zero_divisor_witness :
  PrimFloat.eqb 0 0 = true
  /\ add_calculation 7 (CalculationCreate.mk 10 0 "divide") alice
       (open_session two_users_db no_faults)
     = (Raise (HTTPException HTTP_400_BAD_REQUEST "Division by zero is not allowed"),
        open_session two_users_db no_faults)
  /\ PrimFloat.eqb 3 0 = false
  /\ exists row db',
       add_calculation 7 (CalculationCreate.mk 15 3 "divide") alice
         (open_session two_users_db no_faults) = (Ok row, db')
       /\ Calculation.result row = 5%float.
Proof.
  destruct (divide_fails_iff_zero_divisor 10 0) as (_ & _ & Hzero & _).
  destruct (divide_fails_iff_zero_divisor 15 3) as (_ & _ & _ & _ & Hdiv).
  split; [reflexivity|]. split; [apply Hzero; reflexivity|].
  split; [reflexivity|].
  destruct (Hdiv 7 alice (open_session two_users_db no_faults)
              eq_refl eq_refl eq_refl)
    as (row & db' & E & Hr & _).
  exists row, db'. split; [exact E|]. rewrite Hr. reflexivity.
Defined.

Lemma foreign_calculation_is_not_found_witness :
  NoDup (map Calculation.id
           (calculations (pending (open_session one_calculation_db no_faults))))
  /\ List.In first_calculation
       (calculations (pending (open_session one_calculation_db no_faults)))
  /\ Calculation.user_id first_calculation <> User.id bob
  /\ read_calculation 1 bob (open_session one_calculation_db no_faults)
     = calculation_not_found
  /\ read_calculation 1 alice (open_session one_calculation_db no_faults)
     = Ok first_calculation.
Proof.
  assert (H1 : NoDup (map Calculation.id
                        (calculations
                           (pending (open_session one_calculation_db no_faults))))).
  { cbn. apply NoDup_singleton. }
  assert (H2 : List.In first_calculation
                 (calculations (pending (open_session one_calculation_db no_faults)))).
  { left. reflexivity. }
  assert (H3 : Calculation.user_id first_calculation <> User.id bob).
  { cbn. lia. }
  split; [exact H1|]. split; [exact H2|]. split; [exact H3|].
  split; [|reflexivity].
  exact (proj1 (foreign_calculation_is_not_found
                  (open_session one_calculation_db no_faults)
                  first_calculation bob H1 H2 H3)).
Defined.

Lemma edit_applies_supplied_fields_witness :
  query_calculation 1 (User.id alice) (open_session one_calculation_db no_faults)
  = Some first_calculation
  /\ exists db',
       edit_calculation 1 (CalculationUpdate.mk None (Some 8%float) None) alice
         (open_session one_calculation_db no_faults)
       = (Ok (Calculation.mk 1 1 10 8 "add" 18 0), db').
Proof.
  assert (Hq : query_calculation 1 (User.id alice)
                 (open_session one_calculation_db no_faults)
               = Some first_calculation) by reflexivity.
  split; [exact Hq|].
  destruct (edit_applies_supplied_fields 1
              (CalculationUpdate.mk None (Some 8%float) None) alice
              (open_session one_calculation_db no_faults) first_calculation Hq)
    as (_ & _ & Hupd & _).
  destruct (Hupd ltac:(discriminate) 18%float eq_refl eq_refl eq_refl)
    as (db' & E & _).
  exists db'. exact E.
Defined.

(** C6, as stated, fails when the error comes after the commit. The
    reload of the row raises: the update, and likewise the create, is
    answered 500 "Internal server error", and the stored record has
    changed. *)
Lemma failed_reload_leaves_the_write_committed :
  edit_calculation 1 (CalculationUpdate.mk None (Some 8%float) None) alice
    (open_session one_calculation_db (mkFaults false true))
  = (Raise (HTTPException HTTP_500_INTERNAL_SERVER_ERROR
              "Internal server error while updating calculation"),
     mkSession
       (mkDb [alice; bob] [Calculation.mk 1 1 10 8 "add" 18 0] 3 2)
       (mkDb [alice; bob] [Calculation.mk 1 1 10 8 "add" 18 0] 3 2)
       false true)
  /\ PUT_calculation 1010
       (Some ("Bearer", create_access_token 1000 alice_claims (Some 60)))
       1 (CalculationUpdate.mk None (Some 8%float) None)
       one_calculation_db (mkFaults false true)
     = (Raise (HTTPException HTTP_500_INTERNAL_SERVER_ERROR
                 "Internal server error while updating calculation"),
        mkDb [alice; bob] [Calculation.mk 1 1 10 8 "add" 18 0] 3 2)
  /\ POST_calculations 1010
       (Some ("Bearer", create_access_token 1000 alice_claims (Some 60)))
       (CalculationCreate.mk 2 3 "multiply")
       two_users_db (mkFaults false true)
     = (Raise (HTTPException HTTP_500_INTERNAL_SERVER_ERROR
                 "Internal server error while creating calculation"),
        mkDb [alice; bob] [Calculation.mk 1 1 2 3 "multiply" 6 1010] 3 2)
  /\ calculations one_calculation_db = [Calculation.mk 1 1 10 5 "add" 15 0]
  /\ PrimFloat.eqb 8 5 = false
  /\ calculations two_users_db = [].
Proof.
  repeat split.
Qed.

Lemma failed_write_is_rolled_back_witness :
  query_calculation 1 (User.id alice) (open_session one_calculation_db no_faults)
  = Some first_calculation
  /\ (exists code detail,
        edit_calculation 1
          (CalculationUpdate.mk None (Some 0%float) (Some "divide")) alice
          (open_session one_calculation_db no_faults)
        = (Raise (HTTPException code detail),
           db_rollback (open_session one_calculation_db no_faults)))
  /\ snd (PUT_calculation 1010
            (Some ("Bearer", create_access_token 1000 alice_claims (Some 60)))
            1 (CalculationUpdate.mk None (Some 0%float) (Some "divide"))
            one_calculation_db no_faults)
     = one_calculation_db
  /\ snd (POST_calculations 1010
            (Some ("Bearer", create_access_token 1000 alice_claims (Some 60)))
            (CalculationCreate.mk 2 3 "multiply")
            two_users_db (mkFaults true false))
     = two_users_db
  /\ (exists row,
        fst (PUT_calculation 1010
               (Some ("Bearer", create_access_token 1000 alice_claims (Some 60)))
               1 (CalculationUpdate.mk None (Some 8%float) None)
               one_calculation_db no_faults) = Ok row
        /\ snd (PUT_calculation 1010
                  (Some ("Bearer", create_access_token 1000 alice_claims (Some 60)))
                  1 (CalculationUpdate.mk None (Some 8%float) None)
                  one_calculation_db (mkFaults false true))
           = snd (PUT_calculation 1010
                    (Some ("Bearer", create_access_token 1000 alice_claims (Some 60)))
                    1 (CalculationUpdate.mk None (Some 8%float) None)
                    one_calculation_db no_faults)).
Proof.
  assert (Hq : query_calculation 1 (User.id alice)
                 (open_session one_calculation_db no_faults)
               = Some first_calculation) by reflexivity.
  destruct (failed_write_is_rolled_back 1010
              (Some ("Bearer", create_access_token 1000 alice_claims (Some 60)))
              one_calculation_db no_faults)
    as (Hrecompute & _ & _ & _ & _ & _ & _ & _ & _ & Hclient).
  destruct (failed_write_is_rolled_back 1010
              (Some ("Bearer", create_access_token 1000 alice_claims (Some 60)))
              two_users_db (mkFaults true false))
    as (_ & _ & _ & _ & _ & _ & _ & _ & Hcommit & _).
  destruct (failed_write_is_rolled_back 1010
              (Some ("Bearer", create_access_token 1000 alice_claims (Some 60)))
              one_calculation_db (mkFaults false true))
    as (_ & _ & _ & _ & _ & Hput & _).
  split; [exact Hq|]. split; [|split; [|split]].
  - apply (Hrecompute 1 _ alice _ first_calculation DivisionByZeroError Hq).
    + discriminate.
    + reflexivity.
  - destruct (Hclient 400 "Division by zero is not allowed" ltac:(lia))
      as (Hput400 & _).
    apply Hput400. vm_compute. reflexivity.
  - apply (Hcommit eq_refl).
  - destruct (Hput 1 (CalculationUpdate.mk None (Some 8%float) None)
                (HTTPException HTTP_500_INTERNAL_SERVER_ERROR
                   "Internal server error while updating calculation"))
      as [Hsame|Hlate].
    + vm_compute. reflexivity.
    + exfalso. vm_compute in Hsame. inversion Hsame.
    + exact Hlate.
Defined.

Lemma resolver_rejects_unresolvable_tokens_witness :
  User.is_active bob = false
  /\ (exists user,
        get_current_user_dependency 1010
          (create_access_token 1000 {[ "sub" := JStr "bob" ]} (Some 60))
          (open_session two_users_db no_faults) = Ok user
        /\ User.username user = "bob")
  /\ get_current_user_dependency 1061
       (create_access_token 1000 {[ "sub" := JStr "bob" ]} (Some 60))
       (open_session two_users_db no_faults) = credentials_exception
  /\ get_current_user_dependency 1010
       (Jws "HS256" (<["exp" := JInt 1060]> {[ "sub" := JStr "bob" ]}) "forged")
       (open_session two_users_db no_faults) = credentials_exception
  /\ get_current_user_dependency 1010
       (create_access_token 1000 {[ "sub" := JStr "carol" ]} (Some 60))
       (open_session two_users_db no_faults) = credentials_exception.
Proof.
  split; [reflexivity|]. split; [|split; [|split]].
  - destruct (resolver_rejects_unresolvable_tokens 1010
                (create_access_token 1000 {[ "sub" := JStr "bob" ]} (Some 60))
                (open_session two_users_db no_faults))
      as (_ & _ & Hok & _).
    destruct (Hok ALGORITHM (<["exp" := JInt 1060]> {[ "sub" := JStr "bob" ]})
                (hmac_sha256 SECRET_KEY
                   (<["exp" := JInt 1060]> {[ "sub" := JStr "bob" ]}))
                "bob")
      as (user & E & Hname & _).
    + reflexivity.
    + reflexivity.
    + reflexivity.
    + reflexivity.
    + reflexivity.
    + reflexivity.
    + exists bob. split; [right; left; reflexivity|reflexivity].
    + exists user. split; assumption.
  - destruct (resolver_rejects_unresolvable_tokens 1061
                (create_access_token 1000 {[ "sub" := JStr "bob" ]} (Some 60))
                (open_session two_users_db no_faults))
      as ([_ Hfail] & _).
    apply Hfail. right.
    exists ALGORITHM, (<["exp" := JInt 1060]> {[ "sub" := JStr "bob" ]}),
      (hmac_sha256 SECRET_KEY (<["exp" := JInt 1060]> {[ "sub" := JStr "bob" ]})).
    split; [reflexivity|]. right. right. left.
    exists 1060. split; [reflexivity|lia].
  - destruct (resolver_rejects_unresolvable_tokens 1010
                (Jws "HS256" (<["exp" := JInt 1060]> {[ "sub" := JStr "bob" ]})
                   "forged")
                (open_session two_users_db no_faults))
      as ([_ Hfail] & _).
    apply Hfail. right.
    exists "HS256", (<["exp" := JInt 1060]> {[ "sub" := JStr "bob" ]}), "forged".
    split; [reflexivity|]. right. left. vm_compute. discriminate.
  - destruct (resolver_rejects_unresolvable_tokens 1010
                (create_access_token 1000 {[ "sub" := JStr "carol" ]} (Some 60))
                (open_session two_users_db no_faults))
      as ([_ Hfail] & _).
    apply Hfail. right.
    exists ALGORITHM, (<["exp" := JInt 1060]> {[ "sub" := JStr "carol" ]}),
      (hmac_sha256 SECRET_KEY
         (<["exp" := JInt 1060]> {[ "sub" := JStr "carol" ]})).
    split; [reflexivity|]. do 6 right.
    exists (JStr "carol"). split; [reflexivity|].
    intros u [<-|[<-|[]]]; reflexivity.
Defined.

Lemma registration_conflict_iff_taken_witness :
  (exists new_user access_token db',
     register_user 0 "salt" (UserCreate.mk "alice" "alice@x.com" "password123")
       (open_session empty_db no_faults)
     = (Ok (AuthResponse.mk "Registration successful"
              (UserResponse.model_validate new_user) access_token "bearer"),
        db')
     /\ users (committed db') = [new_user]
     /\ User.password_hash new_user = "$2b$12$salt$password123")
  /\ (exists u,
        List.In u (users (pending (open_session two_users_db no_faults)))
        /\ User.username u = "alice")
  /\ (exists detail,
        fst (register_user 5 "salt"
               (UserCreate.mk "alice" "alice2@x.com" "password123")
               (open_session two_users_db no_faults))
        = Raise (HTTPException HTTP_400_BAD_REQUEST detail)).
Proof.
  split; [|split].
  - destruct (registration_conflict_iff_taken 0 "salt"
                (UserCreate.mk "alice" "alice@x.com" "password123")
                (open_session empty_db no_faults)) as (_ & _ & Hfresh).
    destruct Hfresh as (new_user & access_token & db' & E & Hrows & _ & _ & Hh & _).
    + intros u [].
    + reflexivity.
    + reflexivity.
    + exists new_user, access_token, db'. split; [exact E|].
      split; [exact Hrows|]. rewrite Hh. reflexivity.
  - exists alice. split; [left; reflexivity|reflexivity].
  - destruct (registration_conflict_iff_taken 5 "salt"
                (UserCreate.mk "alice" "alice2@x.com" "password123")
                (open_session two_users_db no_faults)) as ([_ Htaken] & _).
    apply Htaken. exists alice. split; [left; reflexivity|left; reflexivity].
Defined.

Lemma login_outcomes_witness :
  login_user 10 (UserLogin.mk "alice@x.com" "password123")
    (open_session two_users_db no_faults)
  = Ok (AuthResponse.mk "Login successful" (UserResponse.model_validate alice)
          (create_access_token 10 alice_claims (Some 1800)) "bearer")
  /\ login_user 10 (UserLogin.mk "bob" "hunter2hunter2")
       (open_session two_users_db no_faults)
     = Raise (HTTPException HTTP_403_FORBIDDEN "User account is inactive")
  /\ login_user 10 (UserLogin.mk "bob" "wrong-password")
       (open_session two_users_db no_faults)
     = Raise (HTTPException HTTP_401_UNAUTHORIZED "Invalid username or password").
Proof.
  split; [|split].
  - destruct (login_outcomes 10 (UserLogin.mk "alice@x.com" "password123")
                (open_session two_users_db no_faults))
      as (_ & _ & Honly & _ & _ & _ & Hok).
    apply (Hok alice); [|reflexivity|reflexivity].
    apply Honly; [left; reflexivity|right; reflexivity|].
    intros u' [<-|[<-|[]]] [Hm|Hm]; try reflexivity; discriminate.
  - destruct (login_outcomes 10 (UserLogin.mk "bob" "hunter2hunter2")
                (open_session two_users_db no_faults))
      as (_ & _ & _ & _ & _ & Hinactive & _).
    apply (Hinactive bob); reflexivity.
  - destruct (login_outcomes 10 (UserLogin.mk "bob" "wrong-password")
                (open_session two_users_db no_faults))
      as (_ & _ & _ & _ & Hbad & _).
    apply (Hbad bob); reflexivity.
Defined.

Lemma user_routes_need_no_token_witness :
  List.find (fun x => User.id x =? 2) (users two_users_db) = Some bob
  /\ GET_user None 2 two_users_db no_faults = (Ok bob, two_users_db)
  /\ (exists d',
        DELETE_user None 2 two_users_db no_faults = (Ok (UserDeleted "bob"), d')
        /\ forall x, List.In x (users d') <->
                     List.In x (users two_users_db) /\ User.id x <> 2)
  /\ (exists d',
        PUT_user None "salt" 2
          (UserUpdate.mk (Some "robert") None (Some "")) two_users_db no_faults
        = (Ok (User.set_username "robert" bob), d')).
Proof.
  assert (Hq : List.find (fun x => User.id x =? 2) (users two_users_db)
               = Some bob) by reflexivity.
  destruct (user_routes_need_no_token None two_users_db no_faults)
    as (_ & _ & _ & _ & Hby_id & _).
  destruct (Hby_id 2 bob Hq) as (Hget & Hdel & Hput).
  split; [exact Hq|]. split; [exact Hget|]. split; [exact (Hdel eq_refl)|].
  destruct (Hput "salt" (UserUpdate.mk (Some "robert") None (Some "")))
    as (d' & E & _).
  - reflexivity.
  - cbn. intros v x [= <-] [<-|[<-|[]]]; cbn; [discriminate|reflexivity].
  - cbn. intros v x [=].
  - reflexivity.
  - exists d'. exact E.
Defined.

(** ** Scenarios for the further properties *)

Ltac distinct :=
  repeat (apply NoDup_cons_2;
          [rewrite ?not_elem_of_cons; repeat apply conj;
           (discriminate || apply not_elem_of_nil)|]);
  apply NoDup_nil_2.

Lemma three_calculations_pk :
  calculations_pk (pending (open_session three_calculations_db no_faults)).
Proof.
  split; cbn.
  - distinct.
  - repeat constructor.
Qed.

Lemma two_users_unique : users_unique two_users_db.
Proof.
  repeat apply conj; cbn.
  - distinct.
  - repeat constructor.
  - distinct.
  - distinct.
Qed.

Lemma browse_newest_first_and_capped_witness :
  0 <= 1
  /\ browse_calculations 0 1 alice (open_session three_calculations_db no_faults)
     = [second_calculation]
  /\ (length (browse_calculations 0 1 alice
                (open_session three_calculations_db no_faults)) <= 1)%nat.
Proof.
  destruct (browse_newest_first_and_capped 0 1 alice
              (open_session three_calculations_db no_faults)) as (_ & _ & Hcap).
  split; [lia|]. split; [reflexivity|]. apply (Hcap ltac:(lia)).
Defined.

Lemma browse_lists_every_own_row_witness :
  (length (calculations_of alice (open_session three_calculations_db no_faults))
   <= 1000)%nat
  /\ Z.of_nat (length (calculations_of alice
                         (open_session three_calculations_db no_faults))) <= 100
  /\ Permutation
       (browse_calculations 0 100 alice (open_session three_calculations_db no_faults))
       [first_calculation; second_calculation].
Proof.
  assert (H1 : (length (calculations_of alice
                          (open_session three_calculations_db no_faults))
                <= 1000)%nat) by (cbn; lia).
  assert (H2 : Z.of_nat (length (calculations_of alice
                                   (open_session three_calculations_db no_faults)))
               <= 100) by (cbn; lia).
  split; [exact H1|]. split; [exact H2|].
  exact (proj1 (browse_lists_every_own_row 100 alice
                  (open_session three_calculations_db no_faults) H1 H2)).
Defined.

Lemma browse_pages_concatenate_witness :
  NoDup (map Calculation.created_at
           (calculations_of alice (open_session three_calculations_db no_faults)))
  /\ 0 <= 0 /\ 0 <= 1 /\ 1 + 1 <= 1000
  /\ (browse_calculations 0 1 alice (open_session three_calculations_db no_faults)
   ++ browse_calculations (0 + 1) 1 alice
        (open_session three_calculations_db no_faults))%list
  = browse_calculations 0 (1 + 1) alice
      (open_session three_calculations_db no_faults).
Proof.
  assert (Hts : NoDup (map Calculation.created_at
                         (calculations_of alice
                            (open_session three_calculations_db no_faults))))
    by (cbn; distinct).
  split; [exact Hts|].
  repeat (split; [lia|]).
  apply browse_pages_concatenate; [exact Hts|lia|lia|lia|lia].
Defined.

Lemma created_calculation_is_readable_witness :
  calculations_pk (pending (open_session three_calculations_db no_faults))
  /\ read_calculation 4 bob
       (snd (add_calculation 30 (CalculationCreate.mk 2 3 "multiply") bob
               (open_session three_calculations_db no_faults)))
     = Ok (Calculation.mk 4 2 2 3 "multiply" 6 30).
Proof.
  split; [exact three_calculations_pk|].
  exact (proj1 (created_calculation_is_readable 30
                  (CalculationCreate.mk 2 3 "multiply") bob
                  (open_session three_calculations_db no_faults)
                  (snd (add_calculation 30 (CalculationCreate.mk 2 3 "multiply")
                          bob (open_session three_calculations_db no_faults)))
                  (Calculation.mk 4 2 2 3 "multiply" 6 30)
                  three_calculations_pk eq_refl)).
Defined.

Lemma deleted_calculation_is_gone_witness :
  delete_calculation 2 alice (open_session three_calculations_db no_faults)
  = (Ok (CalculationDeleted 2),
     snd (delete_calculation 2 alice (open_session three_calculations_db no_faults)))
  /\ read_calculation 2 alice
       (snd (delete_calculation 2 alice
               (open_session three_calculations_db no_faults)))
     = calculation_not_found
  /\ read_calculation 1 alice
       (snd (delete_calculation 2 alice
               (open_session three_calculations_db no_faults)))
     = Ok first_calculation.
Proof.
  assert (E : delete_calculation 2 alice
                (open_session three_calculations_db no_faults)
              = (Ok (CalculationDeleted 2),
                 snd (delete_calculation 2 alice
                        (open_session three_calculations_db no_faults))))
    by reflexivity.
  destruct (deleted_calculation_is_gone 2 alice _ _ _ E) as (Hgone & _ & Hkept).
  split; [exact E|]. split; [apply Hgone|].
  rewrite (Hkept 1 alice ltac:(lia)). reflexivity.
Defined.

Lemma writes_leave_foreign_rows_alone_witness :
  committed (open_session three_calculations_db no_faults)
  = pending (open_session three_calculations_db no_faults)
  /\ NoDup (map Calculation.id
              (calculations (pending (open_session three_calculations_db no_faults))))
  /\ Calculation.user_id first_calculation <> User.id bob
  /\ (List.In first_calculation
         (calculations
            (committed
               (snd (delete_calculation 1 bob
                       (open_session three_calculations_db no_faults)))))
       <-> List.In first_calculation
             (calculations (committed (open_session three_calculations_db no_faults)))).
Proof.
  assert (H1 : committed (open_session three_calculations_db no_faults)
               = pending (open_session three_calculations_db no_faults))
    by reflexivity.
  assert (H3 : Calculation.user_id first_calculation <> User.id bob)
    by (cbn; lia).
  split; [exact H1|]. split; [exact (proj1 three_calculations_pk)|].
  split; [exact H3|].
  destruct (writes_leave_foreign_rows_alone bob
              (open_session three_calculations_db no_faults) first_calculation
              H1 (proj1 three_calculations_pk) H3) as (_ & _ & Hdelete).
  apply Hdelete.
Defined.

Lemma stored_results_are_computed_witness :
  Forall result_is_computed
    (calculations (committed (open_session one_calculation_db no_faults)))
  /\ Forall result_is_computed
       (calculations
          (committed
             (snd (edit_calculation 1
                     (CalculationUpdate.mk None (Some 8%float) None) alice
                     (open_session one_calculation_db no_faults))))).
Proof.
  assert (H1 : Forall result_is_computed
                 (calculations (committed (open_session one_calculation_db no_faults)))).
  { apply Forall_singleton. reflexivity. }
  split; [exact H1|].
  destruct (stored_results_are_computed (open_session one_calculation_db no_faults)
              H1 H1) as (_ & Hedit & _).
  apply Hedit.
Defined.

Lemma edit_calculation_idempotent_witness :
  fst (edit_calculation 1 (CalculationUpdate.mk None (Some 8%float) None) alice
         (open_session one_calculation_db no_faults))
  = Ok (Calculation.mk 1 1 10 8 "add" 18 0)
  /\ edit_calculation 1 (CalculationUpdate.mk None (Some 8%float) None) alice
       (snd (edit_calculation 1 (CalculationUpdate.mk None (Some 8%float) None)
               alice (open_session one_calculation_db no_faults)))
     = (Ok (Calculation.mk 1 1 10 8 "add" 18 0),
        snd (edit_calculation 1 (CalculationUpdate.mk None (Some 8%float) None)
               alice (open_session one_calculation_db no_faults))).
Proof.
  split; [reflexivity|].
  apply (edit_calculation_idempotent 1
           (CalculationUpdate.mk None (Some 8%float) None) alice
           (open_session one_calculation_db no_faults)).
  reflexivity.
Defined.

Lemma registered_user_can_log_in_witness :
  verify_password "password123" (hash_password "salt" "password123") = true
  /\ login_user 9 (UserLogin.mk "carol" "password123")
       (snd (register_user 5 "salt" carol_data (open_session two_users_db no_faults)))
     = Ok (AuthResponse.mk "Login successful"
             (UserResponse.mk 3 "carol" "carol@x.com" true 5)
             (session_token 9 "carol") "bearer").
Proof.
  split; [reflexivity|].
  apply (registered_user_can_log_in 5 9 "salt" carol_data
           (open_session two_users_db no_faults)
           (snd (register_user 5 "salt" carol_data
                   (open_session two_users_db no_faults)))
           (AuthResponse.mk "Registration successful"
              (UserResponse.mk 3 "carol" "carol@x.com" true 5)
              (session_token 5 "carol") "bearer")).
  - reflexivity.
  - reflexivity.
  - intros x [<-|[<-|[]]]; discriminate.
Defined.

Lemma registration_token_resolves_witness :
  (exists user,
     get_current_user_dependency 100 (session_token 5 "carol")
       (snd (register_user 5 "salt" carol_data (open_session two_users_db no_faults)))
     = Ok user
     /\ User.username user = "carol")
  /\ get_current_user_dependency 1806 (session_token 5 "carol")
       (snd (register_user 5 "salt" carol_data (open_session two_users_db no_faults)))
     = credentials_exception.
Proof.
  destruct (registration_token_resolves 5 100 "salt" carol_data
              (open_session two_users_db no_faults)
              (snd (register_user 5 "salt" carol_data
                      (open_session two_users_db no_faults)))
              (AuthResponse.mk "Registration successful"
                 (UserResponse.mk 3 "carol" "carol@x.com" true 5)
                 (session_token 5 "carol") "bearer") eq_refl) as [Hvalid _].
  destruct (registration_token_resolves 5 1806 "salt" carol_data
              (open_session two_users_db no_faults)
              (snd (register_user 5 "salt" carol_data
                      (open_session two_users_db no_faults)))
              (AuthResponse.mk "Registration successful"
                 (UserResponse.mk 3 "carol" "carol@x.com" true 5)
                 (session_token 5 "carol") "bearer") eq_refl) as [_ Hexpired].
  split.
  - destruct Hvalid as (user & E & Hproj & _); [by vm_compute|reflexivity|].
    exists user. split; [exact E|].
    change (UserResponse.username (UserResponse.model_validate user) = "carol").
    rewrite Hproj. reflexivity.
  - apply Hexpired. by vm_compute.
Defined.

Lemma login_token_resolves_witness :
  NoDup (map User.username (users (pending (open_session two_users_db no_faults))))
  /\ login_user 10 (UserLogin.mk "alice@x.com" "password123")
       (open_session two_users_db no_faults)
     = Ok (AuthResponse.mk "Login successful" (UserResponse.model_validate alice)
             (session_token 10 "alice") "bearer")
  /\ get_current_user_dependency 1810 (session_token 10 "alice")
       (open_session two_users_db no_faults) = Ok alice.
Proof.
  assert (Hnd : NoDup (map User.username
                         (users (pending (open_session two_users_db no_faults))))).
  { cbn. distinct. }
  assert (Hlogin : login_user 10 (UserLogin.mk "alice@x.com" "password123")
                     (open_session two_users_db no_faults)
                   = Ok (AuthResponse.mk "Login successful"
                           (UserResponse.model_validate alice)
                           (session_token 10 "alice") "bearer"))
    by reflexivity.
  split; [exact Hnd|]. split; [exact Hlogin|].
  destruct (login_token_resolves 10 1810 _ _ _ Hlogin Hnd)
    as (user & Hin & _ & Hproj & _ & Hvalid & _).
  assert (Huser : user = alice).
  { cbn in Hin, Hproj. destruct Hin as [<-|[<-|[]]];
      [reflexivity|discriminate]. }
  subst user. apply Hvalid; [by vm_compute|reflexivity].
Defined.

Lemma login_token_opens_protected_routes_witness :
  NoDup (map User.username (users two_users_db))
  /\ fst (GET_users_me 1810 (Some ("Bearer", session_token 10 "alice"))
            two_users_db no_faults)
     = Ok alice.
Proof.
  assert (Hnd : NoDup (map User.username (users two_users_db)))
    by (cbn; distinct).
  split; [exact Hnd|].
  assert (Hlogin : login_user 10 (UserLogin.mk "alice" "password123")
                     (open_session two_users_db no_faults)
                   = Ok (AuthResponse.mk "Login successful"
                           (UserResponse.model_validate alice)
                           (session_token 10 "alice") "bearer"))
    by reflexivity.
  assert (Hle : 1810 <= 10 + timedelta_minutes ACCESS_TOKEN_EXPIRE_MINUTES)
    by (by vm_compute).
  destruct (login_token_opens_protected_routes 10 1810 _ two_users_db
              no_faults no_faults _ Hlogin Hnd Hle eq_refl)
    as (user & Hin & Hproj & Hopen).
  assert (Huser : user = alice).
  { cbn in Hin, Hproj. destruct Hin as [<-|[<-|[]]];
      [reflexivity|discriminate]. }
  subst user. unfold GET_users_me.
  cbn [AuthResponse.access_token] in Hopen.
  rewrite (Hopen "Bearer" _ _ eq_refl). reflexivity.
Defined.


Lemma user_handlers_keep_unique_witness :
  users_unique (committed (open_session two_users_db no_faults))
  /\ users_unique
       (committed
          (snd (register_user 5 "salt" carol_data
                  (open_session two_users_db no_faults))))
  /\ users_unique
       (committed
          (snd (update_user "salt" 2
                  (UserUpdate.mk (Some "robert") (Some "rob@x.com") None)
                  (open_session two_users_db no_faults)))).
Proof.
  destruct (user_handlers_keep_unique (open_session two_users_db no_faults)
              two_users_unique two_users_unique) as (Hreg & Hupd & _).
  split; [exact two_users_unique|]. split; [apply Hreg|apply Hupd].
Defined.

Lemma failed_user_write_is_all_or_nothing_witness :
  PUT_user None "salt" 2
    (UserUpdate.mk (Some "robert") (Some "alice@x.com") None) two_users_db no_faults
  = (Raise (HTTPException HTTP_400_BAD_REQUEST "Email already taken"),
     two_users_db)
  /\ snd (PUT_user None "salt" 2
            (UserUpdate.mk (Some "robert") None None) two_users_db
            (mkFaults true false))
     = two_users_db
  /\ (exists user,
        fst (PUT_user None "salt" 2
               (UserUpdate.mk (Some "robert") None None) two_users_db no_faults)
        = Ok user
        /\ snd (PUT_user None "salt" 2
                  (UserUpdate.mk (Some "robert") None None) two_users_db
                  (mkFaults false true))
           = snd (PUT_user None "salt" 2
                    (UserUpdate.mk (Some "robert") None None) two_users_db
                    no_faults)).
Proof.
  destruct (failed_user_write_is_all_or_nothing
              (open_session two_users_db no_faults) two_users_db no_faults)
    as (Hclient & _).
  destruct (Hclient 400 "Email already taken") as (_ & _ & Hput).
  specialize (Hput None "salt" 2
                (UserUpdate.mk (Some "robert") (Some "alice@x.com") None)
                eq_refl).
  destruct (failed_user_write_is_all_or_nothing
              (open_session two_users_db no_faults) two_users_db
              (mkFaults true false))
    as (_ & _ & Hcommit & _).
  destruct (failed_user_write_is_all_or_nothing
              (open_session two_users_db no_faults) two_users_db
              (mkFaults false true))
    as (_ & _ & _ & _ & _ & _ & _ & Hlate).
  split; [|split].
  - rewrite (surjective_pairing (PUT_user _ _ _ _ _ _)). rewrite Hput.
    reflexivity.
  - apply (proj1 (Hcommit eq_refl)).
  - destruct (Hlate None "salt" 2 (UserUpdate.mk (Some "robert") None None)
                SQLAlchemyError eq_refl) as [Hsame|Hdone].
    + exfalso. vm_compute in Hsame. inversion Hsame.
    + exact Hdone.
Defined.

Lemma update_conflict_iff_taken_by_another_witness :
  query_user_by_id 2 (open_session two_users_db no_faults) = Some bob
  /\ email_taken 2 (UserUpdate.mk (Some "bob") (Some "alice@x.com") None)
       (open_session two_users_db no_faults)
  /\ ~ username_taken 2 (UserUpdate.mk (Some "bob") (Some "alice@x.com") None)
         (open_session two_users_db no_faults)
  /\ fst (update_user "salt" 2
            (UserUpdate.mk (Some "bob") (Some "alice@x.com") None)
            (open_session two_users_db no_faults))
     = Raise (HTTPException HTTP_400_BAD_REQUEST "Email already taken").
Proof.
  assert (Hq : query_user_by_id 2 (open_session two_users_db no_faults) = Some bob)
    by reflexivity.
  assert (Hmail : email_taken 2
                    (UserUpdate.mk (Some "bob") (Some "alice@x.com") None)
                    (open_session two_users_db no_faults)).
  { exists "alice@x.com", alice. repeat split.
    - left. reflexivity.
    - cbn. lia. }
  assert (Hname : ~ username_taken 2
                      (UserUpdate.mk (Some "bob") (Some "alice@x.com") None)
                      (open_session two_users_db no_faults)).
  { intros (v & x & [= <-] & [<-|[<-|[]]] & Hn & Hne);
      [discriminate|apply Hne; reflexivity]. }
  split; [exact Hq|]. split; [exact Hmail|]. split; [exact Hname|].
  destruct (update_conflict_iff_taken_by_another "salt" 2
              (UserUpdate.mk (Some "bob") (Some "alice@x.com") None)
              (open_session two_users_db no_faults) bob Hq) as (_ & _ & Hsecond).
  apply Hsecond; assumption.
Defined.

Lemma get_current_user_with_and_without_session_witness :
  get_current_user 100 (session_token 10 "nobody") None
  = Ok (UsernameOnly (JStr "nobody"))
  /\ get_current_user 100 (session_token 10 "nobody")
       (Some (open_session two_users_db no_faults))
     = credentials_exception.
Proof.
  destruct (get_current_user_with_and_without_session 100
              (session_token 10 "nobody")) as (Hsame & Hnone & _).
  split.
  - apply Hnone. exists (session_payload 10 "nobody").
    split; [vm_compute; reflexivity|reflexivity].
  - rewrite Hsame. vm_compute. reflexivity.
Defined.
